(** * Payroll simulation engine: a shallow embedding of
      [scripts/generate_mock_data.py] and the properties of its
      calibrator, lifecycle events, payroll computation and time
      tracking.

    Conventions of the embedding.
    - A Python [float] is read as the exact rational it denotes ([Q]):
      the development is about the arithmetic the program performs, not
      about binary64 rounding.  [round(x, 2)] is rounding to the nearest
      hundredth, ties to even.
    - A [datetime] at midnight is its proleptic Gregorian ordinal ([Z]),
      as [datetime.toordinal] gives it; [timedelta(days=n)] is [n].
    - The process-wide generator of the [random] module is an abstract
      state with the two primitives every call of the program goes
      through ([random()] and [_randbelow(n)]) and their ranges.
    - [self] and the generator state form the world threaded through
      every method; an uncaught exception ends the computation and leaves
      the world as it was when it was raised. *)

From Stdlib Require Import ZArith QArith Qround Qabs List String Ascii Bool.
From Stdlib Require Import Lia Lra Psatz Permutation.
Import ListNotations.

Local Open Scope Z_scope.

(* ------------------------------------------------------------------ *)
(** ** Numbers *)

Module Num.

Local Open Scope Q_scope.

(** [round(x)] of Python 3 on an exact value: nearest integer, ties to
    the even one. *)
Definition round_half_even (q : Q) : Z :=
  let f := Qfloor q in
  match Qcompare (q - inject_Z f) (1 # 2) with
  | Lt => f
  | Gt => (f + 1)%Z
  | Eq => if Z.even f then f else (f + 1)%Z
  end.

(** [round(x, 2)]. *)
Definition round2 (q : Q) : Q := round_half_even (q * 100) # 100.

(** [int(x)] on a float: truncation toward zero. *)
Definition int_of (q : Q) : Z :=
  if Qle_bool 0 q then Qfloor q else Qceiling q.

(** [sum(...)] over floats, left to right from [0]. *)
Definition sumQ (l : list Q) : Q := fold_left Qplus l 0.

Definition Qmin (a b : Q) : Q := if Qle_bool a b then a else b.

End Num.

(* ------------------------------------------------------------------ *)
(** ** Dates: the part of [datetime] the program uses *)

Module Calendar.

Definition is_leap (year : Z) : bool :=
  (year mod 4 =? 0) && (negb (year mod 100 =? 0) || (year mod 400 =? 0)).

Definition days_before_year (year : Z) : Z :=
  let y := year - 1 in y * 365 + y / 4 - y / 100 + y / 400.

Definition DAYS_IN_MONTH (month : Z) : Z :=
  match month with
  | 1 => 31 | 2 => 28 | 3 => 31 | 4 => 30 | 5 => 31 | 6 => 30
  | 7 => 31 | 8 => 31 | 9 => 30 | 10 => 31 | 11 => 30 | 12 => 31
  | _ => -1
  end.

Definition DAYS_BEFORE_MONTH (month : Z) : Z :=
  match month with
  | 1 => 0 | 2 => 31 | 3 => 59 | 4 => 90 | 5 => 120 | 6 => 151
  | 7 => 181 | 8 => 212 | 9 => 243 | 10 => 273 | 11 => 304 | 12 => 334
  | _ => -1
  end.

Definition b2z (b : bool) : Z := if b then 1 else 0.

Definition days_before_month (year month : Z) : Z :=
  DAYS_BEFORE_MONTH month + b2z ((2 <? month) && is_leap year).

Definition ymd2ord (year month day : Z) : Z :=
  days_before_year year + days_before_month year month + day.

Definition DI400Y := days_before_year 401.
Definition DI100Y := days_before_year 101.
Definition DI4Y := days_before_year 5.

(** [(year, month, day)] of an ordinal, as [datetime] computes it. *)
Definition ord2ymd (ordinal : Z) : Z * Z * Z :=
  let n := ordinal - 1 in
  let n400 := n / DI400Y in let n := n mod DI400Y in
  let year := n400 * 400 + 1 in
  let n100 := n / DI100Y in let n := n mod DI100Y in
  let n4 := n / DI4Y in let n := n mod DI4Y in
  let n1 := n / 365 in let n := n mod 365 in
  let year := year + n100 * 100 + n4 * 4 + n1 in
  if (n1 =? 4) || (n100 =? 4) then (year - 1, 12, 31)
  else
    let leapyear := (n1 =? 3) && (negb (n4 =? 24) || (n100 =? 3)) in
    let month := Z.shiftr (n + 50) 5 in
    let preceding := DAYS_BEFORE_MONTH month + b2z ((2 <? month) && leapyear) in
    if n <? preceding then
      let month := month - 1 in
      let preceding :=
        preceding - (DAYS_IN_MONTH month + b2z ((month =? 2) && leapyear)) in
      (year, month, n - preceding + 1)
    else (year, month, n - preceding + 1).

Definition year_of (d : Z) : Z := fst (fst (ord2ymd d)).
Definition month_of (d : Z) : Z := snd (fst (ord2ymd d)).
Definition day_of (d : Z) : Z := snd (ord2ymd d).

(** [d.weekday()]: Monday is 0. *)
Definition weekday (d : Z) : Z := (d + 6) mod 7.

End Calendar.

(* ------------------------------------------------------------------ *)
(** ** Strings: formatting and the keyword tests *)

Module Str.

Local Open Scope string_scope.

Definition digit (n : Z) : string :=
  String (ascii_of_nat (48 + Z.to_nat (n mod 10)%Z)) EmptyString.

(** Decimal digits of a non-negative number, most significant first. *)
Fixpoint digits (fuel : nat) (n : Z) : string :=
  match fuel with
  | O => digit n
  | S f => if (n <? 10)%Z then digit n else digits f (n / 10)%Z ++ digit n
  end.

Definition decimal (n : Z) : string := digits (Z.to_nat n) n.

Fixpoint zeros (k : nat) : string :=
  match k with O => "" | S k' => "0" ++ zeros k' end.

(** [f"{n:0wd}"] for [n >= 0]. *)
Definition pad0 (w : nat) (n : Z) : string :=
  let s := decimal n in zeros (w - String.length s)%nat ++ s.

Definition lower_ascii (c : ascii) : ascii :=
  let n := nat_of_ascii c in
  if (Nat.leb 65 n && Nat.leb n 90)%bool then ascii_of_nat (n + 32) else c.

Fixpoint lower (s : string) : string :=
  match s with
  | EmptyString => EmptyString
  | String c s' => String (lower_ascii c) (lower s')
  end.

(** [word in s]. *)
Fixpoint contains (word s : string) : bool :=
  if prefix word s then true
  else match s with
       | EmptyString => false
       | String _ s' => contains word s'
       end.

(** [sep.join(l)]. *)
Fixpoint join (sep : string) (l : list string) : string :=
  match l with
  | [] => ""
  | [x] => x
  | x :: rest => x ++ sep ++ join sep rest
  end.

End Str.

(* ------------------------------------------------------------------ *)
(** ** The [random] module *)

(** The generator behind [random.seed], [random.random] and
    [Random._randbelow]; [uniform], [randint] and [choice] are defined
    from them below, as in the library.  The two laws are the ranges the
    library documents: [random()] lies in [[0, 1)] and [_randbelow(n)] in
    [[0, n)]. *)
Record Rng : Type := {
  gen : Type;
  seed : Z -> gen;
  random : gen -> Q * gen;
  randbelow : Z -> gen -> Z * gen;
  random_range : forall g, (0 <= fst (random g))%Q /\ (fst (random g) < 1)%Q;
  randbelow_range :
    forall n g, 0 < n -> 0 <= fst (randbelow n g) < n
}.

(* ------------------------------------------------------------------ *)
(** ** Data model: the dictionaries of the generator as records *)

Local Open Scope string_scope.
Local Open Scope Z_scope.

Record Profile : Type := {
  p_title : string;
  salary_range : Q * Q;
  hourly : bool
}.

Record Employee : Type := {
  employee_id : string;
  employee_name : string;
  title : string;
  hire_date : Z;
  annual_salary : Q;
  hourly_rate : Q;
  is_hourly : bool;
  department : string;
  active : bool;
  termination_date : option Z
}.

(** The two kinds of dictionary appended to [events]; [event_type] is
    the constructor. *)
Inductive Event : Type :=
| Termination (ev_employee_id ev_employee_name : string) (date : Z)
              (reason : string)
| Hiring (ev_employee_id ev_employee_name : string) (date : Z)
         (replacing : string).

Definition ev_date (e : Event) : Z :=
  match e with
  | Termination _ _ d _ => d
  | Hiring _ _ d _ => d
  end.

Record PayrollRecord : Type := {
  pr_employee_id : string;
  pr_employee_name : string;
  pr_department : string;
  pay_period_start : Z;
  pay_period_end : Z;
  hours_worked : Q;
  pr_hourly_rate : Q;
  gross_pay : Q;
  federal_tax : Q;
  state_tax : Q;
  fica_tax : Q;
  medicare_tax : Q;
  total_taxes : Q;
  net_pay : Q;
  employer_fica : Q;
  employer_medicare : Q;
  employer_unemployment : Q;
  health_insurance : Q;
  dental_vision : Q;
  retirement_401k : Q;
  life_insurance : Q;
  total_employer_burden : Q;
  true_cost : Q;
  burden_rate : Q;
  pr_source_type : string;
  pr_filename : string
}.

Record TimeTrackingRecord : Type := {
  tr_employee_id : string;
  tr_employee_name : string;
  work_date : Z;
  total_hours : Q;
  project_allocations : list (string * Q);
  billable_hours : Q;
  notes : string;
  tr_source_type : string;
  tr_filename : string
}.

(* ------------------------------------------------------------------ *)
(** ** Module constants *)

Definition BASELINE_MONTHLY_COST : Q := 596000.
Definition BASELINE_EMPLOYEES : Q := 24.
Definition START_DATE : Z := Calendar.ymd2ord 2022 1 1.
Definition END_DATE : Z := Calendar.ymd2ord 2024 12 31.

Definition mkProfile (t : string) (lo hi : Q) (h : bool) : Profile :=
  {| p_title := t; salary_range := (lo, hi); hourly := h |}.

Definition EMPLOYEE_PROFILES : list Profile :=
  [ mkProfile "CEO" 180000 220000 false;
    mkProfile "VP Engineering" 150000 180000 false;
    mkProfile "Senior Software Engineer" 120000 150000 false;
    mkProfile "Senior Data Engineer" 125000 155000 false;
    mkProfile "DevOps Engineer" 115000 145000 false;
    mkProfile "Product Manager" 110000 140000 false;
    mkProfile "Software Engineer" 85000 115000 false;
    mkProfile "Data Analyst" 75000 95000 false;
    mkProfile "Marketing Manager" 70000 90000 false;
    mkProfile "Sales Representative" 65000 85000 false;
    mkProfile "Customer Success" 55000 70000 false;
    mkProfile "Operations Coordinator" 50000 65000 false;
    mkProfile "Administrative Assistant" 45000 55000 false;
    mkProfile "Contractor" 75 150 true ].

(** [SEASONAL_MULTIPLIERS.get(month, default)]. *)
Definition SEASONAL_MULTIPLIERS_get (month : Z) (default : Q) : Q :=
  match month with
  | 1 => 0.95%Q | 2 => 0.98%Q | 3 => 1.05%Q | 4 => 1.02%Q
  | 5 => 1.08%Q | 6 => 1.06%Q | 7 => 0.92%Q | 8 => 0.90%Q
  | 9 => 1.10%Q | 10 => 1.08%Q | 11 => 1.05%Q | 12 => 0.88%Q
  | _ => default
  end.

Module BENEFITS_RATES.
Definition health_insurance : Q := 0.08.
Definition dental_vision : Q := 0.015.
Definition retirement_401k : Q := 0.04.
Definition life_insurance : Q := 0.005.
End BENEFITS_RATES.

Module TAX_RATES.
Definition federal_income : Q := 0.12.
Definition state_income : Q := 0.05.
Definition social_security : Q := 0.062.
Definition medicare : Q := 0.0145.
Definition unemployment : Q := 0.006.
End TAX_RATES.

Definition employee_names : list string :=
  [ "Sarah Johnson"; "Michael Chen"; "Jessica Rodriguez"; "David Kim";
    "Emily Davis"; "Robert Wilson"; "Ashley Brown"; "Christopher Lee";
    "Amanda Martinez"; "James Anderson"; "Lauren Taylor"; "Daniel Garcia";
    "Michelle Lewis"; "Ryan Murphy"; "Nicole White"; "Kevin Scott";
    "Jennifer Thompson"; "Mark Robinson"; "Samantha Clark"; "Brian Hall";
    "Rachel Green"; "Justin Adams"; "Melissa King"; "Andrew Wright" ].

(* ------------------------------------------------------------------ *)
(** ** Exceptions and the world *)

Inductive exn : Type := ZeroDivisionError | IndexError | ValueError.

(** What a method call ends in: a value, an uncaught exception, or a
    loop of the model that ran out of fuel (shown below not to happen). *)
Inductive outcome (A : Type) : Type :=
| Ok (a : A)
| Raise (e : exn)
| OutOfFuel.

Arguments Ok {A} a.
Arguments Raise {A} e.
Arguments OutOfFuel {A}.

Section Engine.

Context (R : Rng).

(** The attributes of [self] and the state of the module-level
    generator. *)
Record World : Type := {
  rng_state : gen R;
  employees : list Employee;
  payroll_records : list PayrollRecord;
  time_tracking_records : list TimeTrackingRecord;
  hiring_events : list Event
}.

Definition M (A : Type) : Type := World -> outcome A * World.

Definition ret {A} (a : A) : M A := fun w => (Ok a, w).

Definition bind {A B} (c : M A) (k : A -> M B) : M B :=
  fun w =>
    match c w with
    | (Ok a, w') => k a w'
    | (Raise e, w') => (Raise e, w')
    | (OutOfFuel, w') => (OutOfFuel, w')
    end.

Definition raise {A} (e : exn) : M A := fun w => (Raise e, w).
Definition out_of_fuel {A} : M A := fun w => (OutOfFuel, w).
Definition get : M World := fun w => (Ok w, w).

Notation "x <- c ;; k" := (bind c (fun x => k))
  (at level 61, c at next level, right associativity).
Notation "c ;;; k" := (bind c (fun _ => k))
  (at level 61, right associativity).

Definition set_rng (g : gen R) (w : World) : World :=
  {| rng_state := g; employees := employees w;
     payroll_records := payroll_records w;
     time_tracking_records := time_tracking_records w;
     hiring_events := hiring_events w |}.

Definition set_employees (l : list Employee) (w : World) : World :=
  {| rng_state := rng_state w; employees := l;
     payroll_records := payroll_records w;
     time_tracking_records := time_tracking_records w;
     hiring_events := hiring_events w |}.

Definition set_payroll_records (l : list PayrollRecord) (w : World) : World :=
  {| rng_state := rng_state w; employees := employees w;
     payroll_records := l;
     time_tracking_records := time_tracking_records w;
     hiring_events := hiring_events w |}.

Definition set_time_tracking_records (l : list TimeTrackingRecord)
    (w : World) : World :=
  {| rng_state := rng_state w; employees := employees w;
     payroll_records := payroll_records w;
     time_tracking_records := l;
     hiring_events := hiring_events w |}.

Definition set_hiring_events (l : list Event) (w : World) : World :=
  {| rng_state := rng_state w; employees := employees w;
     payroll_records := payroll_records w;
     time_tracking_records := time_tracking_records w;
     hiring_events := l |}.

Definition modify (f : World -> World) : M unit := fun w => (Ok tt, f w).

Fixpoint for_each {A} (l : list A) (body : A -> M unit) : M unit :=
  match l with
  | [] => ret tt
  | x :: rest => body x ;;; for_each rest body
  end.

(** *** [random] *)

Definition py_seed (a : Z) : M unit := modify (set_rng (seed R a)).

Definition py_random : M Q :=
  fun w => let (u, g) := random R (rng_state w) in (Ok u, set_rng g w).

Definition py_randbelow (n : Z) : M Z :=
  fun w => let (k, g) := randbelow R n (rng_state w) in (Ok k, set_rng g w).

(** [random.uniform(a, b)] is [a + (b - a) * random()]. *)
Definition uniform (a b : Q) : M Q :=
  u <- py_random ;; ret (a + (b - a) * u)%Q.

(** [random.randint(a, b)] is [randrange(a, b + 1)]. *)
Definition randint (a b : Z) : M Z :=
  let width := b + 1 - a in
  if 0 <? width then k <- py_randbelow width ;; ret (a + k)
  else raise ValueError.

(** [random.choice(seq)]. *)
Definition choice {A} (seq : list A) : M A :=
  match seq with
  | [] => raise IndexError
  | _ :: _ =>
      i <- py_randbelow (Z.of_nat (List.length seq)) ;;
      match nth_error seq (Z.to_nat i) with
      | Some x => ret x
      | None => raise IndexError
      end
  end.

(** [a / b] on floats. *)
Definition truediv (a b : Q) : M Q :=
  if Qeq_bool b 0 then raise ZeroDivisionError else ret (a / b)%Q.

(** *** Roster generator and calibrator *)

Definition any_word_in (words : list string) (s : string) : bool :=
  existsb (fun word => Str.contains word s) words.

Definition _assign_department (title : string) : string :=
  if any_word_in ["ceo"; "vp"] (Str.lower title) then "Executive"
  else if any_word_in ["engineer"; "devops"; "data"] (Str.lower title)
  then "Engineering"
  else if any_word_in ["product"; "manager"] (Str.lower title) then "Product"
  else if any_word_in ["marketing"; "sales"] (Str.lower title)
  then "Sales & Marketing"
  else "Operations".

Definition scale (adjustment_factor : Q) (e : Employee) : Employee :=
  {| employee_id := employee_id e;
     employee_name := employee_name e;
     title := title e;
     hire_date := hire_date e;
     annual_salary := (annual_salary e * adjustment_factor)%Q;
     hourly_rate := (hourly_rate e * adjustment_factor)%Q;
     is_hourly := is_hourly e;
     department := department e;
     active := active e;
     termination_date := termination_date e |}.

(** The body of [_calibrate_salaries] for a given target. *)
Definition calibrate_to (target_annual : Q) : M unit :=
  w <- get ;;
  let total_annual := Num.sumQ (map annual_salary (employees w)) in
  adjustment_factor <- truediv target_annual total_annual ;;
  modify (fun w => set_employees (map (scale adjustment_factor) (employees w)) w).

Definition _calibrate_salaries : M unit :=
  calibrate_to (BASELINE_MONTHLY_COST * 12)%Q.

(** The loop of [_generate_employee_roster] over
    [enumerate(employee_names)]. *)
Fixpoint roster_loop (i : Z) (names : list string) : M unit :=
  match names with
  | [] => ret tt
  | name :: rest =>
      profile <- choice EMPLOYEE_PROFILES ;;
      pay <- (if hourly profile
              then hr <- uniform (fst (salary_range profile))
                                 (snd (salary_range profile)) ;;
                   ret (hr * 2080, hr)%Q
              else sal <- uniform (fst (salary_range profile))
                                  (snd (salary_range profile)) ;;
                   ret (sal, sal / 2080)%Q) ;;
      days <- randint 0 730 ;;
      let employee :=
        {| employee_id := "EMP" ++ Str.pad0 3 (i + 1);
           employee_name := name;
           title := p_title profile;
           hire_date := START_DATE + days;
           annual_salary := Num.round2 (fst pay);
           hourly_rate := Num.round2 (snd pay);
           is_hourly := hourly profile;
           department := _assign_department (p_title profile);
           active := true;
           termination_date := None |} in
      modify (fun w => set_employees (employees w ++ [employee]) w) ;;;
      roster_loop (i + 1) rest
  end.

Definition _generate_employee_roster : M unit :=
  py_seed 42 ;;;
  roster_loop 0 employee_names ;;;
  _calibrate_salaries.

(** [PayrollDataGenerator.__init__]. *)
Definition __init__ : M unit :=
  modify (fun w =>
    {| rng_state := rng_state w; employees := []; payroll_records := [];
       time_tracking_records := []; hiring_events := [] |}) ;;;
  _generate_employee_roster.

(** *** Lifecycle events *)

Definition num_terminations : Z :=
  Num.int_of (BASELINE_EMPLOYEES * 0.15 * 3)%Q.

(** The entries of [self.employees] that are flagged active, each with
    its position: the list comprehension holds the same dictionaries as
    the roster, so a change to the chosen one is a change at that
    position. *)
Definition active_entries (l : list Employee) : list (nat * Employee) :=
  filter (fun p => active (snd p)) (combine (seq 0 (List.length l)) l).

Fixpoint update_nth {A} (i : nat) (f : A -> A) (l : list A) : list A :=
  match l, i with
  | [], _ => []
  | x :: rest, O => f x :: rest
  | x :: rest, S i' => x :: update_nth i' f rest
  end.

Definition terminate (term_date : Z) (e : Employee) : Employee :=
  {| employee_id := employee_id e;
     employee_name := employee_name e;
     title := title e;
     hire_date := hire_date e;
     annual_salary := annual_salary e;
     hourly_rate := hourly_rate e;
     is_hourly := is_hourly e;
     department := department e;
     active := false;
     termination_date := Some term_date |}.

(** The first loop of [generate_hiring_termination_events],
    [for _ in range(n)]. *)
Fixpoint termination_loop (n : nat) (events : list Event) : M (list Event) :=
  match n with
  | O => ret events
  | S n' =>
      w <- get ;;
      chosen <- choice (active_entries (employees w)) ;;
      let employee := snd chosen in
      days <- randint 90 1000 ;;
      let term_date := START_DATE + days in
      if term_date <? END_DATE then
        reason <- choice ["voluntary"; "performance"; "layoff"; "relocation"] ;;
        modify (fun w =>
          set_employees
            (update_nth (fst chosen) (terminate term_date) (employees w)) w) ;;;
        termination_loop n'
          (events ++ [Termination (employee_id employee)
                                  (employee_name employee) term_date reason])
      else termination_loop n' events
  end.

(** The second loop, [for term_event in events]: the list iterator
    reads [events[i]] for [i = 0, 1, ...] from the list as it is at that
    moment, so it also visits the hiring events the body appends.

    [schedule] is a ghost of the model: it records, for every
    termination event visited, the employee id and the [hire_date]
    computed for the replacement, whether or not the hire is made.
    Nothing in the loop reads it. *)
Fixpoint replacement_loop (fuel : nat) (i : nat) (events : list Event)
    (schedule : list (string * Z)) : M (list Event * list (string * Z)) :=
  match fuel with
  | O => out_of_fuel
  | S fuel' =>
      match nth_error events i with
      | None => ret (events, schedule)
      | Some (Termination term_id _ term_date _) =>
          hire_delay <- randint 30 180 ;;
          let hire_date := term_date + hire_delay in
          let schedule := (schedule ++ [(term_id, hire_date)])%list in
          if hire_date <? END_DATE then
            salary <- uniform 85000 115000 ;;
            hourly_base <- uniform 85000 115000 ;;
            let number := Z.of_nat (List.length events) + 1 in
            let new_employee :=
              {| employee_id := "NEW" ++ Str.pad0 3 number;
                 employee_name := "New Hire " ++ Str.decimal number;
                 title := "Software Engineer";
                 hire_date := hire_date;
                 annual_salary := salary;
                 hourly_rate := (hourly_base / 2080)%Q;
                 is_hourly := false;
                 department := "Engineering";
                 active := true;
                 termination_date := None |} in
            modify (fun w => set_employees (employees w ++ [new_employee]) w) ;;;
            replacement_loop fuel' (S i)
              (events ++ [Hiring (employee_id new_employee)
                                 (employee_name new_employee)
                                 hire_date term_id])
              schedule
          else replacement_loop fuel' (S i) events schedule
      | Some (Hiring _ _ _ _) => replacement_loop fuel' (S i) events schedule
      end
  end.

(** [sorted(events, key=lambda x: x["date"])]: a stable sort. *)
Fixpoint insert_by_date (e : Event) (l : list Event) : list Event :=
  match l with
  | [] => [e]
  | x :: rest =>
      if ev_date e <=? ev_date x then e :: l else x :: insert_by_date e rest
  end.

Definition sorted_by_date (l : list Event) : list Event :=
  fold_right insert_by_date [] l.

(** Returns the ghost schedule of [replacement_loop] (the method itself
    returns nothing). *)
Definition generate_hiring_termination_events : M (list (string * Z)) :=
  events <- termination_loop (Z.to_nat num_terminations) [] ;;
  r <- replacement_loop (2 * List.length events + 1) 0 events [] ;;
  modify (set_hiring_events (sorted_by_date (fst r))) ;;;
  ret (snd r).

(** *** Payroll computation *)

(** The filter of both [active_employees] comprehensions. *)
Definition on_payroll (current_date : Z) (emp : Employee) : bool :=
  (hire_date emp <=? current_date) &&
  match termination_date emp with
  | None => true
  | Some t => current_date <? t
  end.

(** [d.strftime('%Y%m%d')]. *)
Definition strftime_Ymd (d : Z) : string :=
  Str.pad0 4 (Calendar.year_of d) ++ Str.pad0 2 (Calendar.month_of d)
  ++ Str.pad0 2 (Calendar.day_of d).

Definition _generate_payroll_record (employee : Employee) (pay_date : Z)
    : M PayrollRecord :=
  base <- (if is_hourly employee
           then hours_worked <- uniform 70 85 ;;
                ret (hours_worked, hours_worked * hourly_rate employee)%Q
           else ret (80, annual_salary employee / 26)%Q) ;;
  let hours_worked := fst base in
  let seasonal_factor :=
    SEASONAL_MULTIPLIERS_get (Calendar.month_of pay_date) 1 in
  variation <- uniform 0.95 1.05 ;;
  let gross_pay := (snd base * (seasonal_factor * variation))%Q in
  let federal_tax := (gross_pay * TAX_RATES.federal_income)%Q in
  let state_tax := (gross_pay * TAX_RATES.state_income)%Q in
  let fica_tax := (gross_pay * TAX_RATES.social_security)%Q in
  let medicare_tax := (gross_pay * TAX_RATES.medicare)%Q in
  let employer_fica := (gross_pay * TAX_RATES.social_security)%Q in
  let employer_medicare := (gross_pay * TAX_RATES.medicare)%Q in
  let employer_unemployment := (gross_pay * TAX_RATES.unemployment)%Q in
  let health_insurance :=
    (annual_salary employee * BENEFITS_RATES.health_insurance / 26)%Q in
  let dental_vision :=
    (annual_salary employee * BENEFITS_RATES.dental_vision / 26)%Q in
  let retirement_401k := (gross_pay * BENEFITS_RATES.retirement_401k)%Q in
  let life_insurance :=
    (annual_salary employee * BENEFITS_RATES.life_insurance / 26)%Q in
  let total_employer_burden :=
    (employer_fica + employer_medicare + employer_unemployment +
     health_insurance + dental_vision + retirement_401k + life_insurance)%Q in
  let total_taxes := (federal_tax + state_tax + fica_tax + medicare_tax)%Q in
  let net_pay := (gross_pay - total_taxes)%Q in
  let true_cost := (gross_pay + total_employer_burden)%Q in
  ratio <- truediv total_employer_burden gross_pay ;;
  let burden_rate := (ratio * 100)%Q in
  ret {| pr_employee_id := employee_id employee;
         pr_employee_name := employee_name employee;
         pr_department := department employee;
         pay_period_start := pay_date - 13;
         pay_period_end := pay_date;
         hours_worked := Num.round2 hours_worked;
         pr_hourly_rate := Num.round2 (hourly_rate employee);
         gross_pay := Num.round2 gross_pay;
         federal_tax := Num.round2 federal_tax;
         state_tax := Num.round2 state_tax;
         fica_tax := Num.round2 fica_tax;
         medicare_tax := Num.round2 medicare_tax;
         total_taxes := Num.round2 total_taxes;
         net_pay := Num.round2 net_pay;
         employer_fica := Num.round2 employer_fica;
         employer_medicare := Num.round2 employer_medicare;
         employer_unemployment := Num.round2 employer_unemployment;
         health_insurance := Num.round2 health_insurance;
         dental_vision := Num.round2 dental_vision;
         retirement_401k := Num.round2 retirement_401k;
         life_insurance := Num.round2 life_insurance;
         total_employer_burden := Num.round2 total_employer_burden;
         true_cost := Num.round2 true_cost;
         burden_rate := Num.round2 burden_rate;
         pr_source_type := "paychex";
         pr_filename :=
           "paychex_payroll_" ++ strftime_Ymd pay_date ++ ".csv" |}.

(** The [while current_date <= END_DATE] loop of
    [generate_payroll_data]. *)
Fixpoint payroll_loop (fuel : nat) (current_date : Z) : M unit :=
  match fuel with
  | O => out_of_fuel
  | S fuel' =>
      if current_date <=? END_DATE then
        w <- get ;;
        let active_employees :=
          filter (on_payroll current_date) (employees w) in
        for_each active_employees (fun employee =>
          record <- _generate_payroll_record employee current_date ;;
          modify (fun w =>
            set_payroll_records (payroll_records w ++ [record]) w)) ;;;
        payroll_loop fuel' (current_date + 14)
      else ret tt
  end.

Definition generate_payroll_data : M unit :=
  payroll_loop (Z.to_nat ((END_DATE - START_DATE) / 14) + 2) START_DATE.

(** *** Time tracking *)

Definition _get_employee_projects (department : string) : list string :=
  if String.eqb department "Engineering"
  then ["Platform Core"; "API Development"; "DevOps"; "Bug Fixes"]
  else if String.eqb department "Product"
  then ["Product Strategy"; "Feature Planning"; "User Research"; "Analytics"]
  else if String.eqb department "Sales & Marketing"
  then ["Lead Generation"; "Customer Outreach"; "Marketing Campaigns";
        "Sales Support"]
  else if String.eqb department "Operations"
  then ["Admin Tasks"; "HR Support"; "Finance"; "General Operations"]
  else if String.eqb department "Executive"
  then ["Strategy"; "Leadership"; "Board Meetings"; "Planning"]
  else ["General Work"; "Admin"; "Meetings"].

(** [d[k] = v] on a dictionary kept in insertion order. *)
Fixpoint dict_set (k : string) (v : Q) (d : list (string * Q))
    : list (string * Q) :=
  match d with
  | [] => [(k, v)]
  | (k', v') :: rest =>
      if String.eqb k k' then (k, v) :: rest else (k', v') :: dict_set k v rest
  end.

(** The loop [for i, project in enumerate(projects)], entered at index
    [i] with [rest = projects[i:]] and [n = len(projects)]. *)
Fixpoint allocation_loop (n i : nat) (rest : list string)
    (project_hours : list (string * Q)) (remaining_hours : Q)
    : M (list (string * Q)) :=
  match rest with
  | [] => ret project_hours
  | project :: rest' =>
      if Nat.eqb i (n - 1) then
        allocation_loop n (S i) rest'
          (dict_set project remaining_hours project_hours) remaining_hours
      else
        hours <- uniform 0.5 (Num.Qmin 4 (remaining_hours - 0.5)) ;;
        allocation_loop n (S i) rest'
          (dict_set project hours project_hours) (remaining_hours - hours)%Q
  end.

Definition _generate_time_record (employee : Employee) (work_date : Z)
    : M (option TimeTrackingRecord) :=
  r <- py_random ;;
  if Qle_bool r 0.9 then
    let projects := _get_employee_projects (department employee) in
    total_hours <- uniform 6.5 9.5 ;;
    project_hours <-
      allocation_loop (List.length projects) 0 projects [] total_hours ;;
    billable <- uniform 0.7 0.95 ;;
    ret (Some
      {| tr_employee_id := employee_id employee;
         tr_employee_name := employee_name employee;
         work_date := work_date;
         total_hours := Num.round2 total_hours;
         project_allocations :=
           map (fun kv => (fst kv, Num.round2 (snd kv))) project_hours;
         billable_hours := Num.round2 (total_hours * billable);
         notes := "Daily work on " ++ Str.join ", " (firstn 2 projects);
         tr_source_type := "springahead";
         tr_filename :=
           "springahead_timesheet_" ++ strftime_Ymd work_date ++ ".csv" |})
  else ret None.

(** The [while] loop of [generate_time_tracking_data]. *)
Fixpoint time_tracking_loop (fuel : nat) (current_date : Z) : M unit :=
  match fuel with
  | O => out_of_fuel
  | S fuel' =>
      if current_date <=? END_DATE then
        (if Calendar.weekday current_date <? 5 then
           w <- get ;;
           let active_employees :=
             filter (on_payroll current_date) (employees w) in
           for_each active_employees (fun employee =>
             record <- _generate_time_record employee current_date ;;
             match record with
             | Some rec =>
                 modify (fun w =>
                   set_time_tracking_records
                     (time_tracking_records w ++ [rec]) w)
             | None => ret tt
             end)
         else ret tt) ;;;
        time_tracking_loop fuel' (current_date + 1)
      else ret tt
  end.

Definition generate_time_tracking_data : M unit :=
  time_tracking_loop (Z.to_nat (END_DATE - START_DATE) + 2) START_DATE.

(** *** The run *)

(** [main] up to the export: the constructor and the three generators
    that fill the four record streams.  ([generate_edge_cases] runs
    after them, changes no attribute of the generator and its result is
    not exported.) *)
Definition main : M unit :=
  __init__ ;;;
  generate_hiring_termination_events ;;;
  generate_payroll_data ;;;
  generate_time_tracking_data.

(** The four streams [export_to_csv] writes. *)
Definition output_streams (w : World)
    : list Employee * list PayrollRecord * list TimeTrackingRecord
      * list Event :=
  (employees w, payroll_records w, time_tracking_records w, hiring_events w).

End Engine.

Arguments rng_state {R} w.
Arguments employees {R} w.
Arguments payroll_records {R} w.
Arguments time_tracking_records {R} w.
Arguments hiring_events {R} w.
Arguments ret {R A} a w.
Arguments bind {R A B} c k w.
Arguments raise {R A} e w.
Arguments out_of_fuel {R A} w.
Arguments get {R} w.
Arguments modify {R} f w.
Arguments for_each {R A} l body w.
Arguments choice {R A} seq w.
Arguments output_streams {R} w.

(* ------------------------------------------------------------------ *)
(** ** The summary report and the time-tracking table of the export *)

Definition BASELINE_BURDEN_RATE : Q := 0.237.

(** [d.strftime('%Y-%m-%d')]. *)
Definition strftime_Y_m_d (d : Z) : string :=
  (Str.pad0 4 (Calendar.year_of d) ++ "-" ++ Str.pad0 2 (Calendar.month_of d)
   ++ "-" ++ Str.pad0 2 (Calendar.day_of d))%string.

(** The dictionary [generate_summary_report] returns. *)
Record Summary : Type := {
  total_employees : Z;
  active_employees : Z;
  terminated_employees : Z;
  total_annual_payroll : Q;
  monthly_payroll : Q;
  average_burden_rate : Q;
  sm_payroll_records : Z;
  sm_time_tracking_records : Z;
  sm_hiring_events : Z;
  date_range : string;
  baseline_target_monthly : Q;
  baseline_target_employees : Q;
  baseline_target_burden : Q
}.

(** [len(l)]. *)
Definition len {A} (l : list A) : Z := Z.of_nat (List.length l).

(** [np.mean(l)] on a non-empty list. *)
Definition mean (l : list Q) : Q := (Num.sumQ l / inject_Z (len l))%Q.

(** The records the burden rate is averaged over:
    [[r for r in self.payroll_records if r["pay_period_end"].year == 2024][:100]]. *)
Definition sample_records (l : list PayrollRecord) : list PayrollRecord :=
  firstn 100
    (filter (fun r => Calendar.year_of (pay_period_end r) =? 2024) l).

(** [generate_summary_report]: it reads the generator and returns the
    dictionary.  The keys ["payroll_records"], ["time_tracking_records"]
    and ["hiring_events"] of the dictionary, which are counts, are the
    fields [sm_payroll_records], [sm_time_tracking_records] and
    [sm_hiring_events]. *)
Definition generate_summary_report {R : Rng} : M R Summary :=
  bind get (fun w =>
    let active_employees := filter active (employees w) in
    let total_annual_cost := Num.sumQ (map annual_salary active_employees) in
    let monthly_cost := (total_annual_cost / 12)%Q in
    let sample_records := sample_records (payroll_records w) in
    let avg_burden_rate :=
      match sample_records with
      | [] => 0%Q
      | _ :: _ => mean (map burden_rate sample_records)
      end in
    ret {| total_employees := len (employees w);
           active_employees := len active_employees;
           terminated_employees :=
             len (filter (fun e => negb (active e)) (employees w));
           total_annual_payroll := Num.round2 total_annual_cost;
           monthly_payroll := Num.round2 monthly_cost;
           average_burden_rate := Num.round2 avg_burden_rate;
           sm_payroll_records := len (payroll_records w);
           sm_time_tracking_records := len (time_tracking_records w);
           sm_hiring_events := len (hiring_events w);
           date_range :=
             (strftime_Y_m_d START_DATE ++ " to " ++ strftime_Y_m_d END_DATE)%string;
           baseline_target_monthly := BASELINE_MONTHLY_COST;
           baseline_target_employees := BASELINE_EMPLOYEES;
           baseline_target_burden := (BASELINE_BURDEN_RATE * 100)%Q |}).

(** A row of the time-tracking table [export_to_csv] builds: the fields
    of a record other than [project_allocations], and the two project
    columns when the row is made for a project. *)
Record TimeRow : Type := {
  rw_employee_id : string;
  rw_employee_name : string;
  rw_work_date : Z;
  rw_total_hours : Q;
  rw_billable_hours : Q;
  rw_notes : string;
  rw_source_type : string;
  rw_filename : string;
  project_name : option string;
  project_hours : option Q
}.

Definition base_record (record : TimeTrackingRecord)
    (project : option (string * Q)) : TimeRow :=
  {| rw_employee_id := tr_employee_id record;
     rw_employee_name := tr_employee_name record;
     rw_work_date := work_date record;
     rw_total_hours := total_hours record;
     rw_billable_hours := billable_hours record;
     rw_notes := notes record;
     rw_source_type := tr_source_type record;
     rw_filename := tr_filename record;
     project_name := option_map fst project;
     project_hours := option_map snd project |}.

(** The rows appended for one record: one per project, or the bare
    record when it has no allocation. *)
Definition time_rows (record : TimeTrackingRecord) : list TimeRow :=
  match project_allocations record with
  | [] => [base_record record None]
  | allocations => map (fun kv => base_record record (Some kv)) allocations
  end.

(** The rows of [time_tracking.csv]; [None] when the file is not
    written. *)
Definition time_tracking_export {R : Rng} (w : World R)
    : option (list TimeRow) :=
  match time_tracking_records w with
  | [] => None
  | records => Some (flat_map time_rows records)
  end.

(* ------------------------------------------------------------------ *)
(** ** A concrete generator, for running the model *)

(** A generator that replays a script of draws (values outside [[0, 1)]
    count as [0], and so does an exhausted script). *)
Module Scripted.

Local Open Scope Q_scope.

Definition clamp (q : Q) : Q :=
  if (Qle_bool 0 q && negb (Qle_bool 1 q))%bool then q else 0.

Definition next (g : list Q) : Q * list Q :=
  match g with
  | [] => (0, [])
  | q :: rest => (clamp q, rest)
  end.

Definition below (n : Z) (g : list Q) : Z * list Q :=
  (Qfloor (fst (next g) * inject_Z n), snd (next g)).

Lemma clamp_range (q : Q) : 0 <= clamp q /\ clamp q < 1.
Proof.
  unfold clamp.
  destruct (Qle_bool 0 q) eqn:H0; simpl; [|lra].
  destruct (Qle_bool 1 q) eqn:H1; simpl; [lra|].
  apply Qle_bool_iff in H0. split; [exact H0|].
  destruct (Qlt_le_dec q 1) as [Hlt|Hge]; [exact Hlt|].
  apply Qle_bool_iff in Hge. congruence.
Qed.

Lemma next_range (g : list Q) : 0 <= fst (next g) /\ fst (next g) < 1.
Proof. destruct g as [|q rest]; simpl; [lra | apply clamp_range]. Qed.

Lemma below_range (n : Z) (g : list Q) :
  (0 < n)%Z -> (0 <= fst (below n g) < n)%Z.
Proof.
  intros Hn.
  change (fst (below n g)) with (Qfloor (fst (next g) * inject_Z n)).
  destruct (next_range g) as [H0 H1].
  set (u := fst (next g)) in *.
  assert (Hn' : 0 < inject_Z n)
    by (change 0 with (inject_Z 0); rewrite <- Zlt_Qlt; exact Hn).
  split.
  - change 0%Z with (Qfloor 0). apply Qfloor_resp_le. nra.
  - rewrite Zlt_Qlt.
    apply Qle_lt_trans with (u * inject_Z n); [apply Qfloor_le | nra].
Qed.

Definition rng (script : list Q) : Rng :=
  {| gen := list Q;
     seed := fun _ => script;
     random := next;
     randbelow := below;
     random_range := next_range;
     randbelow_range := below_range |}.

End Scripted.

(* ------------------------------------------------------------------ *)
(** ** Vocabulary of the specification *)

Section Vocabulary.

Context (R : Rng).

(** The next value of [random()] in a world, and the world after it. *)
Definition draw (w : World R) : Q := fst (random R (rng_state w)).
Definition advance (w : World R) : World R :=
  set_rng R (snd (random R (rng_state w))) w.

(** The same for [_randbelow(n)]. *)
Definition draw_below (n : Z) (w : World R) : Z :=
  fst (randbelow R n (rng_state w)).
Definition advance_below (n : Z) (w : World R) : World R :=
  set_rng R (snd (randbelow R n (rng_state w))) w.

(** The pre-calibration aggregate. *)
Definition total_annual (w : World R) : Q :=
  Num.sumQ (map annual_salary (employees w)).

(** The gross pay [_generate_payroll_record] computes for an employee
    and a pay date in a world: base pay, seasonal factor, variation. *)
Definition base_pay (e : Employee) (w : World R) : Q * World R :=
  if is_hourly e
  then ((70 + (85 - 70) * draw w) * hourly_rate e, advance w)%Q
  else (annual_salary e / 26, w)%Q.

Definition computed_gross_pay (e : Employee) (pay_date : Z) (w : World R) : Q :=
  (fst (base_pay e w)
   * (SEASONAL_MULTIPLIERS_get (Calendar.month_of pay_date) 1
      * (0.95 + (1.05 - 0.95) * draw (snd (base_pay e w)))))%Q.

(** The body of the inner [for] loop of [generate_payroll_data]. *)
Definition payroll_body (d : Z) (employee : Employee) : M R unit :=
  bind (_generate_payroll_record R employee d) (fun record =>
    modify (fun w => set_payroll_records R (payroll_records w ++ [record]) w)).

(** The body of the inner [for] loop of [generate_time_tracking_data]. *)
Definition time_body (d : Z) (employee : Employee) : M R unit :=
  bind (_generate_time_record R employee d) (fun record =>
    match record with
    | Some rec =>
        modify (fun w =>
          set_time_tracking_records R (time_tracking_records w ++ [rec]) w)
    | None => ret tt
    end).

(** The world the constructor has made before it draws anything. *)
Definition fresh : World R :=
  {| rng_state := seed R 42; employees := []; payroll_records := [];
     time_tracking_records := []; hiring_events := [] |}.

(** A world with a given roster and nothing generated yet. *)
Definition world_of (g : gen R) (roster : list Employee) : World R :=
  {| rng_state := g; employees := roster; payroll_records := [];
     time_tracking_records := []; hiring_events := [] |}.

End Vocabulary.

Arguments draw {R} w.
Arguments advance {R} w.
Arguments draw_below {R} n w.
Arguments advance_below {R} n w.
Arguments payroll_body {R} d employee w.
Arguments time_body {R} d employee w.
Arguments fresh {R}.

(** The precondition under which pay is positive: the rate the pay is
    computed from is. *)
Definition paid (e : Employee) : Prop :=
  if is_hourly e then (0 < hourly_rate e)%Q else (0 < annual_salary e)%Q.

(** Both rates of pay are positive. *)
Definition well_paid (e : Employee) : Prop :=
  (0 < annual_salary e)%Q /\ (0 < hourly_rate e)%Q.

Definition profile_ok (p : Profile) : Prop :=
  (fst (salary_range p) <= snd (salary_range p))%Q /\
  ((if hourly p then 1 else 2080) <= fst (salary_range p))%Q.

(** What a record made for employee [e] at [d] from gross pay [g]
    holds, as far as the properties below need it. *)
Definition record_shape (e : Employee) (d : Z) (g : Q) (rec : PayrollRecord)
    : Prop :=
  pr_employee_id rec = employee_id e /\
  pay_period_end rec = d /\
  gross_pay rec = Num.round2 g /\
  exists burden taxes,
    total_employer_burden rec = Num.round2 burden /\
    true_cost rec = Num.round2 (g + burden) /\
    total_taxes rec = Num.round2 taxes /\
    net_pay rec = Num.round2 (g - taxes).

(** The two identities of a payroll record, to the cent. *)
Definition financial_identity (rec : PayrollRecord) : Prop :=
  (Qabs (true_cost rec - (gross_pay rec + total_employer_burden rec))
     <= 1 # 100)%Q /\
  (Qabs (net_pay rec - (gross_pay rec - total_taxes rec)) <= 1 # 100)%Q.

Definition key (r : PayrollRecord) : string * Z :=
  (pr_employee_id r, pay_period_end r).

(** The period boundaries the [while] loop visits from [c] on. *)
Fixpoint periods (fuel : nat) (c : Z) : list Z :=
  match fuel with
  | O => []
  | S fuel' => if c <=? END_DATE then c :: periods fuel' (c + 14) else []
  end.

Definition expected_keys (ds : list Z) (l : list Employee)
    : list (string * Z) :=
  flat_map (fun d => map (fun e => (employee_id e, d))
                         (filter (on_payroll d) l)) ds.

(** Fuel that outlasts the bi-weekly loop started at [c], and the daily
    one. *)
Definition enough (fuel : nat) (c : Z) : Prop :=
  (0 < fuel)%nat /\ END_DATE < c + 14 * (Z.of_nat fuel - 1).

Definition enough_days (fuel : nat) (c : Z) : Prop :=
  (0 < fuel)%nat /\ END_DATE < c + (Z.of_nat fuel - 1).

(** The condition of the specification for an employee to be paid in
    the period ending on [d]. *)
Definition eligible (d : Z) (e : Employee) : Prop :=
  hire_date e <= d /\
  (termination_date e = None \/
   exists t, termination_date e = Some t /\ d < t).

Definition record_is (id : string) (d : Z) (r : PayrollRecord) : bool :=
  String.eqb (pr_employee_id r) id && (pay_period_end r =? d).

(** The records emitted for an employee id and a period end. *)
Definition records_for (id : string) (d : Z) (rs : list PayrollRecord)
    : list PayrollRecord :=
  filter (record_is id d) rs.

Definition key_is (id : string) (d : Z) (k : string * Z) : bool :=
  String.eqb (fst k) id && (snd k =? d).

(** One share: [uniform(0.5, min(4, remaining - 0.5))] for the draw
    [u]. *)
Definition share (remaining u : Q) : Q :=
  (0.5 + (Num.Qmin 4 (remaining - 0.5) - 0.5) * u)%Q.

(** Three or four project names, no two the same. *)
Definition distinct (l : list string) : bool :=
  match l with
  | [a; b; c] =>
      negb (String.eqb b a) && negb (String.eqb c a) && negb (String.eqb c b)
  | [a; b; c; d] =>
      negb (String.eqb b a) && negb (String.eqb c a) && negb (String.eqb c b)
      && negb (String.eqb d a) && negb (String.eqb d b)
      && negb (String.eqb d c)
  | _ => false
  end.

(** What the allocation loop leaves in [project_hours], and what the
    rounding of the record then does to it. *)
Definition allocated (projects : list string) (total : Q)
    (project_hours : list (string * Q)) : Prop :=
  map fst project_hours = projects /\
  Forall (fun kv => (0 <= snd kv)%Q) project_hours /\
  (Num.sumQ (map snd project_hours) == total)%Q /\
  (Qabs (Num.sumQ (map (fun kv => Num.round2 (snd kv)) project_hours)
         - Num.round2 total) <= 2 # 100)%Q.

Definition count_active (l : list Employee) : nat :=
  List.length (filter active l).

(** No roster entry with this id is flagged active. *)
Definition inactive_id (l : list Employee) (id : string) : Prop :=
  forall e, In e l -> employee_id e = id -> active e = false.

Definition is_termination (ev : Event) : bool :=
  match ev with Termination _ _ _ _ => true | Hiring _ _ _ _ => false end.

Definition is_hiring (ev : Event) : bool :=
  match ev with Termination _ _ _ _ => false | Hiring _ _ _ _ => true end.

(** The ids of the employees the termination events are about. *)
Definition term_ids (events : list Event) : list string :=
  flat_map (fun ev => match ev with
                      | Termination id _ _ _ => [id]
                      | Hiring _ _ _ _ => []
                      end) events.

(** A hiring event that names [id] in its [replacing] field. *)
Definition refers_to (id : string) (ev : Event) : bool :=
  match ev with
  | Hiring _ _ _ r => String.eqb r id
  | Termination _ _ _ _ => false
  end.

(** How the second loop answers a list of termination events: the
    hiring events it appends and the schedule it records. *)
Inductive replacements : list Event -> list Event -> list (string * Z) -> Prop :=
| replacements_nil : replacements [] [] []
| replacements_hire id name d reason delay nid nname ts hs sch :
    30 <= delay <= 180 ->
    d + delay < END_DATE ->
    replacements ts hs sch ->
    replacements (Termination id name d reason :: ts)
                 (Hiring nid nname (d + delay) id :: hs)
                 ((id, d + delay) :: sch)
| replacements_none id name d reason delay ts hs sch :
    30 <= delay <= 180 ->
    END_DATE <= d + delay ->
    replacements ts hs sch ->
    replacements (Termination id name d reason :: ts) hs
                 ((id, d + delay) :: sch).

(** Every termination has exactly one scheduled replacement date, 30 to
    180 days later, and exactly one hiring event naming it when that
    date is before the end of the window, none otherwise. *)
Definition replaced (events : list Event) (schedule : list (string * Z))
    (id : string) (d : Z) : Prop :=
  exists s,
    In (id, s) schedule /\
    (forall s', In (id, s') schedule -> s' = s) /\
    d + 30 <= s <= d + 180 /\
    if s <? END_DATE
    then exists nid nname,
           filter (refers_to id) events = [Hiring nid nname s id]
    else filter (refers_to id) events = [].

(** A decision procedure for lists of ids without repetition. *)
Fixpoint nodupb (l : list string) : bool :=
  match l with
  | [] => true
  | x :: rest => negb (existsb (String.eqb x) rest) && nodupb rest
  end.

(* ------------------------------------------------------------------ *)
(** ** Vocabulary of the further properties *)

(** The four taxes withheld from a gross pay, summed as the code sums
    them. *)
Definition taxes_on (g : Q) : Q :=
  (g * TAX_RATES.federal_income + g * TAX_RATES.state_income
   + g * TAX_RATES.social_security + g * TAX_RATES.medicare)%Q.

(** [total_employer_burden] before rounding. *)
Definition burden_on (e : Employee) (g : Q) : Q :=
  (g * TAX_RATES.social_security + g * TAX_RATES.medicare
   + g * TAX_RATES.unemployment
   + annual_salary e * BENEFITS_RATES.health_insurance / 26
   + annual_salary e * BENEFITS_RATES.dental_vision / 26
   + g * BENEFITS_RATES.retirement_401k
   + annual_salary e * BENEFITS_RATES.life_insurance / 26)%Q.

(** The hours [_generate_payroll_record] reports for an employee in a
    world. *)
Definition hours_in {R : Rng} (e : Employee) (w : World R) : Q :=
  if is_hourly e then (70 + (85 - 70) * draw w)%Q else 80.

(** Every amount of the record made for employee [e] at [d] from
    [hours] hours and gross pay [g]. *)
Definition record_amounts (e : Employee) (d : Z) (hours g : Q)
    (rec : PayrollRecord) : Prop :=
  pr_employee_id rec = employee_id e /\
  pr_employee_name rec = employee_name e /\
  pr_department rec = department e /\
  pay_period_start rec = d - 13 /\
  pay_period_end rec = d /\
  hours_worked rec = Num.round2 hours /\
  pr_hourly_rate rec = Num.round2 (hourly_rate e) /\
  gross_pay rec = Num.round2 g /\
  federal_tax rec = Num.round2 (g * TAX_RATES.federal_income) /\
  state_tax rec = Num.round2 (g * TAX_RATES.state_income) /\
  fica_tax rec = Num.round2 (g * TAX_RATES.social_security) /\
  medicare_tax rec = Num.round2 (g * TAX_RATES.medicare) /\
  employer_fica rec = Num.round2 (g * TAX_RATES.social_security) /\
  employer_medicare rec = Num.round2 (g * TAX_RATES.medicare) /\
  total_taxes rec = Num.round2 (taxes_on g) /\
  net_pay rec = Num.round2 (g - taxes_on g) /\
  total_employer_burden rec = Num.round2 (burden_on e g) /\
  true_cost rec = Num.round2 (g + burden_on e g) /\
  burden_rate rec = Num.round2 (burden_on e g / g * 100).

(** The order of the amounts of a payroll record. *)
Definition ordered_amounts (rec : PayrollRecord) : Prop :=
  (0 <= total_taxes rec)%Q /\
  (0 <= net_pay rec)%Q /\
  (net_pay rec <= gross_pay rec)%Q /\
  (gross_pay rec <= true_cost rec)%Q /\
  (0 <= total_employer_burden rec)%Q.

(** Both rates of pay are positive and, for an hourly employee, the
    annual salary is the hourly rate for 2080 hours, to within 0.05%. *)
Definition pay_consistent (e : Employee) : Prop :=
  well_paid e /\
  (is_hourly e = true ->
   (2079 * hourly_rate e <= annual_salary e)%Q /\
   (annual_salary e <= 2081 * hourly_rate e)%Q).

(** A record of the payroll run: its period end lies in the window and
    it is about an employee of the roster who is on the payroll on that
    day. *)
Definition payroll_entry (roster : list Employee) (r : PayrollRecord) : Prop :=
  START_DATE <= pay_period_end r <= END_DATE /\
  pay_period_start r = pay_period_end r - 13 /\
  exists e, In e roster /\ on_payroll (pay_period_end r) e = true /\
            pr_employee_id r = employee_id e /\
            pr_employee_name r = employee_name e /\
            pr_department r = department e.

(** What a time record made for employee [e] on day [d] holds. *)
Definition time_entry (e : Employee) (d : Z) (rec : TimeTrackingRecord)
    : Prop :=
  tr_employee_id rec = employee_id e /\
  tr_employee_name rec = employee_name e /\
  work_date rec = d /\
  (6.5 <= total_hours rec)%Q /\ (total_hours rec <= 9.5)%Q /\
  (0 <= billable_hours rec)%Q /\ (billable_hours rec <= total_hours rec)%Q /\
  map fst (project_allocations rec) = _get_employee_projects (department e).

(** The employee and the day a time record is for. *)
Definition tkey (r : TimeTrackingRecord) : string * Z :=
  (tr_employee_id r, work_date r).

(** The days the daily [while] loop works on from [c] on: those up to
    [END_DATE] that fall on Monday to Friday. *)
Fixpoint workdays (fuel : nat) (c : Z) : list Z :=
  match fuel with
  | O => []
  | S fuel' =>
      if c <=? END_DATE
      then (if Calendar.weekday c <? 5 then [c] else []) ++ workdays fuel' (c + 1)
      else []
  end.

(** A record of the time-tracking run: made on a working day of the
    window for an employee of the roster on the payroll that day. *)
Definition time_tracking_entry (roster : list Employee)
    (r : TimeTrackingRecord) : Prop :=
  START_DATE <= work_date r <= END_DATE /\
  0 <= Calendar.weekday (work_date r) < 5 /\
  exists e, In e roster /\ on_payroll (work_date r) e = true /\
            time_entry e (work_date r) r.

(** The time records of an employee id and a day. *)
Definition time_record_is (id : string) (d : Z) (r : TimeTrackingRecord)
    : bool :=
  String.eqb (tr_employee_id r) id && (work_date r =? d).

(** The ids [_generate_employee_roster] gives from index [i] on. *)
Fixpoint roster_ids (i : Z) (n : nat) : list string :=
  match n with
  | O => []
  | S n' => ("EMP" ++ Str.pad0 3 (i + 1))%string :: roster_ids (i + 1) n'
  end.

(** What every employee of the constructor's roster satisfies, before
    and after calibration. *)
Definition roster_entry (e : Employee) : Prop :=
  active e = true /\
  termination_date e = None /\
  START_DATE <= hire_date e <= START_DATE + 730 /\
  (exists p, In p EMPLOYEE_PROFILES /\ title e = p_title p /\
             is_hourly e = hourly p) /\
  department e = _assign_department (title e) /\
  well_paid e /\
  (2079 * hourly_rate e <= annual_salary e)%Q /\
  (annual_salary e <= 2081 * hourly_rate e)%Q.

(** The ids the replacement loop gives to the employees it adds, the
    first one when the event list has [k] entries. *)
Fixpoint hire_ids (k n : nat) : list string :=
  match n with
  | O => []
  | S n' => ("NEW" ++ Str.pad0 3 (Z.of_nat k + 1))%string :: hire_ids (S k) n'
  end.

(** What the employee added for a replacement holds. *)
Definition new_hire (e : Employee) : Prop :=
  title e = "Software Engineer"%string /\
  department e = "Engineering"%string /\
  is_hourly e = false /\
  active e = true /\
  termination_date e = None /\
  (85000 <= annual_salary e)%Q /\ (annual_salary e < 115000)%Q /\
  (85000 <= hourly_rate e * 2080)%Q /\ (hourly_rate e * 2080 < 115000)%Q.

(** An employee of the roster after the lifecycle events: as before, or
    terminated on the date of a termination event about it. *)
Definition roster_step (events : list Event) (e e' : Employee) : Prop :=
  e' = e \/
  (active e = true /\
   exists d reason,
     e' = terminate d e /\
     In (Termination (employee_id e) (employee_name e) d reason) events).

(** A termination event and the roster agree. *)
Definition termination_entry (roster : list Employee) (ev : Event) : Prop :=
  match ev with
  | Termination id name d reason =>
      START_DATE + 90 <= d <= START_DATE + 1000 /\
      In reason ["voluntary"; "performance"; "layoff"; "relocation"]%string /\
      exists e, In e roster /\ employee_id e = id /\ employee_name e = name /\
                active e = false /\ termination_date e = Some d
  | Hiring _ _ _ _ => False
  end.

(** A hiring event, the employee added for it and the termination it
    answers. *)
Definition hire_pair (terms : list Event) (h : Event) (e : Employee) : Prop :=
  exists d replacing,
    h = Hiring (employee_id e) (employee_name e) d replacing /\
    hire_date e = d /\ d < END_DATE /\ new_hire e /\
    exists tname td reason,
      In (Termination replacing tname td reason) terms /\
      td + 30 <= d <= td + 180.

(** The state of an employee of the roster once the lifecycle events
    are generated: still active with no termination date, or terminated
    on a date of the window. *)
Definition employment_state (e : Employee) : Prop :=
  (active e = true /\ termination_date e = None) \/
  (active e = false /\
   exists d, termination_date e = Some d /\
             START_DATE + 90 <= d <= START_DATE + 1000).

(** The bounds every payroll record of a run satisfies. *)
Definition record_bounds (r : PayrollRecord) : Prop :=
  ordered_amounts r /\
  (20.39 <= burden_rate r)%Q /\ (burden_rate r <= 25.93)%Q.

(* ------------------------------------------------------------------ *)
(** ** Concrete inputs *)

Module Example.

(** A salaried employee. *)
Definition salaried (id : string) (salary : Q) (hired : Z) : Employee :=
  {| employee_id := id;
     employee_name := id;
     title := "Software Engineer";
     hire_date := hired;
     annual_salary := salary;
     hourly_rate := (salary / 2080)%Q;
     is_hourly := false;
     department := "Engineering";
     active := true;
     termination_date := None |}.

(** The generator whose every draw is [0]. *)
Definition zeros : Rng := Scripted.rng [].

Definition pair_roster : list Employee :=
  [ salaried "EMP001" 60000 START_DATE;
    terminate (START_DATE + 100) (salaried "EMP002" 40000 (START_DATE + 20)) ].

Definition pair_world : World zeros := world_of zeros [] pair_roster.

(** A roster whose only employee has no salary. *)
Definition unpaid_world : World zeros :=
  world_of zeros [] [salaried "EMP001" 0 START_DATE].

Definition ten_roster : list Employee :=
  map (fun i => salaried ("EMP" ++ Str.pad0 3 (Z.of_nat i)) 60000 START_DATE)
      (seq 1 10).

Definition ten_world : World zeros := world_of zeros [] ten_roster.

(** Draws for one time record: compliance, total hours, three shares,
    billable fraction.  The total is 8.016 and every share 2.004. *)
Definition shares_script : list Q :=
  [0; 379 # 750; 376 # 875; 376 # 875; 1 # 2; 0]%Q.

Definition shares : Rng := Scripted.rng shares_script.

Definition shares_world : World shares :=
  world_of shares shares_script [salaried "EMP001" 60000 START_DATE].

(** An hourly employee. *)
Definition contractor (id : string) (rate : Q) (hired : Z) : Employee :=
  {| employee_id := id;
     employee_name := id;
     title := "Contractor";
     hire_date := hired;
     annual_salary := (rate * 2080)%Q;
     hourly_rate := rate;
     is_hourly := true;
     department := "Operations";
     active := true;
     termination_date := None |}.

End Example.

(* ================================================================== *)
(** * Properties *)

Local Close Scope string_scope.

(* ------------------------------------------------------------------ *)
(** ** Rounding *)

Module RoundFacts.

Local Open Scope Q_scope.

Lemma round_half_even_near (q : Q) :
  q - (1 # 2) <= inject_Z (Num.round_half_even q) <= q + (1 # 2).
Proof.
  unfold Num.round_half_even.
  pose proof (Qfloor_le q) as Hlo.
  pose proof (Qlt_floor q) as Hhi.
  rewrite inject_Z_plus in Hhi. change (inject_Z 1) with 1 in Hhi.
  destruct (Qcompare (q - inject_Z (Qfloor q)) (1 # 2)) eqn:Hc.
  - apply Qeq_alt in Hc.
    destruct (Z.even (Qfloor q)).
    + lra.
    + rewrite inject_Z_plus. change (inject_Z 1) with 1. lra.
  - apply Qlt_alt in Hc. lra.
  - apply Qgt_alt in Hc. rewrite inject_Z_plus. change (inject_Z 1) with 1. lra.
Qed.

Lemma round2_cents (q : Q) :
  Num.round2 q == inject_Z (Num.round_half_even (q * 100)) / 100.
Proof. unfold Num.round2. rewrite Qmake_Qdiv. reflexivity. Qed.

Lemma round2_near (q : Q) :
  q - (1 # 200) <= Num.round2 q <= q + (1 # 200).
Proof.
  rewrite round2_cents.
  pose proof (round_half_even_near (q * 100)) as H.
  set (k := inject_Z (Num.round_half_even (q * 100))) in *.
  assert (E : k / 100 == k * (1 # 100)) by (field).
  rewrite E. lra.
Qed.

Lemma round2_nonneg (q : Q) : 0 <= q -> 0 <= Num.round2 q.
Proof.
  intros Hq. rewrite round2_cents.
  assert (Hk : (0 <= Num.round_half_even (q * 100))%Z).
  { pose proof (round_half_even_near (q * 100)) as H.
    assert (Hgt : inject_Z (-1) < inject_Z (Num.round_half_even (q * 100))).
    { change (inject_Z (-1)) with (-1). lra. }
    rewrite <- Zlt_Qlt in Hgt. lia. }
  rewrite Zle_Qle in Hk. change (inject_Z 0) with 0 in Hk.
  set (k := inject_Z (Num.round_half_even (q * 100))) in *.
  assert (E : k / 100 == k * (1 # 100)) by (field).
  rewrite E. lra.
Qed.

(** A whole number of cents that is less than [m + 1] cents away from
    zero is at most [m] cents away. *)
Lemma cents_within (k m : Z) (bound : Q) :
  bound < inject_Z m + 1 ->
  Qabs (inject_Z k) <= bound ->
  Qabs (inject_Z k / 100) <= inject_Z m / 100.
Proof.
  intros Hb Hk.
  assert (Hk1 : (- m <= k <= m)%Z).
  { apply Qabs_Qle_condition in Hk. destruct Hk as [Hl Hu].
    assert (H1 : inject_Z (- m - 1) < inject_Z k).
    { unfold Z.sub. rewrite inject_Z_plus, !inject_Z_opp.
      change (inject_Z 1) with 1. lra. }
    assert (H2 : inject_Z k < inject_Z (m + 1)).
    { rewrite inject_Z_plus. change (inject_Z 1) with 1. lra. }
    rewrite <- Zlt_Qlt in H1, H2. lia. }
  apply Qabs_Qle_condition.
  destruct Hk1 as [Hl Hu].
  rewrite Zle_Qle in Hl, Hu. rewrite inject_Z_opp in Hl.
  set (x := inject_Z k) in *. set (y := inject_Z m) in *.
  assert (E : x / 100 == x * (1 # 100)) by (field).
  assert (E' : y / 100 == y * (1 # 100)) by (field).
  rewrite E, E'. lra.
Qed.

Lemma round2_sum_within (a b : Q) :
  Qabs (Num.round2 (a + b) - (Num.round2 a + Num.round2 b)) <= 1 # 100.
Proof.
  pose proof (round_half_even_near ((a + b) * 100)) as H1.
  pose proof (round_half_even_near (a * 100)) as H2.
  pose proof (round_half_even_near (b * 100)) as H3.
  rewrite !round2_cents.
  set (k1 := Num.round_half_even ((a + b) * 100)) in *.
  set (k2 := Num.round_half_even (a * 100)) in *.
  set (k3 := Num.round_half_even (b * 100)) in *.
  assert (E : inject_Z k1 / 100 - (inject_Z k2 / 100 + inject_Z k3 / 100)
              == inject_Z (k1 - (k2 + k3)) / 100).
  { unfold Z.sub. rewrite !inject_Z_plus, inject_Z_opp, inject_Z_plus. field. }
  rewrite E. change (1 # 100) with (inject_Z 1 / 100).
  apply (cents_within _ 1 (3 # 2)); [reflexivity|].
  apply Qabs_Qle_condition.
  unfold Z.sub. rewrite !inject_Z_plus, inject_Z_opp, inject_Z_plus. lra.
Qed.

Lemma round2_difference_within (a b : Q) :
  Qabs (Num.round2 (a - b) - (Num.round2 a - Num.round2 b)) <= 1 # 100.
Proof.
  pose proof (round_half_even_near ((a - b) * 100)) as H1.
  pose proof (round_half_even_near (a * 100)) as H2.
  pose proof (round_half_even_near (b * 100)) as H3.
  rewrite !round2_cents.
  set (k1 := Num.round_half_even ((a - b) * 100)) in *.
  set (k2 := Num.round_half_even (a * 100)) in *.
  set (k3 := Num.round_half_even (b * 100)) in *.
  assert (E : inject_Z k1 / 100 - (inject_Z k2 / 100 - inject_Z k3 / 100)
              == inject_Z (k1 - (k2 - k3)) / 100).
  { unfold Z.sub. rewrite !inject_Z_plus, !inject_Z_opp, inject_Z_plus, inject_Z_opp. field. }
  rewrite E. change (1 # 100) with (inject_Z 1 / 100).
  apply (cents_within _ 1 (3 # 2)); [reflexivity|].
  apply Qabs_Qle_condition.
  unfold Z.sub. rewrite !inject_Z_plus, !inject_Z_opp, inject_Z_plus, inject_Z_opp. lra.
Qed.

Lemma round2_sum3_within (a b c total : Q) :
  a + b + c == total ->
  Qabs (Num.round2 a + Num.round2 b + Num.round2 c - Num.round2 total)
  <= 2 # 100.
Proof.
  intros Hsum.
  pose proof (round_half_even_near (a * 100)) as H1.
  pose proof (round_half_even_near (b * 100)) as H2.
  pose proof (round_half_even_near (c * 100)) as H3.
  pose proof (round_half_even_near (total * 100)) as H4.
  rewrite !round2_cents.
  set (k1 := Num.round_half_even (a * 100)) in *.
  set (k2 := Num.round_half_even (b * 100)) in *.
  set (k3 := Num.round_half_even (c * 100)) in *.
  set (k4 := Num.round_half_even (total * 100)) in *.
  assert (E : inject_Z k1 / 100 + inject_Z k2 / 100 + inject_Z k3 / 100
              - inject_Z k4 / 100
              == inject_Z (k1 + k2 + k3 - k4) / 100).
  { unfold Z.sub. rewrite !inject_Z_plus, inject_Z_opp. field. }
  rewrite E. change (2 # 100) with (inject_Z 2 / 100).
  apply (cents_within _ 2 2); [reflexivity|].
  apply Qabs_Qle_condition.
  unfold Z.sub. rewrite !inject_Z_plus, inject_Z_opp. lra.
Qed.

Lemma round2_sum4_within (a b c d total : Q) :
  a + b + c + d == total ->
  Qabs (Num.round2 a + Num.round2 b + Num.round2 c + Num.round2 d
        - Num.round2 total) <= 2 # 100.
Proof.
  intros Hsum.
  pose proof (round_half_even_near (a * 100)) as H1.
  pose proof (round_half_even_near (b * 100)) as H2.
  pose proof (round_half_even_near (c * 100)) as H3.
  pose proof (round_half_even_near (d * 100)) as H5.
  pose proof (round_half_even_near (total * 100)) as H4.
  rewrite !round2_cents.
  set (k1 := Num.round_half_even (a * 100)) in *.
  set (k2 := Num.round_half_even (b * 100)) in *.
  set (k3 := Num.round_half_even (c * 100)) in *.
  set (k5 := Num.round_half_even (d * 100)) in *.
  set (k4 := Num.round_half_even (total * 100)) in *.
  assert (E : inject_Z k1 / 100 + inject_Z k2 / 100 + inject_Z k3 / 100
              + inject_Z k5 / 100 - inject_Z k4 / 100
              == inject_Z (k1 + k2 + k3 + k5 - k4) / 100).
  { unfold Z.sub. rewrite !inject_Z_plus, inject_Z_opp. field. }
  rewrite E. change (2 # 100) with (inject_Z 2 / 100).
  apply (cents_within _ 2 (5 # 2)); [reflexivity|].
  apply Qabs_Qle_condition.
  unfold Z.sub. rewrite !inject_Z_plus, inject_Z_opp. lra.
Qed.

End RoundFacts.

(* ------------------------------------------------------------------ *)
(** ** Sums and the calibrator *)

Module SumFacts.

Local Open Scope Q_scope.

Lemma fold_left_Qplus_acc (l : list Q) (a : Q) :
  fold_left Qplus l a == a + Num.sumQ l.
Proof.
  unfold Num.sumQ. revert a.
  induction l as [|x l IH]; intros a; simpl.
  - lra.
  - rewrite IH. rewrite (IH (0 + x)). lra.
Qed.

Lemma sumQ_cons (x : Q) (l : list Q) : Num.sumQ (x :: l) == x + Num.sumQ l.
Proof.
  unfold Num.sumQ at 1. simpl. rewrite fold_left_Qplus_acc. lra.
Qed.

Lemma sumQ_app (l1 l2 : list Q) :
  Num.sumQ (l1 ++ l2) == Num.sumQ l1 + Num.sumQ l2.
Proof.
  induction l1 as [|x l1 IH]; simpl.
  - unfold Num.sumQ at 2. simpl. lra.
  - rewrite !sumQ_cons, IH. lra.
Qed.

Lemma sumQ_scaled (f : Q) (l : list Employee) :
  Num.sumQ (map annual_salary (map (scale f) l))
  == Num.sumQ (map annual_salary l) * f.
Proof.
  induction l as [|e l IH]; simpl.
  - unfold Num.sumQ. simpl. lra.
  - rewrite !sumQ_cons, IH. lra.
Qed.

End SumFacts.

Section Calibrator.

Context (R : Rng).

Local Open Scope Q_scope.

Lemma calibrate_to_unfold (target : Q) (w : World R) :
  calibrate_to R target w =
  if Qeq_bool (total_annual R w) 0 then (Raise ZeroDivisionError, w)
  else (Ok tt,
        set_employees R
          (map (scale (target / total_annual R w)) (employees w)) w).
Proof.
  unfold calibrate_to, bind, get, truediv, total_annual. simpl.
  destruct (Qeq_bool _ 0); reflexivity.
Qed.


(** C4, as the code has it.  The calibrator fails exactly when the
    pre-calibration aggregate is zero, with the [ZeroDivisionError] of
    the division and every employee unchanged; for any other aggregate
    it runs the scaling pass by [target / aggregate], whatever the sign
    of the target. *)
Theorem calibrator_failure (target : Q) (w : World R) :
  calibrate_to R target w =
  if Qeq_bool (total_annual R w) 0 then (Raise ZeroDivisionError, w)
  else (Ok tt,
        set_employees R
          (map (scale (target / total_annual R w)) (employees w)) w).
Proof.
  unfold calibrate_to, bind, get, truediv, total_annual. simpl.
  destruct (Qeq_bool _ 0); reflexivity.
Qed.

End Calibrator.

(* ------------------------------------------------------------------ *)
(** ** One payroll record *)

Section PayrollFacts.
Context (R : Rng).
Local Open Scope Q_scope.

Lemma py_random_eq (w : World R) : py_random R w = (Ok (draw w), advance w).
Proof.
  unfold py_random, draw, advance.
  destruct (random R (rng_state w)); reflexivity.
Qed.

Lemma uniform_eq (a b : Q) (w : World R) :
  uniform R a b w = (Ok (a + (b - a) * draw w), advance w).
Proof. unfold uniform, bind. rewrite py_random_eq. reflexivity. Qed.

Lemma draw_range (w : World R) : 0 <= draw w /\ draw w < 1.
Proof. apply random_range. Qed.

Lemma bind_ret {A B} (a : A) (k : A -> M R B) (w : World R) :
  bind (ret a) k w = k a w.
Proof. reflexivity. Qed.

Lemma bind_bind {A B C} (c : M R A) (k : A -> M R B) (k' : B -> M R C)
    (w : World R) :
  bind (bind c k) k' w = bind c (fun a => bind (k a) k') w.
Proof.
  unfold bind. destruct (c w) as [[a| |] w1]; reflexivity.
Qed.

Lemma bind_uniform {B} (a b : Q) (k : Q -> M R B) (w : World R) :
  bind (uniform R a b) k w = k (a + (b - a) * draw w) (advance w).
Proof. unfold bind at 1. rewrite uniform_eq. reflexivity. Qed.

Lemma _generate_payroll_record_outcome (e : Employee) (d : Z) (w : World R) :
  let g := computed_gross_pay R e d w in
  let w' := advance (snd (base_pay R e w)) in
  (Qeq_bool g 0 = true /\
   _generate_payroll_record R e d w = (Raise ZeroDivisionError, w')) \/
  (Qeq_bool g 0 = false /\
   exists rec,
     _generate_payroll_record R e d w = (Ok rec, w') /\ record_shape e d g rec).
Proof.
  unfold _generate_payroll_record, computed_gross_pay, base_pay.
  destruct (is_hourly e);
    [ rewrite bind_bind, bind_uniform, bind_ret, bind_uniform
    | rewrite bind_ret, bind_uniform ];
    cbv beta iota zeta; simpl fst; simpl snd;
    unfold bind, truediv;
    match goal with
    | |- context [Qeq_bool ?g 0] => destruct (Qeq_bool g 0) eqn:Hg
    end;
    [ left; split; reflexivity
    | right; split; [reflexivity|];
      eexists; split; [reflexivity|];
      unfold record_shape; simpl;
      repeat split; do 2 eexists; repeat split
    | left; split; reflexivity
    | right; split; [reflexivity|];
      eexists; split; [reflexivity|];
      unfold record_shape; simpl;
      repeat split; do 2 eexists; repeat split ].
Qed.

Lemma advance_employees (w : World R) : employees (advance w) = employees w.
Proof. reflexivity. Qed.

Lemma advance_payroll_records (w : World R) :
  payroll_records (advance w) = payroll_records w.
Proof. reflexivity. Qed.



Lemma seasonal_range (month : Z) :
  0.88 <= SEASONAL_MULTIPLIERS_get month 1 <= 1.10.
Proof.
  unfold SEASONAL_MULTIPLIERS_get.
  destruct month as [|p|p]; try lra.
  do 4 (destruct p as [p|p|]; try lra).
Qed.

Lemma computed_gross_pay_bounds (e : Employee) (d : Z) (w : World R) :
  paid e ->
  let base := if is_hourly e then 70 * hourly_rate e else annual_salary e / 26 in
  0 < base /\ 0.88 * 0.95 * base <= computed_gross_pay R e d w.
Proof.
  unfold paid, computed_gross_pay, base_pay.
  pose proof (seasonal_range (Calendar.month_of d)) as Hs.
  set (s := SEASONAL_MULTIPLIERS_get (Calendar.month_of d) 1) in *.
  destruct (is_hourly e); intros Hp; simpl fst; simpl snd.
  - pose proof (draw_range w) as Hu.
    pose proof (draw_range (advance w)) as Hv.
    set (u := draw w) in *. set (v := draw (advance w)) in *.
    set (r := hourly_rate e) in *.
    split; [lra|].
    assert (H1 : 70 * r <= (70 + (85 - 70) * u) * r) by nra.
    assert (H2 : 0.88 * 0.95 <= s * (0.95 + (1.05 - 0.95) * v)) by nra.
    nra.
  - pose proof (draw_range w) as Hv.
    set (v := draw w) in *.
    assert (Hb : 0 < annual_salary e / 26).
    { apply Qlt_shift_div_l; lra. }
    set (b := annual_salary e / 26) in *.
    split; [lra|].
    assert (H2 : 0.88 * 0.95 <= s * (0.95 + (1.05 - 0.95) * v)) by nra.
    nra.
Qed.

Lemma computed_gross_pay_positive (e : Employee) (d : Z) (w : World R) :
  paid e -> 0 < computed_gross_pay R e d w.
Proof.
  intros Hp. destruct (computed_gross_pay_bounds e d w Hp) as [Hb Hg].
  cbv zeta in Hg.
  destruct (is_hourly e); nra.
Qed.

Lemma Qeq_bool_pos (q : Q) : 0 < q -> Qeq_bool q 0 = false.
Proof.
  intros Hq. destruct (Qeq_bool q 0) eqn:E; [|reflexivity].
  apply Qeq_bool_iff in E. lra.
Qed.

Lemma base_pay_employees (e : Employee) (w : World R) :
  employees (snd (base_pay R e w)) = employees w.
Proof. unfold base_pay. destruct (is_hourly e); reflexivity. Qed.

Lemma base_pay_payroll_records (e : Employee) (w : World R) :
  payroll_records (snd (base_pay R e w)) = payroll_records w.
Proof. unfold base_pay. destruct (is_hourly e); reflexivity. Qed.

End PayrollFacts.

(* ------------------------------------------------------------------ *)
(** ** The payroll loops *)

Section PayrollLoop.
Context (R : Rng).

Lemma payroll_loop_step (fuel : nat) (c : Z) (w : World R) :
  payroll_loop R (S fuel) c w =
  if c <=? END_DATE then
    bind (for_each (filter (on_payroll c) (employees w)) (payroll_body c))
         (fun _ => payroll_loop R fuel (c + 14)) w
  else (Ok tt, w).
Proof.
  simpl. destruct (c <=? END_DATE); reflexivity.
Qed.

(** Any property every made record has holds of all of
    [payroll_records], however the loops end. *)
Section Invariant.

Variable P : PayrollRecord -> Prop.
Hypothesis made :
  forall e d w rec w',
    _generate_payroll_record R e d w = (Ok rec, w') -> P rec.

Lemma payroll_body_invariant (d : Z) (e : Employee) (w : World R) :
  Forall P (payroll_records w) ->
  Forall P (payroll_records (snd (payroll_body d e w))).
Proof.
  intros Hw. unfold payroll_body, bind.
  destruct (_generate_payroll_record_outcome R e d w) as [[_ E]|[_ [rec [E _]]]];
    rewrite E; simpl; rewrite base_pay_payroll_records.
  - exact Hw.
  - apply Forall_app. split; [exact Hw|].
    constructor; [|constructor]. eapply made. exact E.
Qed.

Lemma for_each_payroll_invariant (d : Z) (l : list Employee) (w : World R) :
  Forall P (payroll_records w) ->
  Forall P (payroll_records (snd (for_each l (payroll_body d) w))).
Proof.
  revert w. induction l as [|e l IH]; intros w Hw; simpl.
  - exact Hw.
  - unfold bind.
    pose proof (payroll_body_invariant d e w Hw) as Hb.
    destruct (payroll_body d e w) as [[[]| |] w1]; simpl in *; auto.
Qed.

Lemma payroll_loop_invariant (fuel : nat) (c : Z) (w : World R) :
  Forall P (payroll_records w) ->
  Forall P (payroll_records (snd (payroll_loop R fuel c w))).
Proof.
  revert c w. induction fuel as [|fuel IH]; intros c w Hw.
  - exact Hw.
  - rewrite payroll_loop_step.
    destruct (c <=? END_DATE); [|exact Hw].
    unfold bind.
    pose proof (for_each_payroll_invariant c
                  (filter (on_payroll c) (employees w)) w Hw) as Hf.
    destruct (for_each _ _ w) as [[[]| |] w1]; simpl in *; auto.
Qed.

End Invariant.

(** When every employee is paid, nothing is raised and the records
    added are those of the roster filter, in order. *)

Lemma payroll_body_paid (d : Z) (e : Employee) (w : World R) :
  paid e ->
  exists w' rec,
    payroll_body d e w = (Ok tt, w') /\
    employees w' = employees w /\
    payroll_records w' = payroll_records w ++ [rec] /\
    key rec = (employee_id e, d).
Proof.
  intros Hp. unfold payroll_body, bind.
  pose proof (computed_gross_pay_positive R e d w Hp) as Hg.
  apply Qeq_bool_pos in Hg.
  destruct (_generate_payroll_record_outcome R e d w)
    as [[Hz _]|[_ [rec [E [Hid [Hd _]]]]]]; [congruence|].
  rewrite E. simpl.
  eexists. exists rec. split; [reflexivity|]. simpl.
  rewrite base_pay_employees, base_pay_payroll_records.
  unfold key. rewrite Hid, Hd. auto.
Qed.

Lemma for_each_payroll_paid (d : Z) (l : list Employee) (w : World R) :
  Forall paid l ->
  exists w' new,
    for_each l (payroll_body d) w = (Ok tt, w') /\
    employees w' = employees w /\
    payroll_records w' = payroll_records w ++ new /\
    map key new = map (fun e => (employee_id e, d)) l.
Proof.
  revert w. induction l as [|e l IH]; intros w Hl.
  - exists w, []. simpl. rewrite app_nil_r. auto.
  - inversion Hl as [|? ? He Hl']; subst.
    destruct (payroll_body_paid d e w He) as [w1 [rec [E1 [He1 [Hr1 Hk1]]]]].
    destruct (IH w1 Hl') as [w2 [new [E2 [He2 [Hr2 Hk2]]]]].
    exists w2, (rec :: new).
    simpl. unfold bind. rewrite E1, E2.
    repeat split.
    + congruence.
    + rewrite Hr2, Hr1, <- app_assoc. reflexivity.
    + rewrite Hk1, Hk2. reflexivity.
Qed.

Lemma payroll_loop_paid (fuel : nat) (c : Z) (w : World R) :
  Forall paid (employees w) ->
  enough fuel c ->
  exists w' new,
    payroll_loop R fuel c w = (Ok tt, w') /\
    employees w' = employees w /\
    payroll_records w' = payroll_records w ++ new /\
    map key new = expected_keys (periods fuel c) (employees w).
Proof.
  revert c w. induction fuel as [|fuel IH]; intros c w Hp [Hpos Hfuel].
  - lia.
  - rewrite payroll_loop_step. simpl periods.
    destruct (c <=? END_DATE) eqn:Hc.
    + apply Z.leb_le in Hc.
      assert (Hl : Forall paid (filter (on_payroll c) (employees w))).
      { rewrite Forall_forall in *. intros e He.
        apply filter_In in He. apply Hp, He. }
      destruct (for_each_payroll_paid c _ w Hl) as [w1 [new1 [E1 [He1 [Hr1 Hk1]]]]].
      assert (Hp1 : Forall paid (employees w1)) by (rewrite He1; exact Hp).
      assert (Hen : enough fuel (c + 14)) by (unfold enough; lia).
      destruct (IH (c + 14) w1 Hp1 Hen) as [w2 [new2 [E2 [He2 [Hr2 Hk2]]]]].
      exists w2, (new1 ++ new2).
      unfold bind. rewrite E1, E2.
      repeat split.
      * congruence.
      * rewrite Hr2, Hr1, <- app_assoc. reflexivity.
      * rewrite map_app, Hk1, Hk2, He1. reflexivity.
    + exists w, []. simpl. rewrite app_nil_r. auto.
Qed.

Lemma periods_In (fuel : nat) (c d : Z) :
  enough fuel c ->
  In d (periods fuel c) <->
  exists k, 0 <= k /\ d = c + 14 * k /\ d <= END_DATE.
Proof.
  revert c. induction fuel as [|fuel IH]; intros c [Hpos Hfuel].
  - lia.
  - simpl periods. destruct (c <=? END_DATE) eqn:Hc.
    + apply Z.leb_le in Hc.
      assert (Hen : enough fuel (c + 14)) by (unfold enough; lia).
      simpl In. rewrite (IH _ Hen). split.
      * intros [->|[k [Hk [-> Hd]]]].
        -- exists 0. lia.
        -- exists (k + 1). lia.
      * intros [k [Hk [-> Hd]]].
        destruct (Z.eq_dec k 0) as [->|Hk0]; [left; lia|].
        right. exists (k - 1). lia.
    + apply Z.leb_gt in Hc. simpl In. split; [tauto|].
      intros [k [Hk [-> Hd]]]. lia.
Qed.

Lemma periods_lower (fuel : nat) (c d : Z) : In d (periods fuel c) -> c <= d.
Proof.
  revert c. induction fuel as [|fuel IH]; intros c; simpl; [tauto|].
  destruct (c <=? END_DATE); simpl; [|tauto].
  intros [->|H]; [lia|]. apply IH in H. lia.
Qed.

Lemma periods_NoDup (fuel : nat) (c : Z) : NoDup (periods fuel c).
Proof.
  revert c. induction fuel as [|fuel IH]; intros c; simpl; [constructor|].
  destruct (c <=? END_DATE); [|constructor].
  constructor; [|apply IH].
  intros H. apply periods_lower in H. lia.
Qed.

End PayrollLoop.

(* ------------------------------------------------------------------ *)
(** ** Counting records *)

Module ListFacts.

Lemma filter_none {A} (p : A -> bool) (l : list A) :
  (forall x, In x l -> p x = false) -> filter p l = [].
Proof.
  induction l as [|x l IH]; intros H; simpl; [reflexivity|].
  rewrite (H x (or_introl eq_refl)). apply IH. intros y Hy. apply H. now right.
Qed.

Lemma filter_swap {A} (p f : A -> bool) (l : list A) :
  filter p (filter f l) = filter f (filter p l).
Proof.
  induction l as [|x l IH]; simpl; [reflexivity|].
  destruct (f x) eqn:Hf, (p x) eqn:Hp; simpl; rewrite ?Hf, ?Hp, IH; reflexivity.
Qed.

Lemma filter_map_length {A B} (g : A -> B) (p : B -> bool) (l : list A) :
  List.length (filter (fun x => p (g x)) l) = List.length (filter p (map g l)).
Proof.
  induction l as [|x l IH]; simpl; [reflexivity|].
  destruct (p (g x)); simpl; rewrite IH; reflexivity.
Qed.

Lemma filter_same_id (e : Employee) (l : list Employee) :
  NoDup (map employee_id l) ->
  In e l ->
  filter (fun e' => String.eqb (employee_id e') (employee_id e)) l = [e].
Proof.
  induction l as [|x l IH]; intros Hnd Hin; [destruct Hin|].
  simpl in Hnd. inversion Hnd as [|? ? Hx Hl]; subst.
  simpl. destruct Hin as [->|Hin].
  - rewrite String.eqb_refl. f_equal.
    apply filter_none. intros y Hy.
    apply String.eqb_neq. intros E. apply Hx. rewrite <- E.
    apply in_map. exact Hy.
  - destruct (String.eqb (employee_id x) (employee_id e)) eqn:E.
    + apply String.eqb_eq in E. exfalso. apply Hx. rewrite E.
      apply in_map. exact Hin.
    + apply IH; assumption.
Qed.

End ListFacts.

Section Eligibility.
Context (R : Rng).

Lemma on_payroll_eligible (d : Z) (e : Employee) :
  on_payroll d e = true <-> eligible d e.
Proof.
  unfold on_payroll, eligible.
  rewrite andb_true_iff, Z.leb_le.
  destruct (termination_date e) as [t|].
  - rewrite Z.ltb_lt. split.
    + intros [H1 H2]. split; [exact H1|]. right. exists t. auto.
    + intros [H1 [H2|[t' [H2 H3]]]]; [discriminate|].
      inversion H2; subst. auto.
  - split; intros [H1 _]; auto.
Qed.

Lemma expected_keys_count (id : string) (d : Z) (ds : list Z)
    (l : list Employee) :
  NoDup ds ->
  filter (key_is id d) (expected_keys ds l) =
  if in_dec Z.eq_dec d ds
  then map (fun e => (employee_id e, d))
           (filter (fun e => String.eqb (employee_id e) id)
                   (filter (on_payroll d) l))
  else [].
Proof.
  assert (Hsame : forall l',
    filter (key_is id d) (map (fun e => (employee_id e, d)) l') =
    map (fun e => (employee_id e, d))
        (filter (fun e => String.eqb (employee_id e) id) l')).
  { induction l' as [|x l' IH]; simpl; [reflexivity|].
    unfold key_is at 1. simpl. rewrite Z.eqb_refl, andb_true_r.
    destruct (String.eqb (employee_id x) id); simpl; rewrite IH; reflexivity. }
  assert (Hother : forall d' l', d' <> d ->
    filter (key_is id d) (map (fun e => (employee_id e, d')) l') = []).
  { intros d' l' Hd. apply ListFacts.filter_none. intros k Hk.
    apply in_map_iff in Hk. destruct Hk as [e [<- _]].
    unfold key_is. simpl. apply Z.eqb_neq in Hd. rewrite Hd.
    apply andb_false_r. }
  induction ds as [|d0 ds IH]; intros Hnd; [reflexivity|].
  inversion Hnd as [|? ? Hd0 Hds]; subst.
  unfold expected_keys in *. simpl flat_map.
  rewrite filter_app, (IH Hds).
  destruct (Z.eq_dec d0 d) as [->|Hne].
  - rewrite Hsame.
    destruct (in_dec Z.eq_dec d ds) as [Hin|_]; [contradiction|].
    destruct (in_dec Z.eq_dec d (d :: ds)) as [_|Hout];
      [|exfalso; apply Hout; now left].
    apply app_nil_r.
  - rewrite (Hother d0 _ Hne). simpl app.
    destruct (in_dec Z.eq_dec d ds) as [Hin|Hout];
      destruct (in_dec Z.eq_dec d (d0 :: ds)) as [Hin'|Hout'];
      try reflexivity.
    + exfalso. apply Hout'. now right.
    + exfalso. destruct Hin' as [E|Hin']; [congruence|contradiction].
Qed.

Lemma records_for_count (e : Employee) (d : Z) (ds : list Z)
    (l : list Employee) (rs : list PayrollRecord) :
  NoDup ds ->
  NoDup (map employee_id l) ->
  In e l ->
  In d ds ->
  map key rs = expected_keys ds l ->
  List.length (records_for (employee_id e) d rs)
  = if on_payroll d e then 1%nat else 0%nat.
Proof.
  intros Hds Hl He Hd Hk.
  unfold records_for.
  change (record_is (employee_id e) d)
    with (fun r => key_is (employee_id e) d (key r)).
  rewrite ListFacts.filter_map_length, Hk, expected_keys_count by exact Hds.
  destruct (in_dec Z.eq_dec d ds) as [_|Hout]; [|contradiction].
  rewrite length_map, ListFacts.filter_swap, ListFacts.filter_same_id by assumption.
  simpl. destruct (on_payroll d e); reflexivity.
Qed.

End Eligibility.

(* ------------------------------------------------------------------ *)
(** ** Payroll properties *)

Section PayrollClaims.
Context (R : Rng).

Lemma generate_payroll_data_fuel :
  enough (Z.to_nat ((END_DATE - START_DATE) / 14) + 2) START_DATE.
Proof. unfold enough. split; vm_compute; [lia | reflexivity]. Qed.

(** C3.  Payroll eligibility: from a roster with distinct ids whose
    employees are all paid, the payroll run returns, and for every
    bi-weekly period end [START_DATE + 14 k] up to [END_DATE] and every
    employee of the roster it has emitted exactly one record for that
    employee and period when [hire_date <= period_end] and the
    termination date is null or later than [period_end], and none
    otherwise; every emitted record is the record of such a pair. *)
Theorem payroll_eligibility (w : World R) :
  payroll_records w = [] ->
  NoDup (map employee_id (employees w)) ->
  Forall paid (employees w) ->
  exists w',
    generate_payroll_data R w = (Ok tt, w') /\
    employees w' = employees w /\
    (forall k e,
        0 <= k -> START_DATE + 14 * k <= END_DATE -> In e (employees w) ->
        let emitted :=
          records_for (employee_id e) (START_DATE + 14 * k)
                      (payroll_records w') in
        (List.length emitted = 1%nat <-> eligible (START_DATE + 14 * k) e) /\
        (List.length emitted = 0%nat <-> ~ eligible (START_DATE + 14 * k) e)) /\
    (forall r,
        In r (payroll_records w') ->
        exists k e,
          0 <= k /\ START_DATE + 14 * k <= END_DATE /\
          In e (employees w) /\ eligible (START_DATE + 14 * k) e /\
          pr_employee_id r = employee_id e /\
          pay_period_end r = START_DATE + 14 * k).
Proof.
  intros Hempty Hnd Hpaid.
  pose proof generate_payroll_data_fuel as Hfuel.
  unfold generate_payroll_data.
  generalize dependent (Z.to_nat ((END_DATE - START_DATE) / 14) + 2)%nat.
  intros fuel Hfuel.
  destruct (payroll_loop_paid R fuel START_DATE w Hpaid Hfuel)
    as [w' [new [E [He [Hr Hk]]]]].
  rewrite Hempty in Hr. simpl in Hr. subst new.
  exists w'. split; [exact E|]. split; [exact He|]. split.
  - intros k e Hk0 Hkend Hin. cbv zeta.
    assert (Hd : In (START_DATE + 14 * k) (periods fuel START_DATE)).
    { apply periods_In; [exact Hfuel|]. exists k. auto. }
    pose proof (records_for_count e _ _ _ _
                  (periods_NoDup fuel START_DATE) Hnd Hin Hd Hk) as Hc.
    rewrite Hc.
    rewrite <- on_payroll_eligible.
    destruct (on_payroll (START_DATE + 14 * k) e).
    + split; split; intros H; try reflexivity.
      * discriminate H.
      * exfalso. apply H. reflexivity.
    + split; split; intros H; try reflexivity; try discriminate H.
      intros H'. discriminate H'.
  - intros r Hr.
    apply (in_map key) in Hr. rewrite Hk in Hr.
    unfold expected_keys in Hr. apply in_flat_map in Hr.
    destruct Hr as [d [Hd Hr]].
    apply in_map_iff in Hr. destruct Hr as [e [Hke He']].
    apply filter_In in He'. destruct He' as [Hin Hon].
    apply periods_In in Hd; [|exact Hfuel].
    destruct Hd as [k [Hk0 [-> Hend]]].
    exists k, e.
    pose proof (f_equal fst Hke) as Hid.
    pose proof (f_equal snd Hke) as Hpe.
    cbn [fst snd key] in Hid, Hpe.
    apply on_payroll_eligible in Hon. destruct Hon as [Hhire Hterm].
    split; [exact Hk0|]. split; [exact Hend|]. split; [exact Hin|].
    split; [split; assumption|]. split; symmetry; assumption.
Qed.

Lemma made_record_identity (e : Employee) (d : Z) (w : World R)
    (rec : PayrollRecord) (w' : World R) :
  _generate_payroll_record R e d w = (Ok rec, w') -> financial_identity rec.
Proof.
  intros E.
  destruct (_generate_payroll_record_outcome R e d w)
    as [[_ E']|[_ [rec' [E' [_ [_ [Hg [b [t [Hb [Hc [Ht Hn]]]]]]]]]]]];
    rewrite E in E'; inversion E'; subst rec'.
  unfold financial_identity. rewrite Hg, Hb, Hc, Ht, Hn.
  split.
  - apply RoundFacts.round2_sum_within.
  - apply RoundFacts.round2_difference_within.
Qed.

(** C2.  Financial identity: every record the payroll computation
    makes, and so every record of [payroll_records] after the run
    (however it ends), has [true_cost] within 0.01 of
    [gross_pay + total_employer_burden] and [net_pay] within 0.01 of
    [gross_pay - total_taxes], on the rounded values it stores. *)
Theorem financial_identity_of_records (w : World R) :
  Forall financial_identity (payroll_records w) ->
  Forall financial_identity (payroll_records (snd (generate_payroll_data R w)))
  /\
  (forall e d rec w',
      _generate_payroll_record R e d w = (Ok rec, w') ->
      financial_identity rec).
Proof.
  intros Hw. split.
  - apply payroll_loop_invariant; [|exact Hw].
    intros e d w0 rec w' E. exact (made_record_identity e d w0 rec w' E).
  - intros e d rec w' E. exact (made_record_identity e d w rec w' E).
Qed.


(** C5, as the code has it.  When the computed gross pay is zero the
    division raises [ZeroDivisionError]: nothing guards it.  The
    exception leaves the payroll loop at that record, with no record
    added, skipped or counted, and the run ends there. *)
Theorem zero_gross_pay_raises (e : Employee) (d : Z) (w : World R) :
  (computed_gross_pay R e d w == 0)%Q ->
  fst (_generate_payroll_record R e d w) = Raise ZeroDivisionError /\
  forall fuel rest,
    d <= END_DATE ->
    filter (on_payroll d) (employees w) = e :: rest ->
    fst (payroll_loop R (S fuel) d w) = Raise ZeroDivisionError /\
    payroll_records (snd (payroll_loop R (S fuel) d w)) = payroll_records w.
Proof.
  intros Hz. apply Qeq_bool_iff in Hz.
  destruct (_generate_payroll_record_outcome R e d w)
    as [[_ E]|[Hnz _]]; [|congruence].
  split; [rewrite E; reflexivity|].
  intros fuel rest Hd Hf.
  rewrite payroll_loop_step.
  apply Z.leb_le in Hd. rewrite Hd, Hf.
  unfold bind. simpl for_each. unfold bind, payroll_body, bind.
  rewrite E. simpl. rewrite base_pay_payroll_records. auto.
Qed.

End PayrollClaims.

(* ------------------------------------------------------------------ *)
(** ** Time tracking *)

Section TimeTracking.
Context (R : Rng).
Local Open Scope Q_scope.

Lemma Qmin_cases (a b : Q) :
  (a <= b /\ Num.Qmin a b = a) \/ (b < a /\ Num.Qmin a b = b).
Proof.
  unfold Num.Qmin. destruct (Qle_bool a b) eqn:E.
  - left. split; [apply Qle_bool_iff; exact E | reflexivity].
  - right. split; [|reflexivity].
    destruct (Qlt_le_dec b a) as [H|H]; [exact H|].
    apply Qle_bool_iff in H. congruence.
Qed.

Lemma share_bounds (remaining u : Q) :
  0 <= u -> u < 1 -> 0.5 <= remaining ->
  0 < share remaining u /\
  0 <= remaining - share remaining u /\
  (1 <= remaining ->
   0.5 <= remaining - share remaining u /\
   remaining - 4 <= remaining - share remaining u /\
   0.5 <= share remaining u).
Proof.
  intros Hu0 Hu1 Hr. unfold share.
  destruct (Qmin_cases 4 (remaining - 0.5)) as [[Hm ->]|[Hm ->]].
  - repeat split; intros; nra.
  - repeat split; intros; nra.
Qed.

Lemma allocation_loop_three (a b c : string) (total : Q) (w : World R) :
  distinct [a; b; c] = true ->
  let h1 := share total (draw w) in
  let h2 := share (total - h1) (draw (advance w)) in
  allocation_loop R 3 0 [a; b; c] [] total w =
  (Ok [(a, h1); (b, h2); (c, total - h1 - h2)], advance (advance w)).
Proof.
  unfold distinct. rewrite !andb_true_iff, !negb_true_iff.
  intros [[Hba Hca] Hcb].
  simpl allocation_loop.
  repeat (rewrite bind_uniform; cbv beta).
  simpl dict_set. rewrite Hba. simpl dict_set. rewrite Hca, Hcb.
  reflexivity.
Qed.

Lemma allocation_loop_four (a b c d : string) (total : Q) (w : World R) :
  distinct [a; b; c; d] = true ->
  let h1 := share total (draw w) in
  let h2 := share (total - h1) (draw (advance w)) in
  let h3 := share (total - h1 - h2) (draw (advance (advance w))) in
  allocation_loop R 4 0 [a; b; c; d] [] total w =
  (Ok [(a, h1); (b, h2); (c, h3); (d, total - h1 - h2 - h3)],
   advance (advance (advance w))).
Proof.
  unfold distinct. rewrite !andb_true_iff, !negb_true_iff.
  intros [[[[[Hba Hca] Hcb] Hda] Hdb] Hdc].
  simpl allocation_loop.
  repeat (rewrite bind_uniform; cbv beta).
  simpl dict_set. rewrite Hba. simpl dict_set. rewrite Hca, Hcb.
  simpl dict_set. rewrite Hda, Hdb, Hdc.
  reflexivity.
Qed.

Lemma projects_distinct (department : string) :
  distinct (_get_employee_projects department) = true.
Proof.
  unfold _get_employee_projects.
  repeat match goal with
         | |- context [String.eqb department ?s] =>
             destruct (String.eqb department s)
         end; reflexivity.
Qed.

Lemma allocation_loop_outcome (projects : list string) (total : Q)
    (w : World R) :
  distinct projects = true ->
  6.5 <= total -> total <= 9.5 ->
  exists project_hours w',
    allocation_loop R (List.length projects) 0 projects [] total w
    = (Ok project_hours, w') /\
    employees w' = employees w /\
    time_tracking_records w' = time_tracking_records w /\
    allocated projects total project_hours.
Proof.
  intros Hd Hlo Hhi.
  destruct projects as [|a [|b [|c [|d [|x rest]]]]]; try discriminate.
  - (* three projects *)
    pose proof (allocation_loop_three a b c total w Hd) as E. cbv zeta in E.
    do 2 eexists. split; [exact E|]. split; [reflexivity|].
    split; [reflexivity|].
    destruct (draw_range R w) as [Hu0 Hu1].
    destruct (draw_range R (advance w)) as [Hv0 Hv1].
    set (h1 := share total (draw w)) in *.
    destruct (share_bounds total (draw w) Hu0 Hu1 ltac:(lra))
      as [P1 [P2 P3]]. fold h1 in P1, P2, P3.
    destruct (P3 ltac:(lra)) as [P4 [P5 P6]].
    set (h2 := share (total - h1) (draw (advance w))) in *.
    destruct (share_bounds (total - h1) (draw (advance w)) Hv0 Hv1 ltac:(lra))
      as [S1 [S2 S3]]. fold h2 in S1, S2, S3.
    destruct (S3 ltac:(lra)) as [S4 [S5 S6]].
    unfold allocated. simpl map. repeat split.
    + repeat constructor; simpl; lra.
    + unfold Num.sumQ. simpl. lra.
    + unfold Num.sumQ. simpl fold_left.
      assert (Hr := RoundFacts.round2_sum3_within h1 h2 (total - h1 - h2) total
                      ltac:(lra)).
      rewrite Qplus_0_l. exact Hr.
  - (* four projects *)
    pose proof (allocation_loop_four a b c d total w Hd) as E. cbv zeta in E.
    do 2 eexists. split; [exact E|]. split; [reflexivity|].
    split; [reflexivity|].
    destruct (draw_range R w) as [Hu0 Hu1].
    destruct (draw_range R (advance w)) as [Hv0 Hv1].
    destruct (draw_range R (advance (advance w))) as [Hx0 Hx1].
    set (h1 := share total (draw w)) in *.
    destruct (share_bounds total (draw w) Hu0 Hu1 ltac:(lra))
      as [P1 [P2 P3]]. fold h1 in P1, P2, P3.
    destruct (P3 ltac:(lra)) as [P4 [P5 P6]].
    set (h2 := share (total - h1) (draw (advance w))) in *.
    destruct (share_bounds (total - h1) (draw (advance w)) Hv0 Hv1 ltac:(lra))
      as [S1 [S2 S3]]. fold h2 in S1, S2, S3.
    destruct (S3 ltac:(lra)) as [S4 [S5 S6]].
    set (h3 := share (total - h1 - h2) (draw (advance (advance w)))) in *.
    destruct (share_bounds (total - h1 - h2) (draw (advance (advance w)))
                Hx0 Hx1 ltac:(lra)) as [T1 [T2 _]]. fold h3 in T1, T2.
    unfold allocated. simpl map. repeat split.
    + repeat constructor; simpl; lra.
    + unfold Num.sumQ. simpl. lra.
    + unfold Num.sumQ. simpl fold_left.
      assert (Hr := RoundFacts.round2_sum4_within h1 h2 h3
                      (total - h1 - h2 - h3) total ltac:(lra)).
      rewrite Qplus_0_l. exact Hr.
Qed.

Lemma bind_py_random {B} (k : Q -> M R B) (w : World R) :
  bind (py_random R) k w = k (draw w) (advance w).
Proof. unfold bind at 1. rewrite py_random_eq. reflexivity. Qed.

(** C7, as the code has it.  In every emitted time record the keys of
    [project_allocations] are the projects of the department, every
    share is non-negative, and the shares sum to [total_hours] within
    0.02: the total and each of the three or four shares are rounded to
    the cent separately, so the sum of the rounded shares can be two
    cents away from the rounded total. *)
Theorem time_allocation (e : Employee) (d : Z) (w : World R)
    (rec : TimeTrackingRecord) (w' : World R) :
  _generate_time_record R e d w = (Ok (Some rec), w') ->
  map fst (project_allocations rec)
    = _get_employee_projects (department e) /\
  Forall (fun kv => 0 <= snd kv) (project_allocations rec) /\
  Qabs (Num.sumQ (map snd (project_allocations rec)) - total_hours rec)
    <= 2 # 100.
Proof.
  unfold _generate_time_record.
  rewrite bind_py_random.
  destruct (Qle_bool (draw w) 0.9); [|intros H; inversion H].
  rewrite bind_uniform.
  destruct (draw_range R (advance w)) as [Hu0 Hu1].
  set (total := 6.5 + (9.5 - 6.5) * draw (advance w)) in *.
  destruct (allocation_loop_outcome (_get_employee_projects (department e))
              total (advance (advance w))
              (projects_distinct _) ltac:(unfold total; lra)
              ltac:(unfold total; lra))
    as [ph [w2 [E [_ [_ [Hk [Hn [Hs Hr]]]]]]]].
  unfold bind at 1. rewrite E. rewrite bind_uniform. unfold ret.
  intros H. inversion H; subst rec w'. simpl.
  rewrite !map_map. simpl. repeat split.
  - exact Hk.
  - rewrite Forall_map. simpl.
    rewrite Forall_forall in *. intros kv Hkv.
    apply RoundFacts.round2_nonneg. apply Hn. exact Hkv.
  - exact Hr.
Qed.

Lemma _generate_time_record_total (e : Employee) (d : Z) (w : World R) :
  exists r w',
    _generate_time_record R e d w = (Ok r, w') /\
    employees w' = employees w /\
    time_tracking_records w' = time_tracking_records w.
Proof.
  unfold _generate_time_record.
  rewrite bind_py_random.
  destruct (Qle_bool (draw w) 0.9).
  - rewrite bind_uniform.
    destruct (draw_range R (advance w)) as [Hu0 Hu1].
    set (total := 6.5 + (9.5 - 6.5) * draw (advance w)) in *.
    destruct (allocation_loop_outcome (_get_employee_projects (department e))
                total (advance (advance w))
                (projects_distinct _) ltac:(unfold total; lra)
                ltac:(unfold total; lra))
      as [ph [w2 [E [He [Ht _]]]]].
    unfold bind at 1. rewrite E. rewrite bind_uniform. unfold ret.
    do 2 eexists. split; [reflexivity|]. split.
    + cbn [employees advance set_rng]. exact He.
    + cbn [time_tracking_records advance set_rng]. exact Ht.
  - unfold ret. do 2 eexists. split; [reflexivity|]. split; reflexivity.
Qed.

End TimeTracking.

(* ------------------------------------------------------------------ *)
(** ** Draws and the roster *)

Section RandomFacts.
Context (R : Rng).

Lemma py_randbelow_eq (n : Z) (w : World R) :
  py_randbelow R n w = (Ok (draw_below n w), advance_below n w).
Proof.
  unfold py_randbelow, draw_below, advance_below.
  destruct (randbelow R n (rng_state w)); reflexivity.
Qed.

Lemma draw_below_range (n : Z) (w : World R) :
  0 < n -> 0 <= draw_below n w < n.
Proof. apply randbelow_range. Qed.

Lemma randint_eq (a b : Z) (w : World R) :
  a <= b ->
  randint R a b w = (Ok (a + draw_below (b + 1 - a) w),
                     advance_below (b + 1 - a) w).
Proof.
  intros Hab. unfold randint.
  assert (H : (0 <? b + 1 - a) = true) by (apply Z.ltb_lt; lia).
  rewrite H. unfold bind. rewrite py_randbelow_eq. reflexivity.
Qed.

Lemma bind_randint {B} (a b : Z) (k : Z -> M R B) (w : World R) :
  a <= b ->
  bind (randint R a b) k w =
  k (a + draw_below (b + 1 - a) w) (advance_below (b + 1 - a) w).
Proof. intros Hab. unfold bind at 1. rewrite randint_eq by exact Hab. reflexivity. Qed.

Lemma randint_range (a b : Z) (w : World R) :
  a <= b -> a <= a + draw_below (b + 1 - a) w <= b.
Proof.
  intros Hab.
  pose proof (draw_below_range (b + 1 - a) w ltac:(lia)). lia.
Qed.

Lemma choice_eq {A} (seq : list A) (w : World R) :
  seq <> [] ->
  exists x,
    choice seq w = (Ok x, advance_below (Z.of_nat (List.length seq)) w) /\
    In x seq.
Proof.
  intros Hne. destruct seq as [|a l]; [congruence|].
  unfold choice. unfold bind. rewrite py_randbelow_eq.
  set (n := Z.of_nat (List.length (a :: l))).
  assert (Hn : 0 < n) by (unfold n; simpl List.length; lia).
  pose proof (draw_below_range n w Hn) as Hi.
  destruct (nth_error (a :: l) (Z.to_nat (draw_below n w))) as [x|] eqn:E.
  - exists x. split; [reflexivity|]. eapply nth_error_In. exact E.
  - apply nth_error_None in E. subst n. lia.
Qed.

End RandomFacts.


Module RosterFacts.

Lemma active_entries_from (s : nat) (l : list Employee) (i : nat)
    (e : Employee) :
  In (i, e)
     (filter (fun p => active (snd p)) (combine (seq s (List.length l)) l)) ->
  (s <= i)%nat /\ nth_error l (i - s) = Some e /\ active e = true.
Proof.
  revert s. induction l as [|x l IH]; intros s H; simpl in H; [destruct H|].
  destruct (active x) eqn:Hx; simpl in H.
  - destruct H as [H|H].
    + inversion H; subst. rewrite Nat.sub_diag. auto.
    + apply IH in H. destruct H as [Hs [Hn Ha]].
      split; [lia|]. split; [|exact Ha].
      replace (i - s)%nat with (S (i - S s)) by lia. exact Hn.
  - apply IH in H. destruct H as [Hs [Hn Ha]].
    split; [lia|]. split; [|exact Ha].
    replace (i - s)%nat with (S (i - S s)) by lia. exact Hn.
Qed.

Lemma active_entries_In (l : list Employee) (i : nat) (e : Employee) :
  In (i, e) (active_entries l) ->
  nth_error l i = Some e /\ active e = true.
Proof.
  intros H. apply active_entries_from in H.
  rewrite Nat.sub_0_r in H. tauto.
Qed.

Lemma active_entries_length_from (s : nat) (l : list Employee) :
  List.length
    (filter (fun p => active (snd p)) (combine (seq s (List.length l)) l))
  = count_active l.
Proof.
  unfold count_active. revert s.
  induction l as [|x l IH]; intros s; simpl; [reflexivity|].
  destruct (active x); simpl; rewrite IH; reflexivity.
Qed.

Lemma active_entries_length (l : list Employee) :
  List.length (active_entries l) = count_active l.
Proof. apply active_entries_length_from. Qed.

Lemma update_nth_ids (i : nat) (d : Z) (l : list Employee) :
  map employee_id (update_nth i (terminate d) l) = map employee_id l.
Proof.
  revert i. induction l as [|x l IH]; intros [|i]; simpl; try reflexivity.
  rewrite IH. reflexivity.
Qed.

Lemma update_nth_count (i : nat) (d : Z) (l : list Employee) (e : Employee) :
  nth_error l i = Some e -> active e = true ->
  S (count_active (update_nth i (terminate d) l)) = count_active l.
Proof.
  unfold count_active.
  revert i. induction l as [|x l IH]; intros [|i] Hn Ha; simpl in *;
    try discriminate.
  - inversion Hn; subst. rewrite Ha. reflexivity.
  - destruct (active x); simpl; rewrite <- (IH i Hn Ha); reflexivity.
Qed.

Lemma update_nth_In (i : nat) (d : Z) (l : list Employee) (e : Employee) :
  In e (update_nth i (terminate d) l) ->
  In e l \/ exists e0, In e0 l /\ e = terminate d e0.
Proof.
  revert i. induction l as [|x l IH]; intros [|i] H; simpl in *; try tauto.
  - destruct H as [<-|H]; [|tauto]. right. exists x. auto.
  - destruct H as [<-|H]; [tauto|].
    apply IH in H. destruct H as [H|[e0 [H1 H2]]]; [tauto|].
    right. exists e0. auto.
Qed.

Lemma update_nth_keeps_inactive (i : nat) (d : Z) (l : list Employee)
    (id : string) :
  inactive_id l id -> inactive_id (update_nth i (terminate d) l) id.
Proof.
  intros H e He Hid.
  apply update_nth_In in He. destruct He as [He|[e0 [_ ->]]].
  - apply H; assumption.
  - reflexivity.
Qed.

Lemma update_nth_makes_inactive (i : nat) (d : Z) (l : list Employee)
    (e : Employee) :
  NoDup (map employee_id l) ->
  nth_error l i = Some e ->
  inactive_id (update_nth i (terminate d) l) (employee_id e).
Proof.
  revert i. induction l as [|x l IH]; intros [|i] Hnd Hn; simpl in *;
    try discriminate.
  - inversion Hn; subst x. inversion Hnd as [|? ? Hx Hl]; subst.
    intros e' [<-|He'] Hid; [reflexivity|].
    exfalso. apply Hx. rewrite <- Hid. apply in_map. exact He'.
  - inversion Hnd as [|? ? Hx Hl]; subst.
    intros e' [<-|He'] Hid.
    + exfalso. apply Hx. rewrite Hid. apply in_map.
      eapply nth_error_In. exact Hn.
    + exact (IH i Hl Hn e' He' Hid).
Qed.

Lemma update_nth_paid (i : nat) (d : Z) (l : list Employee) :
  Forall paid l -> Forall paid (update_nth i (terminate d) l).
Proof.
  intros H. rewrite Forall_forall in *. intros e He.
  apply update_nth_In in He. destruct He as [He|[e0 [He0 ->]]].
  - apply H; exact He.
  - apply (H e0 He0).
Qed.

End RosterFacts.

Import RosterFacts.

(* ------------------------------------------------------------------ *)
(** ** The termination loop *)

Lemma window_length : END_DATE = START_DATE + 1095.
Proof. vm_compute. reflexivity. Qed.

Lemma term_ids_app (l1 l2 : list Event) :
  term_ids (l1 ++ l2) = (term_ids l1 ++ term_ids l2)%list.
Proof. unfold term_ids. apply flat_map_app. Qed.

Section TerminationLoop.
Context (R : Rng).

Lemma bind_get {B} (k : World R -> M R B) (w : World R) :
  bind get k w = k w w.
Proof. reflexivity. Qed.

Lemma bind_modify {B} (f : World R -> World R) (k : unit -> M R B)
    (w : World R) :
  bind (modify f) k w = k tt (f w).
Proof. reflexivity. Qed.

Lemma termination_loop_step (n : nat) (events : list Event) (w : World R) :
  (0 < count_active (employees w))%nat ->
  exists i e term_date reason w2,
    In (i, e) (active_entries (employees w)) /\
    employees w2 = employees w /\
    termination_loop R (S n) events w =
    termination_loop R n
      (events ++ [Termination (employee_id e) (employee_name e)
                              term_date reason])
      (set_employees R
         (update_nth i (terminate term_date) (employees w2)) w2).
Proof.
  intros Hact.
  assert (Hne : active_entries (employees w) <> []).
  { intros E. rewrite <- active_entries_length, E in Hact. simpl in Hact. lia. }
  destruct (choice_eq R (active_entries (employees w)) w Hne)
    as [[i e] [Ec Hin]].
  set (w1 := advance_below
               (Z.of_nat (List.length (active_entries (employees w)))) w) in *.
  pose proof (randint_range R 90 1000 w1 ltac:(lia)) as Hdays.
  set (days := 90 + draw_below (1000 + 1 - 90) w1) in *.
  set (w2 := advance_below (1000 + 1 - 90) w1).
  assert (Hreasons :
    ["voluntary"; "performance"; "layoff"; "relocation"]%string <> [])
    by discriminate.
  destruct (choice_eq R _ w2 Hreasons) as [reason [Er _]].
  exists i, e, (START_DATE + days), reason.
  eexists. split; [exact Hin|]. split; [|].
  2:{ cbn [termination_loop]. rewrite bind_get.
      unfold bind at 1. rewrite Ec. cbn [fst snd].
      rewrite bind_randint by lia. fold w1. fold days. fold w2.
      assert (Hlt : (START_DATE + days <? END_DATE) = true).
      { apply Z.ltb_lt. rewrite window_length. lia. }
      rewrite Hlt. unfold bind at 1. rewrite Er.
      rewrite bind_modify. reflexivity. }
  reflexivity.
Qed.

Lemma termination_loop_outcome (n : nat) :
  forall (events : list Event) (w : World R),
  (n <= count_active (employees w))%nat ->
  exists more w',
    termination_loop R n events w = (Ok (events ++ more), w') /\
    List.length more = n /\
    Forall (fun ev => is_termination ev = true) more /\
    map employee_id (employees w') = map employee_id (employees w) /\
    (Forall paid (employees w) -> Forall paid (employees w')) /\
    (NoDup (map employee_id (employees w)) ->
     NoDup (term_ids events) ->
     (forall id, In id (term_ids events) -> inactive_id (employees w) id) ->
     NoDup (term_ids (events ++ more))).
Proof.
  induction n as [|n IH]; intros events w Hn.
  - exists [], w. simpl. rewrite app_nil_r. repeat split; auto.
  - destruct (termination_loop_step n events w ltac:(lia))
      as [i [e [td [reason [w2 [Hin [Hw2 Estep]]]]]]].
    apply active_entries_In in Hin. destruct Hin as [Hnth Hact].
    set (ev := Termination (employee_id e) (employee_name e) td reason) in *.
    set (w3 := set_employees R
                 (update_nth i (terminate td) (employees w2)) w2) in *.
    assert (Hcount : (n <= count_active (employees w3))%nat).
    { simpl employees. rewrite Hw2.
      pose proof (update_nth_count i td _ e Hnth Hact). lia. }
    destruct (IH (events ++ [ev]) w3 Hcount)
      as [more [w' [E [Hlen [Hterm [Hids [Hpaid Hnd]]]]]]].
    exists (ev :: more), w'.
    rewrite Estep, E, <- app_assoc. simpl app.
    split; [reflexivity|]. split; [simpl; lia|].
    split; [constructor; [reflexivity | exact Hterm]|].
    assert (Hids3 : map employee_id (employees w3)
                    = map employee_id (employees w)).
    { simpl employees. rewrite update_nth_ids, Hw2. reflexivity. }
    split; [congruence|].
    split.
    { intros Hp. apply Hpaid. simpl employees. rewrite Hw2.
      apply update_nth_paid. exact Hp. }
    intros Hroster Hev Hinact.
    replace (events ++ ev :: more) with ((events ++ [ev]) ++ more)
      by (rewrite <- app_assoc; reflexivity).
    apply Hnd.
    + rewrite Hids3. exact Hroster.
    + rewrite term_ids_app. simpl.
      apply NoDup_app; [exact Hev | repeat constructor; simpl; tauto |].
      intros id Hid [<-|[]].
      pose proof (Hinact _ Hid e (nth_error_In _ _ Hnth) eq_refl). congruence.
    + intros id Hid. rewrite term_ids_app in Hid. simpl in Hid.
      apply in_app_or in Hid. simpl employees. rewrite Hw2.
      destruct Hid as [Hid|[<-|[]]].
      * apply update_nth_keeps_inactive. apply Hinact. exact Hid.
      * apply update_nth_makes_inactive; assumption.
Qed.

End TerminationLoop.

(* ------------------------------------------------------------------ *)
(** ** The replacement loop *)

Ltac reassociate :=
  repeat rewrite <- app_assoc; repeat rewrite <- app_comm_cons;
  cbn [app]; repeat rewrite <- app_assoc; reflexivity.

Section ReplacementLoop.
Context (R : Rng).

Lemma nth_error_middle {A} (done : list A) (x : A) (rest : list A) :
  nth_error (done ++ x :: rest) (List.length done) = Some x.
Proof.
  rewrite nth_error_app2 by lia. rewrite Nat.sub_diag. reflexivity.
Qed.

Lemma skip_hirings (hs : list Event) :
  forall (done : list Event) (fuel : nat) (sch : list (string * Z))
         (w : World R),
  Forall (fun ev => is_hiring ev = true) hs ->
  (List.length hs < fuel)%nat ->
  replacement_loop R fuel (List.length done) (done ++ hs) sch w
  = (Ok (done ++ hs, sch), w).
Proof.
  induction hs as [|h hs IH]; intros done fuel sch w Hh Hfuel;
    destruct fuel as [|fuel]; try (simpl in Hfuel; lia).
  - cbn [replacement_loop].
    assert (E : nth_error (done ++ []) (List.length done) = None).
    { apply nth_error_None. rewrite app_nil_r. lia. }
    rewrite E. reflexivity.
  - cbn [replacement_loop]. rewrite nth_error_middle.
    inversion Hh as [|? ? Hh1 Hh2]; subst.
    destruct h as [? ? ? ?|hid hname hdate hrep]; [discriminate Hh1|].
    cbv iota beta.
    replace (done ++ Hiring hid hname hdate hrep :: hs)
      with ((done ++ [Hiring hid hname hdate hrep]) ++ hs)
      by reassociate.
    replace (S (List.length done))
      with (List.length (done ++ [Hiring hid hname hdate hrep]))
      by (rewrite length_app; simpl; lia).
    apply IH; [exact Hh2 | simpl in Hfuel; lia].
Qed.

Lemma replacement_loop_outcome (todo : list Event) :
  forall (done hs : list Event) (sch : list (string * Z)) (fuel : nat)
         (w : World R),
  Forall (fun ev => is_termination ev = true) todo ->
  Forall (fun ev => is_hiring ev = true) hs ->
  (2 * List.length todo + List.length hs < fuel)%nat ->
  exists hs' sch' w',
    replacement_loop R fuel (List.length done) (done ++ todo ++ hs) sch w
    = (Ok (done ++ todo ++ hs ++ hs', (sch ++ sch')%list), w') /\
    replacements todo hs' sch' /\
    Forall (fun ev => is_hiring ev = true) hs' /\
    (Forall paid (employees w) -> Forall paid (employees w')).
Proof.
  induction todo as [|t todo IH]; intros done hs sch fuel w Ht Hh Hfuel.
  - exists [], [], w. rewrite !app_nil_r. simpl app.
    split; [apply skip_hirings; [exact Hh | simpl in Hfuel; lia]|].
    split; [constructor|]. split; [constructor|]. auto.
  - destruct fuel as [|fuel]; [simpl in Hfuel; lia|].
    inversion Ht as [|? ? Ht1 Ht2]; subst.
    destruct t as [id name d reason|? ? ? ?]; [|discriminate Ht1].
    cbn [replacement_loop].
    change ((Termination id name d reason :: todo) ++ hs)
      with (Termination id name d reason :: todo ++ hs).
    rewrite nth_error_middle. cbv iota beta.
    rewrite bind_randint by lia.
    pose proof (randint_range R 30 180 w ltac:(lia)) as Hdelay.
    set (delay := 30 + draw_below (180 + 1 - 30) w) in *.
    set (w1 := advance_below (180 + 1 - 30) w).
    assert (Hlen : List.length (done ++ [Termination id name d reason])
                   = S (List.length done))
      by (rewrite length_app; simpl; lia).
    destruct (d + delay <? END_DATE) eqn:Hlt.
    + apply Z.ltb_lt in Hlt.
      rewrite !bind_uniform. rewrite bind_modify. cbn [employee_id employee_name].
      set (new_id := ("NEW" ++ Str.pad0 3 _)%string).
      set (new_name := ("New Hire " ++ Str.decimal _)%string).
      set (h := Hiring new_id new_name (d + delay) id).
      match goal with
      | |- context [replacement_loop R fuel _ _ _ ?w2] => set (w2' := w2)
      end.
      replace ((done ++ Termination id name d reason :: todo ++ hs) ++ [h])
        with ((done ++ [Termination id name d reason]) ++ todo ++ (hs ++ [h]))
        by reassociate.
      rewrite <- Hlen.
      destruct (IH (done ++ [Termination id name d reason]) (hs ++ [h])
                   (sch ++ [(id, d + delay)])%list fuel w2' Ht2)
        as [hs' [sch' [w' [E [Hrep [Hhs' Hpaid]]]]]].
      { apply Forall_app. split; [exact Hh|]. constructor; [reflexivity|constructor]. }
      { rewrite length_app. simpl in *. lia. }
      exists (h :: hs'), ((id, d + delay) :: sch'), w'.
      rewrite E. split.
      { f_equal. f_equal; reassociate. }
      split; [apply replacements_hire; assumption|].
      split; [constructor; [reflexivity | exact Hhs']|].
      intros Hp. apply Hpaid. subst w2'. cbn [employees set_employees].
      apply Forall_app. split; [exact Hp|].
      constructor; [|constructor].
      unfold paid. cbn [is_hourly annual_salary].
      destruct (draw_range R w1) as [Hu0 Hu1]. nra.
    + apply Z.ltb_ge in Hlt.
      replace (done ++ Termination id name d reason :: todo ++ hs)
        with ((done ++ [Termination id name d reason]) ++ todo ++ hs)
        by reassociate.
      rewrite <- Hlen.
      destruct (IH (done ++ [Termination id name d reason]) hs
                   (sch ++ [(id, d + delay)])%list fuel w1 Ht2 Hh)
        as [hs' [sch' [w' [E [Hrep [Hhs' Hpaid]]]]]].
      { simpl in *. lia. }
      exists hs', ((id, d + delay) :: sch'), w'.
      rewrite E. split.
      { f_equal. f_equal; reassociate. }
      split; [apply replacements_none; assumption|].
      split; [exact Hhs'|].
      intros Hp. apply Hpaid. exact Hp.
Qed.

End ReplacementLoop.

(* ------------------------------------------------------------------ *)
(** ** Lifecycle properties *)

Module EventFacts.

Lemma termination_id_In (id name : string) (d : Z) (reason : string)
    (ts : list Event) :
  In (Termination id name d reason) ts -> In id (term_ids ts).
Proof.
  intros H. unfold term_ids. apply in_flat_map.
  exists (Termination id name d reason). split; [exact H | now left].
Qed.

Lemma replacements_foreign (id : string) (ts hs : list Event)
    (sch : list (string * Z)) :
  replacements ts hs sch ->
  ~ In id (term_ids ts) ->
  filter (refers_to id) hs = [] /\ forall s, ~ In (id, s) sch.
Proof.
  induction 1 as [|id0 name0 d0 reason0 delay nid nname ts hs sch Hd Hlt Hrep IH
                  |id0 name0 d0 reason0 delay ts hs sch Hd Hge Hrep IH];
    intros Hid.
  - split; [reflexivity | intros s []].
  - simpl in Hid.
    destruct (IH ltac:(tauto)) as [Hf Hs].
    assert (Hne : String.eqb id0 id = false)
      by (apply String.eqb_neq; tauto).
    split.
    + simpl. rewrite Hne. exact Hf.
    + intros s [E|Hin]; [inversion E; tauto | exact (Hs s Hin)].
  - simpl in Hid.
    destruct (IH ltac:(tauto)) as [Hf Hs].
    split; [exact Hf|].
    intros s [E|Hin]; [inversion E; tauto | exact (Hs s Hin)].
Qed.

Lemma replacements_replaced (ts hs : list Event) (sch : list (string * Z)) :
  replacements ts hs sch ->
  NoDup (term_ids ts) ->
  forall id name d reason,
    In (Termination id name d reason) ts -> replaced hs sch id d.
Proof.
  induction 1 as [|id0 name0 d0 reason0 delay nid nname ts hs sch Hd Hlt Hrep IH
                  |id0 name0 d0 reason0 delay ts hs sch Hd Hge Hrep IH];
    intros Hnd id name d reason Hin.
  - destruct Hin.
  - simpl in Hnd. inversion Hnd as [|? ? Hfresh Hnd']; subst.
    destruct (replacements_foreign id0 _ _ _ Hrep Hfresh) as [Hf Hs].
    destruct Hin as [E|Hin].
    + inversion E; subst. exists (d + delay).
      split; [now left|]. split.
      { intros s' [E'|Hin']; [inversion E'; reflexivity|].
        exfalso. exact (Hs s' Hin'). }
      split; [lia|].
      apply Z.ltb_lt in Hlt. rewrite Hlt.
      exists nid, nname. simpl. rewrite String.eqb_refl, Hf. reflexivity.
    + pose proof (termination_id_In _ _ _ _ _ Hin) as Hid.
      assert (Hne : id0 <> id) by (intros ->; contradiction).
      destruct (IH Hnd' id name d reason Hin) as [s [H1 [H2 [H3 H4]]]].
      exists s. split; [now right|]. split.
      { intros s' [E'|Hin']; [inversion E'; contradiction | exact (H2 s' Hin')]. }
      split; [exact H3|].
      simpl. apply String.eqb_neq in Hne. rewrite Hne. exact H4.
  - simpl in Hnd. inversion Hnd as [|? ? Hfresh Hnd']; subst.
    destruct (replacements_foreign id0 _ _ _ Hrep Hfresh) as [Hf Hs].
    destruct Hin as [E|Hin].
    + inversion E; subst. exists (d + delay).
      split; [now left|]. split.
      { intros s' [E'|Hin']; [inversion E'; reflexivity|].
        exfalso. exact (Hs s' Hin'). }
      split; [lia|].
      apply Z.ltb_ge in Hge. rewrite Hge. exact Hf.
    + pose proof (termination_id_In _ _ _ _ _ Hin) as Hid.
      assert (Hne : id0 <> id) by (intros ->; contradiction).
      destruct (IH Hnd' id name d reason Hin) as [s [H1 [H2 [H3 H4]]]].
      exists s. split; [now right|]. split.
      { intros s' [E'|Hin']; [inversion E'; contradiction | exact (H2 s' Hin')]. }
      split; [exact H3 | exact H4].
Qed.

Lemma insert_by_date_perm (e : Event) (l : list Event) :
  Permutation (insert_by_date e l) (e :: l).
Proof.
  induction l as [|x l IH]; simpl; [reflexivity|].
  destruct (ev_date e <=? ev_date x); [reflexivity|].
  rewrite IH. apply perm_swap.
Qed.

Lemma sorted_by_date_perm (l : list Event) :
  Permutation (sorted_by_date l) l.
Proof.
  induction l as [|x l IH]; simpl; [reflexivity|].
  rewrite insert_by_date_perm. constructor. exact IH.
Qed.

Lemma filter_perm {A} (p : A -> bool) (l l' : list A) :
  Permutation l l' -> Permutation (filter p l) (filter p l').
Proof.
  induction 1 as [|x l l' H IH|x y l|l l' l'' H1 IH1 H2 IH2]; simpl.
  - reflexivity.
  - destruct (p x); [constructor|]; exact IH.
  - destruct (p x), (p y); try reflexivity. apply perm_swap.
  - etransitivity; eassumption.
Qed.

Lemma filter_sorted_single (p : Event -> bool) (l : list Event) (x : Event) :
  filter p l = [x] -> filter p (sorted_by_date l) = [x].
Proof.
  intros H. apply Permutation_length_1_inv.
  rewrite <- H. symmetry. apply filter_perm, sorted_by_date_perm.
Qed.

Lemma filter_sorted_none (p : Event -> bool) (l : list Event) :
  filter p l = [] -> filter p (sorted_by_date l) = [].
Proof.
  intros H. apply Permutation_nil.
  rewrite <- H. symmetry. apply filter_perm, sorted_by_date_perm.
Qed.

Lemma filter_refers_terminations (id : string) (ts : list Event) :
  Forall (fun ev => is_termination ev = true) ts ->
  filter (refers_to id) ts = [].
Proof.
  intros H. apply ListFacts.filter_none. intros ev Hev.
  rewrite Forall_forall in H. specialize (H ev Hev).
  destruct ev; [reflexivity | discriminate H].
Qed.

Lemma filter_terminations_app (ts hs : list Event) :
  Forall (fun ev => is_termination ev = true) ts ->
  Forall (fun ev => is_hiring ev = true) hs ->
  filter is_termination (ts ++ hs) = ts.
Proof.
  intros Ht Hh. rewrite filter_app.
  rewrite (ListFacts.filter_none is_termination hs).
  - rewrite app_nil_r. apply forallb_filter_id.
    apply forallb_forall. rewrite Forall_forall in Ht. exact Ht.
  - intros ev Hev. rewrite Forall_forall in Hh. specialize (Hh ev Hev).
    destruct ev; [discriminate Hh | reflexivity].
Qed.

End EventFacts.

Section LifecycleClaims.
Context (R : Rng).
Import EventFacts.

Lemma generate_hiring_termination_events_outcome (w : World R) :
  (Z.to_nat num_terminations <= count_active (employees w))%nat ->
  exists terms hs schedule w',
    generate_hiring_termination_events R w = (Ok schedule, w') /\
    hiring_events w' = sorted_by_date (terms ++ hs) /\
    List.length terms = Z.to_nat num_terminations /\
    Forall (fun ev => is_termination ev = true) terms /\
    Forall (fun ev => is_hiring ev = true) hs /\
    replacements terms hs schedule /\
    (NoDup (map employee_id (employees w)) -> NoDup (term_ids terms)) /\
    (Forall paid (employees w) -> Forall paid (employees w')).
Proof.
  intros Hact.
  destruct (termination_loop_outcome R _ [] w Hact)
    as [terms [w1 [E1 [Hlen [Hterm [Hids [Hpaid1 Hnd]]]]]]].
  simpl app in E1, Hnd.
  destruct (replacement_loop_outcome R terms [] [] []
              (2 * List.length terms + 1) w1 Hterm (Forall_nil _)
              ltac:(simpl; lia))
    as [hs [sch [w2 [E2 [Hrep [Hhs Hpaid2]]]]]].
  rewrite app_nil_r in E2. simpl app in E2.
  change (List.length (@nil Event)) with 0%nat in E2.
  exists terms, hs, sch. eexists.
  unfold generate_hiring_termination_events.
  unfold bind at 1. rewrite E1.
  unfold bind at 1. rewrite E2.
  rewrite bind_modify. unfold ret. cbn [fst snd].
  split; [reflexivity|]. cbn [hiring_events set_hiring_events employees].
  repeat split; auto.
  intros Hroster. apply Hnd; [exact Hroster | constructor | intros id []].
Qed.

(** C8.  Replacement continuity: from a roster with distinct ids and
    enough active employees, the generator returns, and for every
    termination event it has emitted there is one scheduled replacement
    date, 30 to 180 days after the termination date; when that date is
    before [END_DATE] exactly one hiring event names the terminated
    employee in [replacing], dated on it, and when it is on or after
    [END_DATE] none does. *)
Theorem replacement_continuity (w : World R) :
  NoDup (map employee_id (employees w)) ->
  (Z.to_nat num_terminations <= count_active (employees w))%nat ->
  exists schedule w',
    generate_hiring_termination_events R w = (Ok schedule, w') /\
    forall id name d reason,
      In (Termination id name d reason) (hiring_events w') ->
      exists s,
        In (id, s) schedule /\
        (forall s', In (id, s') schedule -> s' = s) /\
        d + 30 <= s <= d + 180 /\
        if s <? END_DATE
        then exists nid nname,
               filter (refers_to id) (hiring_events w')
               = [Hiring nid nname s id]
        else filter (refers_to id) (hiring_events w') = [].
Proof.
  intros Hroster Hact.
  destruct (generate_hiring_termination_events_outcome w Hact)
    as [terms [hs [sch [w' [E [Hev [_ [Hterm [Hhs [Hrep [Hnd _]]]]]]]]]]].
  exists sch, w'. split; [exact E|].
  intros id name d reason Hin.
  rewrite Hev in Hin |- *.
  apply (Permutation_in _ (sorted_by_date_perm _)) in Hin.
  apply in_app_or in Hin. destruct Hin as [Hin|Hin].
  2:{ rewrite Forall_forall in Hhs. specialize (Hhs _ Hin). discriminate Hhs. }
  destruct (replacements_replaced _ _ _ Hrep (Hnd Hroster) id name d reason Hin)
    as [s [H1 [H2 [H3 H4]]]].
  exists s. split; [exact H1|]. split; [exact H2|]. split; [exact H3|].
  assert (Hf : filter (refers_to id) (terms ++ hs) = filter (refers_to id) hs).
  { rewrite filter_app, (filter_refers_terminations id terms Hterm).
    reflexivity. }
  destruct (s <? END_DATE).
  - destruct H4 as [nid [nname H4]]. exists nid, nname.
    apply filter_sorted_single. rewrite Hf. exact H4.
  - apply filter_sorted_none. rewrite Hf. exact H4.
Qed.

(** C6, as the code has it.  The number of terminations attempted is
    [int(24 * 0.15 * 3)], the product truncated toward zero, which is 10;
    on a roster with at least ten active employees all ten are
    committed and the emitted events hold exactly ten terminations. *)
Theorem terminations_attempted (w : World R) :
  (10 <= count_active (employees w))%nat ->
  num_terminations = Num.int_of (24 * 0.15 * 3)%Q /\
  num_terminations = 10 /\
  exists schedule w',
    generate_hiring_termination_events R w = (Ok schedule, w') /\
    List.length (filter is_termination (hiring_events w')) = 10%nat.
Proof.
  intros Hact.
  split; [reflexivity|]. split; [reflexivity|].
  destruct (generate_hiring_termination_events_outcome w Hact)
    as [terms [hs [sch [w' [E [Hev [Hlen [Hterm [Hhs _]]]]]]]]].
  exists sch, w'. split; [exact E|].
  rewrite Hev.
  rewrite (Permutation_length
             (filter_perm is_termination _ _ (sorted_by_date_perm _))).
  rewrite (filter_terminations_app _ _ Hterm Hhs). exact Hlen.
Qed.

End LifecycleClaims.

(* ------------------------------------------------------------------ *)
(** ** The whole run *)

Section RosterGenerator.
Context (R : Rng).
Local Open Scope Q_scope.

Lemma well_paid_paid (e : Employee) : well_paid e -> paid e.
Proof. unfold well_paid, paid. destruct (is_hourly e); tauto. Qed.

Lemma profiles_ok : Forall profile_ok EMPLOYEE_PROFILES.
Proof.
  unfold EMPLOYEE_PROFILES.
  repeat constructor; unfold profile_ok; simpl; lra.
Qed.

Lemma round2_positive (q : Q) : 1 <= q -> 0 < Num.round2 q.
Proof. intros H. pose proof (RoundFacts.round2_near q). lra. Qed.

Lemma roster_loop_outcome (names : list string) :
  forall (i : Z) (w : World R),
  exists news w',
    roster_loop R i names w = (Ok tt, w') /\
    employees w' = (employees w ++ news)%list /\
    List.length news = List.length names /\
    Forall (fun e => well_paid e /\ active e = true) news.
Proof.
  induction names as [|name names IH]; intros i w.
  - exists [], w. simpl. rewrite app_nil_r. auto.
  - cbn [roster_loop].
    assert (Hne : EMPLOYEE_PROFILES <> []) by discriminate.
    destruct (choice_eq R EMPLOYEE_PROFILES w Hne) as [profile [Ec Hin]].
    unfold bind at 1. rewrite Ec.
    set (w1 := advance_below _ w).
    pose proof profiles_ok as Hok. rewrite Forall_forall in Hok.
    destruct (Hok profile Hin) as [Hrange Hlo].
    destruct (draw_range R w1) as [Hu0 Hu1].
    set (lo := fst (salary_range profile)) in *.
    set (hi := snd (salary_range profile)) in *.
    assert (Hpay : lo <= lo + (hi - lo) * draw w1) by nra.
    destruct (hourly profile) eqn:Hh.
    + rewrite bind_bind, bind_uniform, bind_ret.
      rewrite bind_randint by lia. rewrite bind_modify. cbn [fst snd].
      match goal with
      | |- context [roster_loop R (i + 1)%Z names ?w2] =>
          destruct (IH (i + 1)%Z w2) as [news [w' [E [He [Hlen Hall]]]]]
      end.
      eexists (_ :: news), w'. rewrite E.
      split; [reflexivity|]. split.
      { rewrite He. cbn [employees set_employees].
        rewrite <- app_assoc. reflexivity. }
      split; [simpl; lia|].
      constructor; [|exact Hall].
      unfold well_paid. cbn [annual_salary hourly_rate active].
      split; [split; apply round2_positive; nra | reflexivity].
    + rewrite bind_bind, bind_uniform, bind_ret.
      rewrite bind_randint by lia. rewrite bind_modify. cbn [fst snd].
      match goal with
      | |- context [roster_loop R (i + 1)%Z names ?w2] =>
          destruct (IH (i + 1)%Z w2) as [news [w' [E [He [Hlen Hall]]]]]
      end.
      eexists (_ :: news), w'. rewrite E.
      split; [reflexivity|]. split.
      { rewrite He. cbn [employees set_employees].
        rewrite <- app_assoc. reflexivity. }
      split; [simpl; lia|].
      constructor; [|exact Hall].
      unfold well_paid. cbn [annual_salary hourly_rate active].
      split; [split; apply round2_positive|reflexivity].
      * nra.
      * apply Qle_shift_div_l; lra.
Qed.

Lemma sumQ_positive (l : list Q) :
  Forall (fun q => 0 < q) l -> l <> [] -> 0 < Num.sumQ l.
Proof.
  intros H Hne. destruct l as [|x l]; [congruence|].
  inversion H as [|? ? Hx Hl]; subst. clear H Hne.
  rewrite SumFacts.sumQ_cons.
  assert (Hs : 0 <= Num.sumQ l).
  { induction Hl as [|y l Hy Hl IH].
    - unfold Num.sumQ. simpl. lra.
    - rewrite SumFacts.sumQ_cons. lra. }
  lra.
Qed.

Lemma scale_well_paid (f : Q) (e : Employee) :
  0 < f -> well_paid e -> well_paid (scale f e).
Proof.
  unfold well_paid. cbn [scale annual_salary hourly_rate].
  intros Hf [H1 H2]. split; nra.
Qed.

Lemma count_active_all (l : list Employee) :
  Forall (fun e => active e = true) l ->
  count_active l = List.length l.
Proof.
  unfold count_active. induction 1 as [|e l He Hl IH]; simpl; [reflexivity|].
  rewrite He. simpl. rewrite IH. reflexivity.
Qed.

Lemma __init___from_fresh (w : World R) :
  __init__ R w =
  bind (roster_loop R 0 employee_names) (fun _ => _calibrate_salaries R) fresh.
Proof. reflexivity. Qed.

Lemma __init___outcome (w : World R) :
  exists w',
    __init__ R w = (Ok tt, w') /\
    Forall paid (employees w') /\
    count_active (employees w') = 24%nat.
Proof.
  rewrite __init___from_fresh.
  destruct (roster_loop_outcome employee_names 0 fresh)
    as [news [w1 [E [He [Hlen Hall]]]]].
  simpl app in He.
  unfold bind at 1. rewrite E.
  unfold _calibrate_salaries. rewrite calibrate_to_unfold.
  assert (Hpos : 0 < total_annual R w1).
  { unfold total_annual. rewrite He. apply sumQ_positive.
    - rewrite Forall_map. rewrite Forall_forall in *.
      intros e Hin. apply (Hall e Hin).
    - destruct news; [discriminate Hlen | discriminate]. }
  rewrite (Qeq_bool_pos _ Hpos).
  eexists. split; [reflexivity|]. cbn [employees set_employees].
  rewrite He.
  assert (Hf : 0 < BASELINE_MONTHLY_COST * 12 / total_annual R w1).
  { apply Qlt_shift_div_l; [exact Hpos|]. unfold BASELINE_MONTHLY_COST. lra. }
  split.
  - rewrite Forall_map. rewrite Forall_forall in *.
    intros e Hin. apply well_paid_paid, scale_well_paid; [exact Hf|].
    apply (Hall e Hin).
  - rewrite count_active_all.
    + rewrite length_map, Hlen. reflexivity.
    + rewrite Forall_map. rewrite Forall_forall in *.
      intros e Hin. cbn [scale active]. apply (Hall e Hin).
Qed.

(** The time-tracking loops raise nothing. *)

Lemma for_each_time_total (d : Z) (l : list Employee) (w : World R) :
  exists w',
    for_each l (time_body d) w = (Ok tt, w') /\
    employees w' = employees w.
Proof.
  revert w. induction l as [|e l IH]; intros w.
  - exists w. split; reflexivity.
  - destruct (_generate_time_record_total R e d w) as [r [w1 [E [He _]]]].
    cbn [for_each]. unfold bind at 1. unfold time_body at 1.
    unfold bind at 1. rewrite E.
    destruct r as [rec|].
    + unfold modify.
      match goal with
      | |- context [for_each l (time_body d) ?w2] =>
          destruct (IH w2) as [w' [E' He']]
      end.
      exists w'. rewrite E'. split; [reflexivity|].
      rewrite He'. cbn [employees set_time_tracking_records]. exact He.
    + unfold ret.
      destruct (IH w1) as [w' [E' He']].
      exists w'. rewrite E'. split; [reflexivity | congruence].
Qed.

Lemma time_tracking_loop_total (fuel : nat) :
  forall (c : Z) (w : World R),
  enough_days fuel c ->
  exists w',
    time_tracking_loop R fuel c w = (Ok tt, w') /\
    employees w' = employees w.
Proof.
  induction fuel as [|fuel IH]; intros c w [Hpos Hfuel]; [lia|].
  cbn [time_tracking_loop].
  destruct (c <=? END_DATE)%Z eqn:Hc.
  - apply Z.leb_le in Hc.
    assert (Hen : enough_days fuel (c + 1)) by (unfold enough_days; lia).
    destruct (Calendar.weekday c <? 5)%Z.
    + rewrite bind_bind, bind_get.
      destruct (for_each_time_total c (filter (on_payroll c) (employees w)) w)
        as [w1 [E1 He1]].
      unfold bind at 1. fold (@time_body R c). rewrite E1.
      destruct (IH (c + 1)%Z w1 Hen) as [w' [E' He']].
      exists w'. split; [exact E' | congruence].
    + rewrite bind_ret.
      destruct (IH (c + 1)%Z w Hen) as [w' [E' He']].
      exists w'. split; [exact E' | exact He'].
  - exists w. split; reflexivity.
Qed.

Lemma generate_time_tracking_data_fuel :
  enough_days (Z.to_nat (END_DATE - START_DATE) + 2) START_DATE.
Proof. unfold enough_days. split; vm_compute; [lia | reflexivity]. Qed.

Lemma main_outcome (w : World R) : exists w', main R w = (Ok tt, w').
Proof.
  unfold main.
  destruct (__init___outcome w) as [w1 [E1 [Hp1 Hc1]]].
  unfold bind at 1. rewrite E1.
  destruct (generate_hiring_termination_events_outcome R w1)
    as [terms [hs [sch [w2 [E2 [_ [_ [_ [_ [_ [_ Hp2]]]]]]]]]]].
  { rewrite Hc1. vm_compute. lia. }
  unfold bind at 1. rewrite E2.
  pose proof (generate_payroll_data_fuel) as Hfuel.
  unfold generate_payroll_data.
  destruct (payroll_loop_paid R _ START_DATE w2 (Hp2 Hp1) Hfuel)
    as [w3 [new [E3 _]]].
  unfold bind at 1. rewrite E3.
  unfold generate_time_tracking_data.
  destruct (time_tracking_loop_total _ START_DATE w3
              generate_time_tracking_data_fuel) as [w4 [E4 _]].
  exists w4. exact E4.
Qed.

Lemma bind_same_start {A B} (c : M R A) (k : A -> M R B) (w1 w2 : World R) :
  c w1 = c w2 -> bind c k w1 = bind c k w2.
Proof. intros E. unfold bind. rewrite E. reflexivity. Qed.

(** C9.  Determinism: the constructor reseeds the generator and
    empties every list, so whatever the state of the process before
    them, two runs end normally in the same world, with the same roster,
    payroll records, time-tracking records and lifecycle events in the
    same order. *)
Theorem determinism (w1 w2 : World R) :
  exists w',
    main R w1 = (Ok tt, w') /\
    main R w2 = (Ok tt, w') /\
    output_streams (snd (main R w1)) = output_streams (snd (main R w2)).
Proof.
  destruct (main_outcome w1) as [w' E].
  assert (Esame : main R w2 = main R w1).
  { unfold main. apply bind_same_start.
    rewrite (__init___from_fresh w1), (__init___from_fresh w2). reflexivity. }
  exists w'. rewrite Esame, E. auto.
Qed.

End RosterGenerator.

(* ------------------------------------------------------------------ *)
(** ** The theorems at concrete inputs *)

Local Open Scope string_scope.
Local Open Scope Z_scope.

Lemma nodupb_sound (l : list string) : nodupb l = true -> NoDup l.
Proof.
  induction l as [|x l IH]; intros H; [constructor|].
  simpl in H. apply andb_true_iff in H. destruct H as [Hx Hl].
  constructor; [|apply IH; exact Hl].
  intros Hin. apply negb_true_iff in Hx.
  assert (Ht : existsb (String.eqb x) l = true).
  { apply existsb_exists. exists x. split; [exact Hin | apply String.eqb_refl]. }
  congruence.
Qed.


Lemma financial_identity_of_records_witness :
  Forall financial_identity (payroll_records Example.pair_world) /\
  Forall financial_identity
    (payroll_records
       (snd (generate_payroll_data Example.zeros Example.pair_world))).
Proof.
  assert (H : Forall financial_identity (payroll_records Example.pair_world))
    by (simpl; constructor).
  split; [exact H|].
  exact (proj1 (financial_identity_of_records Example.zeros
                  Example.pair_world H)).
Defined.

Lemma payroll_eligibility_witness :
  payroll_records Example.pair_world = [] /\
  NoDup (map employee_id (employees Example.pair_world)) /\
  Forall paid (employees Example.pair_world) /\
  exists w',
    generate_payroll_data Example.zeros Example.pair_world = (Ok tt, w') /\
    employees w' = employees Example.pair_world.
Proof.
  assert (H1 : payroll_records Example.pair_world = []) by reflexivity.
  assert (H2 : NoDup (map employee_id (employees Example.pair_world)))
    by (apply nodupb_sound; vm_compute; reflexivity).
  assert (H3 : Forall paid (employees Example.pair_world)).
  { simpl. constructor; [vm_compute; reflexivity|].
    constructor; [vm_compute; reflexivity | constructor]. }
  split; [exact H1|]. split; [exact H2|]. split; [exact H3|].
  destruct (payroll_eligibility Example.zeros Example.pair_world H1 H2 H3)
    as [w' [E [He _]]].
  exists w'. split; [exact E | exact He].
Defined.

Lemma calibrator_counterexample :
  (-1 <= 0)%Q /\
  fst (calibrate_to Example.zeros (-1) Example.pair_world) = Ok tt /\
  (total_annual Example.zeros
     (snd (calibrate_to Example.zeros (-1) Example.pair_world)) == -1)%Q.
Proof.
  split; [vm_compute; discriminate|].
  split; vm_compute; reflexivity.
Qed.

Lemma zero_gross_pay_counterexample :
  (computed_gross_pay Example.zeros
     (Example.salaried "EMP001" 0 START_DATE) START_DATE
     Example.unpaid_world == 0)%Q /\
  fst (generate_payroll_data Example.zeros Example.unpaid_world)
  = Raise ZeroDivisionError /\
  payroll_records
    (snd (generate_payroll_data Example.zeros Example.unpaid_world)) = [].
Proof. repeat split; vm_compute; reflexivity. Qed.

Lemma zero_gross_pay_raises_witness :
  (computed_gross_pay Example.zeros
     (Example.salaried "EMP001" 0 START_DATE) START_DATE
     Example.unpaid_world == 0)%Q /\
  fst (_generate_payroll_record Example.zeros
         (Example.salaried "EMP001" 0 START_DATE) START_DATE
         Example.unpaid_world)
  = Raise ZeroDivisionError.
Proof.
  assert (H : (computed_gross_pay Example.zeros
                 (Example.salaried "EMP001" 0 START_DATE) START_DATE
                 Example.unpaid_world == 0)%Q)
    by (vm_compute; reflexivity).
  split; [exact H|].
  exact (proj1 (zero_gross_pay_raises Example.zeros _ _ _ H)).
Defined.

Lemma termination_count_counterexample :
  num_terminations <> Num.round_half_even (BASELINE_EMPLOYEES * 0.15 * 3)%Q.
Proof. vm_compute. discriminate. Qed.

Lemma terminations_attempted_witness :
  (10 <= count_active (employees Example.ten_world))%nat /\
  num_terminations = 10 /\
  exists schedule w',
    generate_hiring_termination_events Example.zeros Example.ten_world
    = (Ok schedule, w') /\
    List.length (filter is_termination (hiring_events w')) = 10%nat.
Proof.
  assert (H : (10 <= count_active (employees Example.ten_world))%nat)
    by (vm_compute; lia).
  split; [exact H|].
  exact (proj2 (terminations_attempted Example.zeros Example.ten_world H)).
Defined.

Lemma time_allocation_counterexample :
  exists rec w',
    _generate_time_record Example.shares
      (Example.salaried "EMP001" 60000 START_DATE) (START_DATE + 2)
      Example.shares_world = (Ok (Some rec), w') /\
    map snd (project_allocations rec) = [2.00; 2.00; 2.00; 2.00]%Q /\
    total_hours rec = 8.02%Q /\
    ~ (Qabs (Num.sumQ (map snd (project_allocations rec)) - total_hours rec)
       <= 1 # 100)%Q.
Proof.
  do 2 eexists. split; [vm_compute; reflexivity|].
  split; [vm_compute; reflexivity|].
  split; [vm_compute; reflexivity|].
  vm_compute. intros H. apply H. reflexivity.
Qed.

Lemma time_allocation_witness :
  exists rec w',
    _generate_time_record Example.zeros
      (Example.salaried "EMP001" 60000 START_DATE) (START_DATE + 2)
      Example.pair_world = (Ok (Some rec), w') /\
    map fst (project_allocations rec)
    = _get_employee_projects "Engineering" /\
    Forall (fun kv => (0 <= snd kv)%Q) (project_allocations rec) /\
    (Qabs (Num.sumQ (map snd (project_allocations rec)) - total_hours rec)
     <= 2 # 100)%Q.
Proof.
  do 2 eexists.
  assert (E : _generate_time_record Example.zeros
                (Example.salaried "EMP001" 60000 START_DATE) (START_DATE + 2)
                Example.pair_world = (Ok (Some _), _))
    by (vm_compute; reflexivity).
  split; [exact E|].
  exact (time_allocation Example.zeros _ _ _ _ _ E).
Defined.

Lemma replacement_continuity_witness :
  NoDup (map employee_id (employees Example.ten_world)) /\
  (Z.to_nat num_terminations
   <= count_active (employees Example.ten_world))%nat /\
  exists schedule w',
    generate_hiring_termination_events Example.zeros Example.ten_world
    = (Ok schedule, w').
Proof.
  assert (H1 : NoDup (map employee_id (employees Example.ten_world)))
    by (apply nodupb_sound; vm_compute; reflexivity).
  assert (H2 : (Z.to_nat num_terminations
                <= count_active (employees Example.ten_world))%nat)
    by (vm_compute; lia).
  split; [exact H1|]. split; [exact H2|].
  destruct (replacement_continuity Example.zeros Example.ten_world H1 H2)
    as [schedule [w' [E _]]].
  exists schedule, w'. exact E.
Defined.


(* ================================================================== *)
(** * Further properties *)

Local Close Scope string_scope.
Local Open Scope Z_scope.

(* ------------------------------------------------------------------ *)
(** ** Rounding is monotone *)

Module RoundOrder.

Local Open Scope Q_scope.

Lemma round_half_even_comp (x y : Q) :
  x == y -> Num.round_half_even x = Num.round_half_even y.
Proof.
  intros H. unfold Num.round_half_even.
  rewrite (Qfloor_comp _ _ H).
  assert (E : x - inject_Z (Qfloor y) == y - inject_Z (Qfloor y))
    by (rewrite H; reflexivity).
  rewrite (Qcompare_comp _ _ E _ _ (Qeq_refl (1 # 2))). reflexivity.
Qed.

Lemma round_half_even_mono (x y : Q) :
  x <= y -> (Num.round_half_even x <= Num.round_half_even y)%Z.
Proof.
  intros H.
  destruct (Qle_lt_or_eq _ _ H) as [Hlt|Heq].
  - pose proof (RoundFacts.round_half_even_near x) as Hx.
    pose proof (RoundFacts.round_half_even_near y) as Hy.
    assert (Hgt : inject_Z (Num.round_half_even x - 1)
                  < inject_Z (Num.round_half_even y)).
    { unfold Z.sub. rewrite inject_Z_plus, inject_Z_opp.
      change (inject_Z 1) with 1. lra. }
    rewrite <- Zlt_Qlt in Hgt. lia.
  - rewrite (round_half_even_comp _ _ Heq). lia.
Qed.

Lemma round2_mono (x y : Q) : x <= y -> Num.round2 x <= Num.round2 y.
Proof.
  intros H. unfold Num.round2.
  assert (Hk : (Num.round_half_even (x * 100)
                <= Num.round_half_even (y * 100))%Z)
    by (apply round_half_even_mono; lra).
  unfold Qle. simpl. lia.
Qed.

Lemma round2_comp (x y : Q) : x == y -> Num.round2 x = Num.round2 y.
Proof.
  intros H. unfold Num.round2.
  rewrite (round_half_even_comp (x * 100) (y * 100)); [reflexivity|].
  rewrite H. reflexivity.
Qed.

End RoundOrder.

Import RoundOrder.

(* ------------------------------------------------------------------ *)
(** ** The roster of the constructor *)

Section Roster.
Context (R : Rng).
Local Open Scope Q_scope.

Lemma profiles_pay_enough :
  Forall (fun p => fst (salary_range p) <= snd (salary_range p) /\
                   (if hourly p then 11 else 22880) <= fst (salary_range p))
         EMPLOYEE_PROFILES.
Proof.
  unfold EMPLOYEE_PROFILES.
  repeat constructor; simpl; lra.
Qed.

Lemma rounded_rates_hourly (hr : Q) :
  11 <= hr ->
  0 < Num.round2 (hr * 2080) /\ 0 < Num.round2 hr /\
  2079 * Num.round2 hr <= Num.round2 (hr * 2080) /\
  Num.round2 (hr * 2080) <= 2081 * Num.round2 hr.
Proof.
  intros H.
  pose proof (RoundFacts.round2_near (hr * 2080)).
  pose proof (RoundFacts.round2_near hr).
  repeat split; lra.
Qed.

Lemma rounded_rates_salaried (sal : Q) :
  22880 <= sal ->
  0 < Num.round2 sal /\ 0 < Num.round2 (sal / 2080) /\
  2079 * Num.round2 (sal / 2080) <= Num.round2 sal /\
  Num.round2 sal <= 2081 * Num.round2 (sal / 2080).
Proof.
  intros H.
  pose proof (RoundFacts.round2_near sal).
  pose proof (RoundFacts.round2_near (sal / 2080)).
  assert (E : sal / 2080 == sal * (1 # 2080)) by field.
  set (x := sal / 2080) in *.
  repeat split; lra.
Qed.

Lemma roster_loop_entries (names : list string) :
  forall (i : Z) (w : World R),
  exists news w',
    roster_loop R i names w = (Ok tt, w') /\
    employees w' = (employees w ++ news)%list /\
    payroll_records w' = payroll_records w /\
    time_tracking_records w' = time_tracking_records w /\
    hiring_events w' = hiring_events w /\
    map employee_id news = roster_ids i (List.length names) /\
    map employee_name news = names /\
    Forall roster_entry news.
Proof.
  induction names as [|name names IH]; intros i w.
  - exists [], w. cbn. rewrite app_nil_r. repeat split. constructor.
  - cbn [roster_loop].
    assert (Hne : EMPLOYEE_PROFILES <> []) by discriminate.
    destruct (choice_eq R EMPLOYEE_PROFILES w Hne) as [profile [Ec Hin]].
    unfold bind at 1. rewrite Ec.
    set (w1 := advance_below _ w).
    pose proof profiles_pay_enough as Hok. rewrite Forall_forall in Hok.
    destruct (Hok profile Hin) as [Hrange Hlo].
    destruct (draw_range R w1) as [Hu0 Hu1].
    set (lo := fst (salary_range profile)) in *.
    set (hi := snd (salary_range profile)) in *.
    assert (Hpay : lo <= lo + (hi - lo) * draw w1) by nra.
    pose proof (randint_range R 0 730 (advance w1) ltac:(lia)) as Hdays.
    destruct (hourly profile) eqn:Hh;
      rewrite bind_bind, bind_uniform, bind_ret;
      rewrite bind_randint by lia; rewrite bind_modify; cbn [fst snd];
      match goal with
      | |- context [roster_loop R (i + 1)%Z names ?w2] =>
          destruct (IH (i + 1)%Z w2)
            as [news [w' [E [He [F1 [F2 [F3 [Hids [Hnames Hall]]]]]]]]]
      end;
      (eexists (_ :: news), w'; rewrite E;
       split; [reflexivity|]; split;
       [rewrite He; cbn [employees set_employees];
        rewrite <- app_assoc; reflexivity|];
       split; [exact F1|]; split; [exact F2|]; split; [exact F3|];
       split; [cbn [map roster_ids List.length employee_id];
               rewrite Hids; reflexivity|];
       split; [cbn [map employee_name]; rewrite Hnames; reflexivity|];
       constructor; [|exact Hall];
       unfold roster_entry, well_paid;
       cbn [active termination_date hire_date title is_hourly department
            annual_salary hourly_rate];
       split; [reflexivity|]; split; [reflexivity|];
       split; [lia|];
       split; [exists profile; rewrite Hh; auto|];
       split; [reflexivity|]).
    + destruct (rounded_rates_hourly (lo + (hi - lo) * draw w1) ltac:(lra))
        as [H1 [H2 [H3 H4]]]. auto.
    + destruct (rounded_rates_salaried (lo + (hi - lo) * draw w1) ltac:(lra))
        as [H1 [H2 [H3 H4]]]. auto.
Qed.

Lemma scale_roster_entry (f : Q) (e : Employee) :
  0 < f -> roster_entry e -> roster_entry (scale f e).
Proof.
  unfold roster_entry, well_paid.
  cbn [scale active termination_date hire_date title is_hourly department
       annual_salary hourly_rate].
  intros Hf [H1 [H2 [H3 [H4 [H5 [[H6 H7] [H8 H9]]]]]]].
  repeat (split; [assumption|]).
  split; [split; nra|]. split; nra.
Qed.

Lemma map_scale_id (f : Q) (l : list Employee) :
  map employee_id (map (scale f) l) = map employee_id l.
Proof. rewrite map_map. reflexivity. Qed.

Lemma map_scale_name (f : Q) (l : list Employee) :
  map employee_name (map (scale f) l) = map employee_name l.
Proof. rewrite map_map. reflexivity. Qed.

Lemma __init___roster (w : World R) :
  exists w',
    __init__ R w = (Ok tt, w') /\
    map employee_id (employees w') = roster_ids 0 24 /\
    map employee_name (employees w') = employee_names /\
    Forall roster_entry (employees w') /\
    total_annual R w' == BASELINE_MONTHLY_COST * 12 /\
    payroll_records w' = [] /\
    time_tracking_records w' = [] /\
    hiring_events w' = [].
Proof.
  rewrite __init___from_fresh.
  destruct (roster_loop_entries employee_names 0 fresh)
    as [news [w1 [E [He [F1 [F2 [F3 [Hids [Hnames Hall]]]]]]]]].
  cbn [app employees fresh] in He.
  unfold bind at 1. rewrite E.
  unfold _calibrate_salaries. rewrite calibrate_to_unfold.
  assert (Hpos : 0 < total_annual R w1).
  { unfold total_annual. rewrite He. apply sumQ_positive.
    - rewrite Forall_map. rewrite Forall_forall in *.
      intros e Hin. apply (Hall e Hin).
    - destruct news; [discriminate Hnames | discriminate]. }
  rewrite (Qeq_bool_pos _ Hpos).
  eexists. split; [reflexivity|].
  cbn [employees payroll_records time_tracking_records hiring_events
       set_employees].
  rewrite He.
  assert (Hf : 0 < BASELINE_MONTHLY_COST * 12 / total_annual R w1).
  { apply Qlt_shift_div_l; [exact Hpos|]. unfold BASELINE_MONTHLY_COST. lra. }
  split; [rewrite map_scale_id; exact Hids|].
  split; [rewrite map_scale_name; exact Hnames|].
  split.
  { rewrite Forall_map. rewrite Forall_forall in *.
    intros e Hin. apply scale_roster_entry; [exact Hf | exact (Hall e Hin)]. }
  split.
  { unfold total_annual at 1. cbn [employees set_employees].
    rewrite SumFacts.sumQ_scaled.
    unfold total_annual in *. rewrite He in *.
    field. lra. }
  split; [exact F1|]. split; [exact F2 | exact F3].
Qed.


End Roster.

(** X2.  Every title is assigned one of the five departments, and the
    projects of an assigned department are four distinct names: the
    three-project default of [_get_employee_projects] is never used for
    a department that [_assign_department] gave. *)
Theorem department_projects (t : string) :
  In (_assign_department t)
     ["Executive"; "Engineering"; "Product"; "Sales & Marketing";
      "Operations"]%string /\
  List.length (_get_employee_projects (_assign_department t)) = 4%nat /\
  NoDup (_get_employee_projects (_assign_department t)).
Proof.
  unfold _assign_department.
  repeat match goal with
         | |- context [any_word_in ?ws ?s] => destruct (any_word_in ws s)
         end;
    (split; [cbn; tauto|]; split; [reflexivity|];
     apply nodupb_sound; reflexivity).
Qed.


Section Calibration.
Context (R : Rng).
Local Open Scope Q_scope.



End Calibration.


(* ------------------------------------------------------------------ *)
(** ** Lifecycle events and the roster *)

Module UpdateFacts.

Lemma nth_error_update_nth {A} (f : A -> A) (l : list A) (i : nat) (x : A) :
  nth_error l i = Some x -> nth_error (update_nth i f l) i = Some (f x).
Proof.
  revert i. induction l as [|y l IH]; intros [|i] H; cbn in *;
    try discriminate.
  - inversion H; reflexivity.
  - apply IH. exact H.
Qed.

Lemma update_nth_length {A} (f : A -> A) (l : list A) (i : nat) :
  List.length (update_nth i f l) = List.length l.
Proof.
  revert i. induction l as [|y l IH]; intros [|i]; cbn; try reflexivity.
  rewrite IH. reflexivity.
Qed.

Lemma Forall2_refl {A} (P : A -> A -> Prop) (l : list A) :
  (forall x, P x x) -> Forall2 P l l.
Proof. intros H. induction l; constructor; auto. Qed.

Lemma Forall2_update_nth {A} (f : A -> A) (l : list A) (i : nat) (x : A) :
  nth_error l i = Some x ->
  Forall2 (fun a b => b = a \/ (a = x /\ b = f x)) l (update_nth i f l).
Proof.
  revert i. induction l as [|y l IH]; intros [|i] H; cbn in *;
    try discriminate.
  - inversion H; subst y. constructor; [right; auto|].
    apply Forall2_refl. auto.
  - constructor; [left; reflexivity|]. apply IH. exact H.
Qed.

Lemma Forall2_compose {A B C} (P : A -> B -> Prop) (Q : B -> C -> Prop)
    (S : A -> C -> Prop) (l1 : list A) (l2 : list B) (l3 : list C) :
  (forall x y z, P x y -> Q y z -> S x z) ->
  Forall2 P l1 l2 -> Forall2 Q l2 l3 -> Forall2 S l1 l3.
Proof.
  intros H H12. revert l3.
  induction H12 as [|x y l1 l2 Hxy H12 IH]; intros l3 H23;
    inversion H23; subst; constructor; eauto.
Qed.

Lemma Forall2_nth_error {A B} (P : A -> B -> Prop) (l1 : list A)
    (l2 : list B) (i : nat) (x : A) :
  Forall2 P l1 l2 -> nth_error l1 i = Some x ->
  exists y, nth_error l2 i = Some y /\ P x y.
Proof.
  intros H. revert i.
  induction H as [|a b l1 l2 Hab H IH]; intros [|i] Hn; cbn in *;
    try discriminate.
  - inversion Hn; subst. exists b. auto.
  - apply IH. exact Hn.
Qed.

Lemma Forall2_In_r {A B} (P : A -> B -> Prop) (l1 : list A) (l2 : list B)
    (y : B) :
  Forall2 P l1 l2 -> In y l2 -> exists x, In x l1 /\ P x y.
Proof.
  induction 1 as [|a b l1 l2 Hab H IH]; intros Hin; [destruct Hin|].
  destruct Hin as [<-|Hin].
  - exists a. split; [now left | exact Hab].
  - destruct (IH Hin) as [x [Hx Hp]]. exists x. split; [now right | exact Hp].
Qed.

Lemma Forall2_In_l {A B} (P : A -> B -> Prop) (l1 : list A) (l2 : list B)
    (x : A) :
  Forall2 P l1 l2 -> In x l1 -> exists y, In y l2 /\ P x y.
Proof.
  induction 1 as [|a b l1 l2 Hab H IH]; intros Hin; [destruct Hin|].
  destruct Hin as [<-|Hin].
  - exists b. split; [now left | exact Hab].
  - destruct (IH Hin) as [y [Hy Hp]]. exists y. split; [now right | exact Hp].
Qed.

Lemma Forall2_impl {A B} (P Q : A -> B -> Prop) (l1 : list A) (l2 : list B) :
  (forall x y, P x y -> Q x y) -> Forall2 P l1 l2 -> Forall2 Q l1 l2.
Proof. intros H. induction 1; constructor; auto. Qed.

End UpdateFacts.

Section TerminationEntries.
Context (R : Rng).
Import UpdateFacts.

Lemma termination_loop_first (n : nat) (events : list Event) (w : World R) :
  (0 < count_active (employees w))%nat ->
  exists i e term_date reason w2,
    nth_error (employees w) i = Some e /\
    active e = true /\
    START_DATE + 90 <= term_date <= START_DATE + 1000 /\
    In reason ["voluntary"; "performance"; "layoff"; "relocation"]%string /\
    employees w2 = employees w /\
    payroll_records w2 = payroll_records w /\
    time_tracking_records w2 = time_tracking_records w /\
    hiring_events w2 = hiring_events w /\
    termination_loop R (S n) events w =
    termination_loop R n
      (events ++ [Termination (employee_id e) (employee_name e)
                              term_date reason])
      (set_employees R
         (update_nth i (terminate term_date) (employees w2)) w2).
Proof.
  intros Hact.
  assert (Hne : active_entries (employees w) <> []).
  { intros E. rewrite <- active_entries_length, E in Hact. simpl in Hact. lia. }
  destruct (choice_eq R (active_entries (employees w)) w Hne)
    as [[i e] [Ec Hin]].
  set (w1 := advance_below
               (Z.of_nat (List.length (active_entries (employees w)))) w) in *.
  pose proof (randint_range R 90 1000 w1 ltac:(lia)) as Hdays.
  set (days := 90 + draw_below (1000 + 1 - 90) w1) in *.
  set (w2 := advance_below (1000 + 1 - 90) w1).
  assert (Hreasons :
    ["voluntary"; "performance"; "layoff"; "relocation"]%string <> [])
    by discriminate.
  destruct (choice_eq R _ w2 Hreasons) as [reason [Er Hreason]].
  apply active_entries_In in Hin. destruct Hin as [Hnth Hactive].
  exists i, e, (START_DATE + days), reason.
  eexists. split; [exact Hnth|]. split; [exact Hactive|].
  split; [lia|]. split; [exact Hreason|].
  split; [|split; [|split; [|split]]].
  5:{ cbn [termination_loop]. rewrite bind_get.
      unfold bind at 1. rewrite Ec. cbn [fst snd].
      rewrite bind_randint by lia. fold w1. fold days. fold w2.
      assert (Hlt : (START_DATE + days <? END_DATE) = true).
      { apply Z.ltb_lt. rewrite window_length. lia. }
      rewrite Hlt. unfold bind at 1. rewrite Er.
      rewrite bind_modify. reflexivity. }
  all: reflexivity.
Qed.

Lemma roster_step_more (ev : Event) (events : list Event) (e e' : Employee) :
  roster_step events e e' -> roster_step (ev :: events) e e'.
Proof.
  intros [H|[Ha [d [reason [H1 H2]]]]]; [left; exact H|].
  right. split; [exact Ha|]. exists d, reason. split; [exact H1 | now right].
Qed.

Lemma termination_loop_entries (n : nat) :
  forall (events : list Event) (w : World R),
  (n <= count_active (employees w))%nat ->
  exists more w',
    termination_loop R n events w = (Ok (events ++ more), w') /\
    List.length more = n /\
    payroll_records w' = payroll_records w /\
    time_tracking_records w' = time_tracking_records w /\
    hiring_events w' = hiring_events w /\
    (count_active (employees w') + n = count_active (employees w))%nat /\
    Forall2 (roster_step more) (employees w) (employees w') /\
    Forall (termination_entry (employees w')) more.
Proof.
  induction n as [|n IH]; intros events w Hn.
  - exists [], w. cbn [termination_loop ret]. rewrite app_nil_r.
    split; [reflexivity|]. split; [reflexivity|].
    do 3 (split; [reflexivity|]). split; [lia|].
    split; [apply Forall2_refl; intros x; left; reflexivity | constructor].
  - destruct (termination_loop_first n events w ltac:(lia))
      as [i [e [td [reason [w2 [Hnth [Hact [Htd [Hreason
            [Hw2 [F1 [F2 [F3 Estep]]]]]]]]]]]]].
    set (ev := Termination (employee_id e) (employee_name e) td reason) in *.
    set (w3 := set_employees R
                 (update_nth i (terminate td) (employees w2)) w2) in *.
    assert (Hcount3 : S (count_active (employees w3))
                      = count_active (employees w)).
    { cbn [w3 employees set_employees]. rewrite Hw2.
      apply (update_nth_count i td _ e Hnth Hact). }
    destruct (IH (events ++ [ev]) w3 ltac:(lia))
      as [more [w' [E [Hlen [G1 [G2 [G3 [Hcount [Hstep Hentries]]]]]]]]].
    exists (ev :: more), w'.
    rewrite Estep, E, <- app_assoc. cbn [app].
    split; [reflexivity|]. split; [cbn [List.length]; lia|].
    split; [rewrite G1; exact F1|].
    split; [rewrite G2; exact F2|].
    split; [rewrite G3; exact F3|].
    split; [lia|].
    assert (Hnth3 : nth_error (employees w3) i = Some (terminate td e)).
    { cbn [w3 employees set_employees]. rewrite Hw2.
      apply nth_error_update_nth. exact Hnth. }
    destruct (Forall2_nth_error _ _ _ i _ Hstep Hnth3) as [e' [Hnth' He']].
    assert (He'eq : e' = terminate td e).
    { destruct He' as [H|[H _]]; [exact H | discriminate H]. }
    subst e'.
    split.
    + apply (Forall2_compose
               (fun a b => b = a \/ (a = e /\ b = terminate td e))
               (roster_step more) (roster_step (ev :: more))
               (employees w) (employees w3) (employees w')).
      * intros x y z [->|[-> ->]] Hq.
        -- apply roster_step_more. exact Hq.
        -- destruct Hq as [->|[H _]]; [|discriminate H].
           right. split; [exact Hact|]. exists td, reason.
           split; [reflexivity | now left].
      * cbn [w3 employees set_employees]. rewrite Hw2.
        apply Forall2_update_nth. exact Hnth.
      * exact Hstep.
    + constructor; [|exact Hentries].
      cbn [termination_entry ev]. split; [exact Htd|].
      split; [exact Hreason|].
      exists (terminate td e). split; [eapply nth_error_In; exact Hnth'|].
      repeat split.
Qed.

Lemma termination_loop_too_few (n : nat) :
  forall (events : list Event) (w : World R),
  (count_active (employees w) < n)%nat ->
  exists w',
    termination_loop R n events w = (Raise IndexError, w') /\
    payroll_records w' = payroll_records w /\
    time_tracking_records w' = time_tracking_records w /\
    hiring_events w' = hiring_events w /\
    List.length (employees w') = List.length (employees w) /\
    count_active (employees w') = 0%nat.
Proof.
  induction n as [|n IH]; intros events w Hn; [lia|].
  destruct (count_active (employees w)) as [|k] eqn:Hk.
  - assert (Hnone : active_entries (employees w) = []).
    { apply length_zero_iff_nil. rewrite active_entries_length. exact Hk. }
    exists w. cbn [termination_loop]. rewrite bind_get.
    unfold bind at 1. rewrite Hnone. cbn [choice raise].
    repeat split. exact Hk.
  - destruct (termination_loop_first n events w ltac:(lia))
      as [i [e [td [reason [w2 [Hnth [Hact [Htd [Hreason
            [Hw2 [F1 [F2 [F3 Estep]]]]]]]]]]]]].
    set (w3 := set_employees R
                 (update_nth i (terminate td) (employees w2)) w2) in *.
    assert (Hcount3 : S (count_active (employees w3))
                      = count_active (employees w)).
    { cbn [w3 employees set_employees]. rewrite Hw2.
      apply (update_nth_count i td _ e Hnth Hact). }
    destruct (IH (events ++ [Termination (employee_id e) (employee_name e)
                                         td reason]) w3 ltac:(lia))
      as [w' [E [G1 [G2 [G3 [G4 G5]]]]]].
    exists w'. rewrite Estep, E. split; [reflexivity|].
    split; [rewrite G1; exact F1|].
    split; [rewrite G2; exact F2|].
    split; [rewrite G3; exact F3|].
    split; [|exact G5].
    rewrite G4. cbn [w3 employees set_employees].
    rewrite update_nth_length, Hw2. reflexivity.
Qed.

(** X4.  With fewer than ten active employees the lifecycle generator
    raises [IndexError], from [random.choice] on an empty list, once it
    has terminated every active employee: the roster keeps its length
    but holds no active employee any more, and neither [hiring_events]
    nor the record lists are changed. *)
Theorem too_few_active_raises (w : World R) :
  (count_active (employees w) < 10)%nat ->
  exists w',
    generate_hiring_termination_events R w = (Raise IndexError, w') /\
    hiring_events w' = hiring_events w /\
    payroll_records w' = payroll_records w /\
    time_tracking_records w' = time_tracking_records w /\
    List.length (employees w') = List.length (employees w) /\
    count_active (employees w') = 0%nat.
Proof.
  intros Hact.
  destruct (termination_loop_too_few (Z.to_nat num_terminations) [] w Hact)
    as [w' [E [G1 [G2 [G3 [G4 G5]]]]]].
  exists w'. unfold generate_hiring_termination_events.
  unfold bind at 1. rewrite E. repeat split; assumption.
Qed.

End TerminationEntries.

Section ReplacementEntries.
Context (R : Rng).
Import UpdateFacts.

Lemma hire_pair_more (t : Event) (terms : list Event) (h : Event)
    (e : Employee) :
  hire_pair terms h e -> hire_pair (t :: terms) h e.
Proof.
  intros [d [rep [H1 [H2 [H3 [H4 [tname [td [reason [H5 H6]]]]]]]]]].
  exists d, rep. repeat (split; [assumption|]).
  exists tname, td, reason. split; [now right | exact H6].
Qed.

Lemma replacement_loop_entries (todo : list Event) :
  forall (done hs : list Event) (sch : list (string * Z)) (fuel : nat)
         (w : World R),
  Forall (fun ev => is_termination ev = true) todo ->
  Forall (fun ev => is_hiring ev = true) hs ->
  (2 * List.length todo + List.length hs < fuel)%nat ->
  exists hs' sch' w' news,
    replacement_loop R fuel (List.length done) (done ++ todo ++ hs) sch w
    = (Ok (done ++ todo ++ hs ++ hs', (sch ++ sch')%list), w') /\
    employees w' = employees w ++ news /\
    payroll_records w' = payroll_records w /\
    time_tracking_records w' = time_tracking_records w /\
    hiring_events w' = hiring_events w /\
    map employee_id news
    = hire_ids (List.length (done ++ todo ++ hs)) (List.length news) /\
    (List.length news <= List.length todo)%nat /\
    Forall2 (hire_pair todo) hs' news.
Proof.
  induction todo as [|t todo IH]; intros done hs sch fuel w Ht Hh Hfuel.
  - exists [], [], w, []. rewrite !app_nil_r. cbn [app].
    split; [apply skip_hirings; [exact Hh | simpl in Hfuel; lia]|].
    do 4 (split; [reflexivity|]). split; [reflexivity|].
    split; [apply Nat.le_refl | constructor].
  - destruct fuel as [|fuel]; [simpl in Hfuel; lia|].
    inversion Ht as [|? ? Ht1 Ht2]; subst.
    destruct t as [id name d reason|? ? ? ?]; [|discriminate Ht1].
    cbn [replacement_loop].
    change ((Termination id name d reason :: todo) ++ hs)
      with (Termination id name d reason :: todo ++ hs).
    rewrite nth_error_middle. cbv iota beta.
    rewrite bind_randint by lia.
    pose proof (randint_range R 30 180 w ltac:(lia)) as Hdelay.
    set (delay := 30 + draw_below (180 + 1 - 30) w) in *.
    set (w1 := advance_below (180 + 1 - 30) w).
    assert (Hlen : List.length (done ++ [Termination id name d reason])
                   = S (List.length done))
      by (rewrite length_app; simpl; lia).
    set (L := List.length (done ++ Termination id name d reason :: todo ++ hs)).
    destruct (d + delay <? END_DATE) eqn:Hlt.
    + apply Z.ltb_lt in Hlt.
      rewrite !bind_uniform. rewrite bind_modify.
      cbn [employee_id employee_name].
      destruct (draw_range R w1) as [Hu0 Hu1].
      destruct (draw_range R (advance w1)) as [Hv0 Hv1].
      set (new_employee :=
        {| employee_id := ("NEW" ++ Str.pad0 3 (Z.of_nat L + 1))%string;
           employee_name := ("New Hire " ++ Str.decimal (Z.of_nat L + 1))%string;
           title := "Software Engineer";
           hire_date := d + delay;
           annual_salary := (85000 + (115000 - 85000) * draw w1)%Q;
           hourly_rate :=
             ((85000 + (115000 - 85000) * draw (advance w1)) / 2080)%Q;
           is_hourly := false;
           department := "Engineering";
           active := true;
           termination_date := None |}).
      set (h := Hiring (employee_id new_employee) (employee_name new_employee)
                       (d + delay) id).
      set (w2 := set_employees R
                   (employees (advance (advance w1)) ++ [new_employee])
                   (advance (advance w1))).
      change (Hiring ("NEW" ++ Str.pad0 3 (Z.of_nat L + 1))%string
                     ("New Hire " ++ Str.decimal (Z.of_nat L + 1))%string
                     (d + delay) id) with h.
      replace ((done ++ Termination id name d reason :: todo ++ hs) ++ [h])
        with ((done ++ [Termination id name d reason]) ++ todo ++ (hs ++ [h]))
        by reassociate.
      rewrite <- Hlen.
      destruct (IH (done ++ [Termination id name d reason]) (hs ++ [h])
                   (sch ++ [(id, d + delay)])%list fuel w2 Ht2)
        as [hs' [sch' [w' [news [E [He [F1 [F2 [F3 [Hids [Hn Hpairs]]]]]]]]]]].
      { apply Forall_app. split; [exact Hh|].
        constructor; [reflexivity|constructor]. }
      { rewrite length_app. simpl in *. lia. }
      assert (HL : List.length ((done ++ [Termination id name d reason])
                                ++ todo ++ hs ++ [h]) = S L).
      { unfold L. rewrite !length_app. cbn [List.length].
        rewrite !length_app. cbn [List.length]. lia. }
      rewrite HL in Hids.
      exists (h :: hs'), ((id, d + delay) :: sch'), w', (new_employee :: news).
      rewrite E. split.
      { f_equal. f_equal; reassociate. }
      split.
      { rewrite He. unfold w2. cbn [employees set_employees advance set_rng].
        unfold w1. cbn [employees advance_below set_rng].
        rewrite <- app_assoc. reflexivity. }
      split; [rewrite F1; reflexivity|].
      split; [rewrite F2; reflexivity|].
      split; [rewrite F3; reflexivity|].
      split.
      { cbn [map List.length hire_ids]. rewrite Hids. reflexivity. }
      split; [cbn [List.length]; lia|].
      constructor.
      * exists (d + delay), id. split; [reflexivity|].
        split; [reflexivity|]. split; [exact Hlt|].
        split.
        { unfold new_hire, new_employee.
          cbn [title department is_hourly active termination_date
               annual_salary hourly_rate].
          do 5 (split; [reflexivity|]).
          assert (Eh : ((85000 + (115000 - 85000) * draw (advance w1)) / 2080
                        * 2080
                        == 85000 + (115000 - 85000) * draw (advance w1))%Q)
            by field.
          rewrite Eh. repeat split; lra. }
        exists name, d, reason. split; [now left | lia].
      * eapply Forall2_impl; [|exact Hpairs].
        intros x y. apply hire_pair_more.
    + apply Z.ltb_ge in Hlt.
      replace (done ++ Termination id name d reason :: todo ++ hs)
        with ((done ++ [Termination id name d reason]) ++ todo ++ hs)
        by reassociate.
      rewrite <- Hlen.
      destruct (IH (done ++ [Termination id name d reason]) hs
                   (sch ++ [(id, d + delay)])%list fuel w1 Ht2 Hh)
        as [hs' [sch' [w' [news [E [He [F1 [F2 [F3 [Hids [Hn Hpairs]]]]]]]]]]].
      { simpl in *. lia. }
      assert (HL : List.length ((done ++ [Termination id name d reason])
                                ++ todo ++ hs) = L).
      { unfold L. rewrite !length_app. cbn [List.length].
        rewrite !length_app. lia. }
      rewrite HL in Hids.
      exists hs', ((id, d + delay) :: sch'), w', news.
      rewrite E. split.
      { f_equal. f_equal; reassociate. }
      split; [rewrite He; reflexivity|].
      split; [rewrite F1; reflexivity|].
      split; [rewrite F2; reflexivity|].
      split; [rewrite F3; reflexivity|].
      split; [exact Hids|].
      split; [cbn [List.length]; lia|].
      eapply Forall2_impl; [|exact Hpairs].
      intros x y. apply hire_pair_more.
Qed.

End ReplacementEntries.

Section Lifecycle.
Context (R : Rng).
Import UpdateFacts EventFacts.

Lemma termination_entry_is (roster : list Employee) (l : list Event) :
  Forall (termination_entry roster) l ->
  Forall (fun ev => is_termination ev = true) l.
Proof.
  intros H. eapply Forall_impl; [|exact H]. cbv beta.
  intros [? ? ? ?|? ? ? ?] Hev; [reflexivity | destruct Hev].
Qed.

Lemma hire_pair_is (terms hs : list Event) (news : list Employee) :
  Forall2 (hire_pair terms) hs news ->
  Forall (fun ev => is_hiring ev = true) hs /\
  List.length hs = List.length news /\
  Forall new_hire news.
Proof.
  induction 1 as [|h e hs news [d [rep [-> [_ [_ [Hn _]]]]]] H [IH1 [IH2 IH3]]].
  - repeat split; constructor.
  - split; [constructor; [reflexivity | exact IH1]|].
    split; [cbn [List.length]; lia | constructor; assumption].
Qed.

Lemma termination_entry_more (kept news : list Employee) (ev : Event) :
  termination_entry kept ev -> termination_entry (kept ++ news) ev.
Proof.
  destruct ev as [id name d reason|? ? ? ?]; [|exact (fun H => H)].
  cbn [termination_entry]. intros [H1 [H2 [e [H3 H4]]]].
  split; [exact H1|]. split; [exact H2|]. exists e.
  split; [apply in_or_app; now left | exact H4].
Qed.

Lemma lifecycle_entries (w : World R) :
  (Z.to_nat num_terminations <= count_active (employees w))%nat ->
  exists terms hs schedule w' kept news,
    generate_hiring_termination_events R w = (Ok schedule, w') /\
    hiring_events w' = sorted_by_date (terms ++ hs) /\
    List.length terms = 10%nat /\
    payroll_records w' = payroll_records w /\
    time_tracking_records w' = time_tracking_records w /\
    employees w' = kept ++ news /\
    Forall2 (roster_step terms) (employees w) kept /\
    Forall (termination_entry kept) terms /\
    (count_active kept + 10 = count_active (employees w))%nat /\
    map employee_id news = hire_ids 10 (List.length news) /\
    (List.length news <= 10)%nat /\
    Forall2 (hire_pair terms) hs news.
Proof.
  intros Hact.
  destruct (termination_loop_entries R _ [] w Hact)
    as [terms [w1 [E1 [Hlen [F1 [F2 [F3 [Hcount [Hstep Hterms]]]]]]]]].
  cbn [app] in E1.
  change (Z.to_nat num_terminations) with 10%nat in Hlen, Hcount.
  pose proof (termination_entry_is _ _ Hterms) as Hist.
  destruct (replacement_loop_entries R terms [] [] []
              (2 * List.length terms + 1) w1 Hist (Forall_nil _)
              ltac:(simpl; lia))
    as [hs [sch [w2 [news [E2 [He [G1 [G2 [G3 [Hids [Hn Hpairs]]]]]]]]]]].
  rewrite app_nil_r in E2, Hids. cbn [app] in E2, Hids.
  change (List.length (@nil Event)) with 0%nat in E2.
  rewrite Hlen in Hids, Hn.
  exists terms, hs, sch. eexists. exists (employees w1), news.
  unfold generate_hiring_termination_events.
  unfold bind at 1. rewrite E1.
  unfold bind at 1. rewrite E2.
  rewrite bind_modify. unfold ret. cbn [fst snd].
  split; [reflexivity|].
  cbn [hiring_events set_hiring_events employees payroll_records
       time_tracking_records].
  split; [reflexivity|]. split; [exact Hlen|].
  split; [rewrite G1; exact F1|]. split; [rewrite G2; exact F2|].
  split; [exact He|]. split; [exact Hstep|]. split; [exact Hterms|].
  split; [exact Hcount|]. split; [exact Hids|]. split; [exact Hn|].
  exact Hpairs.
Qed.

Lemma filter_hirings_app (ts hs : list Event) :
  Forall (fun ev => is_termination ev = true) ts ->
  Forall (fun ev => is_hiring ev = true) hs ->
  filter is_hiring (ts ++ hs) = hs.
Proof.
  intros Ht Hh. rewrite filter_app.
  rewrite (ListFacts.filter_none is_hiring ts).
  - cbn [app]. apply forallb_filter_id.
    apply forallb_forall. rewrite Forall_forall in Hh. exact Hh.
  - intros ev Hev. rewrite Forall_forall in Ht. specialize (Ht ev Hev).
    destruct ev; [reflexivity | discriminate Ht].
Qed.

Lemma hirings_sorted_length (ts hs : list Event) :
  Forall (fun ev => is_termination ev = true) ts ->
  Forall (fun ev => is_hiring ev = true) hs ->
  List.length (filter is_hiring (sorted_by_date (ts ++ hs))) = List.length hs.
Proof.
  intros Ht Hh.
  rewrite (Permutation_length
             (filter_perm is_hiring _ _ (sorted_by_date_perm _))).
  rewrite (filter_hirings_app _ _ Ht Hh). reflexivity.
Qed.

Lemma count_active_app (l1 l2 : list Employee) :
  count_active (l1 ++ l2) = (count_active l1 + count_active l2)%nat.
Proof. unfold count_active. rewrite filter_app, length_app. reflexivity. Qed.

Lemma new_hires_active (news : list Employee) :
  Forall new_hire news -> count_active news = List.length news.
Proof.
  intros H. apply count_active_all.
  eapply Forall_impl; [|exact H]. cbv beta. unfold new_hire. tauto.
Qed.

(** X5.  Termination events and the roster agree.  With at least ten
    active employees the generator returns, and every termination event
    of [hiring_events] is dated 90 to 1000 days after [START_DATE], so
    before [END_DATE], has one of the four reasons, and is about an
    employee of the roster with that id and name who is now inactive
    with that termination date; the number of active employees has gone
    down by ten and up by the number of hiring events. *)
Theorem terminations_recorded (w : World R) :
  (10 <= count_active (employees w))%nat ->
  exists schedule w',
    generate_hiring_termination_events R w = (Ok schedule, w') /\
    (forall id name d reason,
        In (Termination id name d reason) (hiring_events w') ->
        START_DATE + 90 <= d <= START_DATE + 1000 /\
        d < END_DATE /\
        In reason ["voluntary"; "performance"; "layoff"; "relocation"]%string /\
        exists e, In e (employees w') /\
                  employee_id e = id /\ employee_name e = name /\
                  active e = false /\ termination_date e = Some d) /\
    (count_active (employees w') + 10
     = count_active (employees w)
       + List.length (filter is_hiring (hiring_events w')))%nat.
Proof.
  intros Hact.
  destruct (lifecycle_entries w Hact)
    as [terms [hs [sch [w' [kept [news [E [Hev [Hlen [_ [_ [He [Hstep
          [Hterms [Hcount [Hids [Hn Hpairs]]]]]]]]]]]]]]]]].
  destruct (hire_pair_is _ _ _ Hpairs) as [Hhs [Hhl Hnew]].
  pose proof (termination_entry_is _ _ Hterms) as Hist.
  exists sch, w'. split; [exact E|]. split.
  - intros id name d reason Hin. rewrite Hev in Hin.
    apply (Permutation_in _ (sorted_by_date_perm _)) in Hin.
    apply in_app_or in Hin. destruct Hin as [Hin|Hin].
    2:{ rewrite Forall_forall in Hhs. specialize (Hhs _ Hin).
        discriminate Hhs. }
    rewrite Forall_forall in Hterms. specialize (Hterms _ Hin).
    apply (termination_entry_more kept news) in Hterms.
    rewrite <- He in Hterms. cbn [termination_entry] in Hterms.
    destruct Hterms as [H1 [H2 H3]].
    split; [exact H1|]. split; [rewrite window_length; lia|].
    split; [exact H2 | exact H3].
  - rewrite Hev, (hirings_sorted_length _ _ Hist Hhs), Hhl.
    rewrite He, count_active_app, (new_hires_active _ Hnew). lia.
Qed.

(** X6.  Hiring events and the roster agree.  There are at most ten
    hiring events and the roster has grown by one employee for each;
    every hiring event is dated from [START_DATE + 120] to before
    [END_DATE], 30 to 180 days after a termination event about the
    employee it names in [replacing], and is about an employee of the
    roster with its id, name and hire date: an active, salaried Software
    Engineer of Engineering with an annual salary in [[85000, 115000)]
    and an hourly rate that is a second draw from that range over
    2080. *)
Theorem hires_recorded (w : World R) :
  (10 <= count_active (employees w))%nat ->
  exists schedule w',
    generate_hiring_termination_events R w = (Ok schedule, w') /\
    (List.length (filter is_hiring (hiring_events w')) <= 10)%nat /\
    List.length (employees w')
    = (List.length (employees w)
       + List.length (filter is_hiring (hiring_events w')))%nat /\
    forall nid nname d replacing,
      In (Hiring nid nname d replacing) (hiring_events w') ->
      START_DATE + 120 <= d < END_DATE /\
      (exists tname td reason,
          In (Termination replacing tname td reason) (hiring_events w') /\
          td + 30 <= d <= td + 180) /\
      exists e, In e (employees w') /\
                employee_id e = nid /\ employee_name e = nname /\
                hire_date e = d /\ new_hire e.
Proof.
  intros Hact.
  destruct (lifecycle_entries w Hact)
    as [terms [hs [sch [w' [kept [news [E [Hev [Hlen [_ [_ [He [Hstep
          [Hterms [Hcount [Hids [Hn Hpairs]]]]]]]]]]]]]]]]].
  destruct (hire_pair_is _ _ _ Hpairs) as [Hhs [Hhl Hnew]].
  pose proof (termination_entry_is _ _ Hterms) as Hist.
  exists sch, w'. split; [exact E|].
  rewrite Hev, (hirings_sorted_length _ _ Hist Hhs), Hhl.
  split; [exact Hn|]. split.
  { rewrite He, length_app.
    rewrite <- (Forall2_length Hstep). reflexivity. }
  intros nid nname d rep Hin.
  apply (Permutation_in _ (sorted_by_date_perm _)) in Hin.
  apply in_app_or in Hin. destruct Hin as [Hin|Hin].
  { rewrite Forall_forall in Hist. specialize (Hist _ Hin).
    discriminate Hist. }
  destruct (Forall2_In_l _ _ _ _ Hpairs Hin) as [e [Hine Hp]].
  destruct Hp as [d' [rep' [Hh [Hd [Hlt [Hnh [tname [td [reason [Ht Hb]]]]]]]]]].
  inversion Hh; subst nid nname d rep'. clear Hh.
  pose proof Ht as Ht'.
  rewrite Forall_forall in Hterms. specialize (Hterms _ Ht').
  cbn [termination_entry] in Hterms. destruct Hterms as [Htd _].
  split; [lia|]. split.
  - exists tname, td, reason. split; [|exact Hb].
    apply (Permutation_in _ (Permutation_sym (sorted_by_date_perm _))).
    apply in_or_app. now left.
  - exists e. split; [rewrite He; apply in_or_app; now right|].
    do 2 (split; [reflexivity|]). split; [exact Hd | exact Hnh].
Qed.

Lemma roster_step_incl (l l' : list Event) (e e' : Employee) :
  (forall ev, In ev l -> In ev l') -> roster_step l e e' -> roster_step l' e e'.
Proof.
  intros Hincl [H|[Ha [d [reason [H1 H2]]]]]; [left; exact H|].
  right. split; [exact Ha|]. exists d, reason. auto.
Qed.

Lemma roster_step_ids (events : list Event) (l l' : list Employee) :
  Forall2 (roster_step events) l l' ->
  map employee_id l' = map employee_id l.
Proof.
  induction 1 as [|e e' l l' He H IH]; [reflexivity|].
  cbn [map]. rewrite IH. f_equal.
  destruct He as [->|[_ [d [reason [-> _]]]]]; reflexivity.
Qed.

Lemma hire_ids_ten (n : nat) :
  (n <= 10)%nat ->
  hire_ids 10 n
  = firstn n ["NEW011"; "NEW012"; "NEW013"; "NEW014"; "NEW015"; "NEW016";
              "NEW017"; "NEW018"; "NEW019"; "NEW020"]%string.
Proof.
  intros Hn. do 11 (destruct n as [|n]; [reflexivity|]). lia.
Qed.

(** X7.  The roster after the lifecycle events is the old roster, in
    order, each employee unchanged or terminated on the date of a
    termination event about it, followed by the new hires, whose ids
    are NEW011, NEW012, ... in order (they are numbered by the length
    of the event list, which starts at ten); the payroll and time
    records are untouched. *)
Theorem roster_after_lifecycle (w : World R) :
  (10 <= count_active (employees w))%nat ->
  exists schedule w' kept news,
    generate_hiring_termination_events R w = (Ok schedule, w') /\
    employees w' = kept ++ news /\
    Forall2 (roster_step (hiring_events w')) (employees w) kept /\
    map employee_id kept = map employee_id (employees w) /\
    Forall new_hire news /\
    (List.length news <= 10)%nat /\
    map employee_id news
    = firstn (List.length news)
        ["NEW011"; "NEW012"; "NEW013"; "NEW014"; "NEW015"; "NEW016";
         "NEW017"; "NEW018"; "NEW019"; "NEW020"]%string /\
    payroll_records w' = payroll_records w /\
    time_tracking_records w' = time_tracking_records w.
Proof.
  intros Hact.
  destruct (lifecycle_entries w Hact)
    as [terms [hs [sch [w' [kept [news [E [Hev [Hlen [F1 [F2 [He [Hstep
          [Hterms [Hcount [Hids [Hn Hpairs]]]]]]]]]]]]]]]]].
  destruct (hire_pair_is _ _ _ Hpairs) as [Hhs [Hhl Hnew]].
  exists sch, w', kept, news. split; [exact E|]. split; [exact He|].
  split.
  { eapply Forall2_impl; [|exact Hstep]. intros x y.
    apply roster_step_incl. intros ev Hin. rewrite Hev.
    apply (Permutation_in _ (Permutation_sym (sorted_by_date_perm _))).
    apply in_or_app. now left. }
  split; [exact (roster_step_ids _ _ _ Hstep)|].
  split; [exact Hnew|]. split; [exact Hn|].
  split; [rewrite Hids; apply hire_ids_ten; exact Hn|].
  split; assumption.
Qed.

Lemma insert_by_date_In (e x : Event) (l : list Event) :
  In x (insert_by_date e l) <-> x = e \/ In x l.
Proof.
  split; intros H.
  - apply (Permutation_in _ (insert_by_date_perm e l)) in H.
    destruct H as [<-|H]; auto.
  - apply (Permutation_in _ (Permutation_sym (insert_by_date_perm e l))).
    destruct H as [->|H]; [now left | now right].
Qed.

Lemma insert_by_date_ordered (e : Event) (l : list Event) :
  ForallOrdPairs (fun a b => ev_date a <= ev_date b) l ->
  ForallOrdPairs (fun a b => ev_date a <= ev_date b) (insert_by_date e l).
Proof.
  induction 1 as [|x l Hx Hl IH]; cbn [insert_by_date].
  - constructor; constructor.
  - destruct (ev_date e <=? ev_date x) eqn:Hle.
    + apply Z.leb_le in Hle. constructor.
      * constructor; [exact Hle|].
        eapply Forall_impl; [|exact Hx]. cbv beta. intros y Hy. lia.
      * constructor; assumption.
    + apply Z.leb_gt in Hle. constructor; [|exact IH].
      rewrite Forall_forall in *. intros y Hy.
      apply insert_by_date_In in Hy. destruct Hy as [->|Hy]; [lia|].
      apply Hx. exact Hy.
Qed.

Lemma sorted_by_date_ordered (l : list Event) :
  ForallOrdPairs (fun a b => ev_date a <= ev_date b) (sorted_by_date l).
Proof.
  induction l as [|x l IH]; cbn [sorted_by_date fold_right]; [constructor|].
  apply insert_by_date_ordered. exact IH.
Qed.

Lemma ordered_before (l : list Event) (a b : Event) :
  ForallOrdPairs (fun x y => ev_date x <= ev_date y) l ->
  In a l -> In b l -> ev_date a < ev_date b ->
  exists l1 l2 l3, l = l1 ++ a :: l2 ++ b :: l3.
Proof.
  induction 1 as [|x l Hx Hl IH]; intros Ha Hb Hlt; [destruct Ha|].
  rewrite Forall_forall in Hx.
  destruct Ha as [->|Ha].
  - destruct Hb as [->|Hb]; [lia|].
    apply in_split in Hb. destruct Hb as [l2 [l3 ->]].
    exists [], l2, l3. reflexivity.
  - destruct Hb as [->|Hb].
    + specialize (Hx a Ha). lia.
    + destruct (IH Ha Hb Hlt) as [l1 [l2 [l3 ->]]].
      exists (x :: l1), l2, l3. reflexivity.
Qed.

(** X8.  [hiring_events] is in chronological order and holds between
    10 and 20 events, all dated from [START_DATE + 90] to before
    [END_DATE]; every hiring event comes after the termination event
    of the employee it replaces. *)
Theorem events_chronological (w : World R) :
  (10 <= count_active (employees w))%nat ->
  exists schedule w',
    generate_hiring_termination_events R w = (Ok schedule, w') /\
    ForallOrdPairs (fun a b => ev_date a <= ev_date b) (hiring_events w') /\
    (10 <= List.length (hiring_events w') <= 20)%nat /\
    Forall (fun ev => START_DATE + 90 <= ev_date ev < END_DATE)
           (hiring_events w') /\
    forall nid nname d replacing,
      In (Hiring nid nname d replacing) (hiring_events w') ->
      exists l1 l2 l3 tname td reason,
        hiring_events w'
        = l1 ++ Termination replacing tname td reason
             :: l2 ++ Hiring nid nname d replacing :: l3.
Proof.
  intros Hact.
  destruct (lifecycle_entries w Hact)
    as [terms [hs [sch [w' [kept [news [E [Hev [Hlen [F1 [F2 [He [Hstep
          [Hterms [Hcount [Hids [Hn Hpairs]]]]]]]]]]]]]]]]].
  destruct (hire_pair_is _ _ _ Hpairs) as [Hhs [Hhl Hnew]].
  pose proof (termination_entry_is _ _ Hterms) as Hist.
  assert (Hhire : forall nid nname d rep,
    In (Hiring nid nname d rep) hs ->
    d < END_DATE /\
    exists tname td reason,
      In (Termination rep tname td reason) terms /\ td + 30 <= d <= td + 180).
  { intros nid nname d rep Hin.
    destruct (Forall2_In_l _ _ _ _ Hpairs Hin) as [e [_ Hp]].
    destruct Hp as [d' [rep' [Hh [_ [Hlt [_ Hrest]]]]]].
    inversion Hh; subst d' rep'. split; [exact Hlt | exact Hrest]. }
  assert (Hterm : forall id name d reason,
    In (Termination id name d reason) terms ->
    START_DATE + 90 <= d <= START_DATE + 1000).
  { intros id name d reason Hin.
    rewrite Forall_forall in Hterms. specialize (Hterms _ Hin).
    cbn [termination_entry] in Hterms. tauto. }
  exists sch, w'. split; [exact E|]. rewrite Hev.
  split; [apply sorted_by_date_ordered|].
  split.
  { rewrite (Permutation_length (sorted_by_date_perm _)), length_app. lia. }
  split.
  { rewrite Forall_forall. intros ev Hin.
    apply (Permutation_in _ (sorted_by_date_perm _)) in Hin.
    apply in_app_or in Hin. destruct Hin as [Hin|Hin].
    - rewrite Forall_forall in Hist. pose proof (Hist _ Hin) as Hi.
      destruct ev as [id name d reason|? ? ? ?]; [|discriminate Hi].
      pose proof (Hterm _ _ _ _ Hin). cbn [ev_date].
      rewrite window_length. lia.
    - rewrite Forall_forall in Hhs. pose proof (Hhs _ Hin) as Hi.
      destruct ev as [? ? ? ?|nid nname d rep]; [discriminate Hi|].
      destruct (Hhire _ _ _ _ Hin) as [Hlt [tname [td [reason [Ht Hb]]]]].
      pose proof (Hterm _ _ _ _ Ht). cbn [ev_date]. lia. }
  intros nid nname d rep Hin.
  pose proof Hin as Hin'.
  apply (Permutation_in _ (sorted_by_date_perm _)) in Hin'.
  apply in_app_or in Hin'. destruct Hin' as [Hin'|Hin'].
  { rewrite Forall_forall in Hist. specialize (Hist _ Hin').
    discriminate Hist. }
  destruct (Hhire _ _ _ _ Hin') as [_ [tname [td [reason [Ht Hb]]]]].
  assert (Hint : In (Termination rep tname td reason)
                    (sorted_by_date (terms ++ hs))).
  { apply (Permutation_in _ (Permutation_sym (sorted_by_date_perm _))).
    apply in_or_app. now left. }
  destruct (ordered_before _ _ _ (sorted_by_date_ordered (terms ++ hs))
              Hint Hin ltac:(cbn [ev_date]; lia))
    as [l1 [l2 [l3 Hl]]].
  exists l1, l2, l3, tname, td, reason. exact Hl.
Qed.

End Lifecycle.

Import UpdateFacts EventFacts.

(* ------------------------------------------------------------------ *)
(** ** Payroll records *)

Section PayrollAmounts.
Context (R : Rng).
Local Open Scope Q_scope.

Lemma _generate_payroll_record_amounts (e : Employee) (d : Z) (w : World R) :
  let g := computed_gross_pay R e d w in
  Qeq_bool g 0 = false ->
  exists rec,
    _generate_payroll_record R e d w
    = (Ok rec, advance (snd (base_pay R e w))) /\
    record_amounts e d (hours_in e w) g rec.
Proof.
  unfold _generate_payroll_record, computed_gross_pay, base_pay, hours_in.
  destruct (is_hourly e);
    [ rewrite bind_bind, bind_uniform, bind_ret, bind_uniform
    | rewrite bind_ret, bind_uniform ];
    cbv beta iota zeta; simpl fst; simpl snd;
    unfold bind, truediv; intros Hg; rewrite Hg;
    (eexists; split; [reflexivity|]);
    unfold record_amounts, taxes_on, burden_on; simpl;
    repeat split.
Qed.

Lemma made_record_amounts (e : Employee) (d : Z) (w : World R)
    (rec : PayrollRecord) (w' : World R) :
  _generate_payroll_record R e d w = (Ok rec, w') ->
  Qeq_bool (computed_gross_pay R e d w) 0 = false /\
  record_amounts e d (hours_in e w) (computed_gross_pay R e d w) rec.
Proof.
  intros E.
  destruct (Qeq_bool (computed_gross_pay R e d w) 0) eqn:Hg.
  - destruct (_generate_payroll_record_outcome R e d w)
      as [[_ E']|[Hnz _]]; [|congruence].
    rewrite E in E'. discriminate E'.
  - split; [reflexivity|].
    destruct (_generate_payroll_record_amounts e d w Hg) as [rec' [E' A]].
    rewrite E in E'. inversion E'; subst rec'. exact A.
Qed.

Lemma paid_record_made (e : Employee) (d : Z) (w : World R) :
  paid e ->
  exists rec w', _generate_payroll_record R e d w = (Ok rec, w').
Proof.
  intros Hp.
  pose proof (computed_gross_pay_positive R e d w Hp) as Hg.
  destruct (_generate_payroll_record_amounts e d w (Qeq_bool_pos _ Hg))
    as [rec [E _]].
  exists rec. eexists. exact E.
Qed.

End PayrollAmounts.

Section PayrollRecordFacts.
Context (R : Rng).
Local Open Scope Q_scope.

Lemma variation_range (w : World R) :
  0.95 <= 0.95 + (1.05 - 0.95) * draw w /\
  0.95 + (1.05 - 0.95) * draw w < 1.05.
Proof. destruct (draw_range R w). split; lra. Qed.

Lemma taxes_on_eq (g : Q) : taxes_on g == g * 0.2465.
Proof.
  unfold taxes_on, TAX_RATES.federal_income, TAX_RATES.state_income,
    TAX_RATES.social_security, TAX_RATES.medicare. lra.
Qed.

Lemma burden_on_eq (e : Employee) (g : Q) :
  burden_on e g == g * 0.1225 + (annual_salary e / 26) * 0.1.
Proof.
  unfold burden_on, TAX_RATES.social_security, TAX_RATES.medicare,
    TAX_RATES.unemployment, BENEFITS_RATES.health_insurance,
    BENEFITS_RATES.dental_vision, BENEFITS_RATES.retirement_401k,
    BENEFITS_RATES.life_insurance. field.
Qed.


Lemma made_record_ordered (e : Employee) (d : Z) (w : World R)
    (rec : PayrollRecord) (w' : World R) :
  paid e -> 0 <= annual_salary e ->
  _generate_payroll_record R e d w = (Ok rec, w') ->
  ordered_amounts rec.
Proof.
  intros Hp Hs E.
  pose proof (computed_gross_pay_positive R e d w Hp) as Hg.
  destruct (made_record_amounts R e d w rec w' E) as [_ A].
  set (g := computed_gross_pay R e d w) in *.
  destruct A as [_ [_ [_ [_ [_ [_ [_ [Hgp [_ [_ [_ [_ [_ [_
    [Htt [Hnp [Hb [Htc _]]]]]]]]]]]]]]]]]].
  pose proof (taxes_on_eq g) as Ht.
  pose proof (burden_on_eq e g) as Hbe.
  assert (Hbase : 0 <= annual_salary e / 26)
    by (apply Qle_shift_div_l; lra).
  unfold ordered_amounts. rewrite Htt, Hnp, Hgp, Htc, Hb.
  split; [apply RoundFacts.round2_nonneg; lra|].
  split; [apply RoundFacts.round2_nonneg; lra|].
  split; [apply round2_mono; lra|].
  split; [apply round2_mono; lra|].
  apply RoundFacts.round2_nonneg; lra.
Qed.


Lemma made_burden_rate (e : Employee) (d : Z) (w : World R)
    (rec : PayrollRecord) (w' : World R) :
  pay_consistent e ->
  _generate_payroll_record R e d w = (Ok rec, w') ->
  20.39 <= burden_rate rec /\ burden_rate rec <= 25.93 /\
  (is_hourly e = false ->
   20.91 <= burden_rate rec /\ burden_rate rec <= 24.21).
Proof.
  intros [[Ha Hr] Hcons] E.
  destruct (made_record_amounts R e d w rec w' E) as [_ A].
  assert (Hbr : burden_rate rec
                = Num.round2 (burden_on e (computed_gross_pay R e d w)
                              / computed_gross_pay R e d w * 100))
    by (do 18 (destruct A as [_ A]); exact A).
  rewrite Hbr. clear A E Hbr.
  pose proof (burden_on_eq e (computed_gross_pay R e d w)) as Hbe.
  pose proof (seasonal_range (Calendar.month_of d)) as Hsr.
  assert (Hb : 0 < annual_salary e / 26) by (apply Qlt_shift_div_l; lra).
  assert (Hbq : annual_salary e / 26 == annual_salary e * (1 # 26)) by field.
  destruct (is_hourly e) eqn:Hh.
  - destruct (Hcons eq_refl) as [Hc1 Hc2].
    assert (Hgeq : computed_gross_pay R e d w ==
                   hourly_rate e
                   * ((70 + (85 - 70) * draw w)
                      * (SEASONAL_MULTIPLIERS_get (Calendar.month_of d) 1
                         * (0.95 + (1.05 - 0.95) * draw (advance w))))).
    { unfold computed_gross_pay, base_pay. rewrite Hh. cbn [fst snd]. ring. }
    pose proof (variation_range (advance w)) as Hv.
    destruct (draw_range R w) as [Hu0 Hu1].
    set (s := SEASONAL_MULTIPLIERS_get (Calendar.month_of d) 1) in *.
    set (v := 0.95 + (1.05 - 0.95) * draw (advance w)) in *.
    assert (HH : 70 <= 70 + (85 - 70) * draw w /\
                 70 + (85 - 70) * draw w <= 85) by (split; lra).
    set (H := 70 + (85 - 70) * draw w) in *.
    assert (Hsv1 : 0.836 <= s * v) by nra.
    assert (Hsv2 : s * v <= 1.155) by nra.
    set (p := s * v) in *.
    assert (Hq1 : 58.52 <= H * p) by nra.
    assert (Hq2 : H * p <= 98.175) by nra.
    set (q := H * p) in *.
    set (h := hourly_rate e) in *.
    set (b := annual_salary e / 26) in *.
    set (g := computed_gross_pay R e d w) in *.
    set (B := burden_on e g) in *.
    assert (Hg : 0 < g) by nra.
    assert (Hlo : 20.386 <= B / g * 100).
    { assert (H0 : 0.20386 <= B / g).
      { apply Qle_shift_div_l; [exact Hg|]. nra. }
      lra. }
    assert (Hhi : B / g * 100 <= 25.93).
    { assert (H0 : B / g <= 0.2593).
      { apply Qle_shift_div_r; [exact Hg|]. nra. }
      lra. }
    split; [|split; [|discriminate]].
    + pose proof (round2_mono _ _ Hlo) as H0.
      change (Num.round2 20.386) with (2039 # 100) in H0. lra.
    + pose proof (round2_mono _ _ Hhi) as H0.
      change (Num.round2 25.93) with (2593 # 100) in H0. lra.
  - assert (Hgeq : computed_gross_pay R e d w ==
                   annual_salary e / 26
                   * (SEASONAL_MULTIPLIERS_get (Calendar.month_of d) 1
                      * (0.95 + (1.05 - 0.95) * draw w))).
    { unfold computed_gross_pay, base_pay. rewrite Hh. reflexivity. }
    pose proof (variation_range w) as Hv.
    set (s := SEASONAL_MULTIPLIERS_get (Calendar.month_of d) 1) in *.
    set (v := 0.95 + (1.05 - 0.95) * draw w) in *.
    set (b := annual_salary e / 26) in *.
    set (g := computed_gross_pay R e d w) in *.
    set (B := burden_on e g) in *.
    assert (Hsv1 : 0.836 <= s * v) by nra.
    assert (Hsv2 : s * v <= 1.155) by nra.
    assert (Hg : 0 < g) by nra.
    assert (Hlo : 20.908 <= B / g * 100).
    { assert (H : 0.20908 <= B / g).
      { apply Qle_shift_div_l; [exact Hg|]. nra. }
      lra. }
    assert (Hhi : B / g * 100 <= 24.212).
    { assert (H : B / g <= 0.24212).
      { apply Qle_shift_div_r; [exact Hg|]. nra. }
      lra. }
    pose proof (round2_mono _ _ Hlo) as H1.
    change (Num.round2 20.908) with (2091 # 100) in H1.
    pose proof (round2_mono _ _ Hhi) as H2.
    change (Num.round2 24.212) with (2421 # 100) in H2.
    repeat split; lra.
Qed.

(** X10.  The burden rate of a payroll record.  For an employee with
    positive pay (for an hourly one, with the annual salary within
    0.05% of 2080 hourly rates) the record is made and its
    [burden_rate] is between 20.39 and 25.93 percent; for a salaried
    employee it is between 20.91 and 24.21, whatever the salary. *)
Theorem burden_rate_bounds (e : Employee) (d : Z) (w : World R) :
  0 < annual_salary e -> 0 < hourly_rate e ->
  (is_hourly e = true ->
   2079 * hourly_rate e <= annual_salary e /\
   annual_salary e <= 2081 * hourly_rate e) ->
  exists rec w',
    _generate_payroll_record R e d w = (Ok rec, w') /\
    20.39 <= burden_rate rec /\ burden_rate rec <= 25.93 /\
    (is_hourly e = false ->
     20.91 <= burden_rate rec /\ burden_rate rec <= 24.21).
Proof.
  intros Ha Hr Hc.
  assert (Hp : paid e) by (unfold paid; destruct (is_hourly e); assumption).
  destruct (paid_record_made R e d w Hp) as [rec [w' E]].
  exists rec, w'. split; [exact E|].
  apply (made_burden_rate e d w rec w'); [|exact E].
  split; [split; assumption | exact Hc].
Qed.

End PayrollRecordFacts.

Section PayrollMade.
Context (R : Rng).

(** Whatever is true of every record made for an employee at a date is
    true of the records the loops append, for an employee of the roster
    on the payroll at a period end of the window; the loops touch
    nothing else, however they end. *)
Variable P : Z -> Employee -> PayrollRecord -> Prop.
Hypothesis made :
  forall e d w rec w',
    _generate_payroll_record R e d w = (Ok rec, w') -> P d e rec.

Lemma payroll_body_made (d : Z) (e : Employee) (w : World R) :
  let w' := snd (payroll_body d e w) in
  employees w' = employees w /\
  time_tracking_records w' = time_tracking_records w /\
  hiring_events w' = hiring_events w /\
  exists new,
    payroll_records w' = payroll_records w ++ new /\
    Forall (P d e) new.
Proof.
  cbv zeta. unfold payroll_body, bind.
  destruct (_generate_payroll_record_outcome R e d w)
    as [[_ E]|[_ [rec [E _]]]]; rewrite E; cbn [modify snd];
    unfold base_pay; destruct (is_hourly e); cbn [snd];
    repeat split;
    try (exists []; rewrite app_nil_r; split; [reflexivity | constructor]);
    (exists [rec]; split;
     [reflexivity | constructor; [exact (made _ _ _ _ _ E) | constructor]]).
Qed.

Lemma for_each_payroll_made (d : Z) (l : list Employee) :
  forall w : World R,
  let w' := snd (for_each l (payroll_body d) w) in
  employees w' = employees w /\
  time_tracking_records w' = time_tracking_records w /\
  hiring_events w' = hiring_events w /\
  exists new,
    payroll_records w' = payroll_records w ++ new /\
    Forall (fun r => exists e, In e l /\ P d e r) new.
Proof.
  induction l as [|e l IH]; intros w; cbv zeta.
  - cbn [for_each ret snd]. repeat split. exists [].
    rewrite app_nil_r. split; [reflexivity | constructor].
  - cbn [for_each]. unfold bind.
    pose proof (payroll_body_made d e w) as Hb. cbv zeta in Hb.
    destruct Hb as [B1 [B2 [B3 [new1 [B4 B5]]]]].
    assert (Hhead : Forall (fun r => exists e0, In e0 (e :: l) /\ P d e0 r)
                           new1).
    { eapply Forall_impl; [|exact B5]. cbv beta.
      intros r H. exists e. split; [now left | exact H]. }
    destruct (payroll_body d e w) as [[[]| |] w1]; cbn [snd] in *.
    + specialize (IH w1). cbv zeta in IH.
      destruct IH as [I1 [I2 [I3 [new2 [I4 I5]]]]].
      split; [congruence|]. split; [congruence|]. split; [congruence|].
      exists (new1 ++ new2). split.
      * rewrite I4, B4, <- app_assoc. reflexivity.
      * apply Forall_app. split; [exact Hhead|].
        eapply Forall_impl; [|exact I5]. cbv beta.
        intros r [e' [H3 H4]]. exists e'. split; [now right | exact H4].
    + repeat (split; [assumption|]). exists new1. split; assumption.
    + repeat (split; [assumption|]). exists new1. split; assumption.
Qed.

Lemma payroll_loop_made (fuel : nat) :
  forall (c : Z) (w : World R),
  START_DATE <= c ->
  let w' := snd (payroll_loop R fuel c w) in
  employees w' = employees w /\
  time_tracking_records w' = time_tracking_records w /\
  hiring_events w' = hiring_events w /\
  exists new,
    payroll_records w' = payroll_records w ++ new /\
    Forall (fun r => exists d e,
              START_DATE <= d <= END_DATE /\ In e (employees w) /\
              on_payroll d e = true /\ P d e r) new.
Proof.
  induction fuel as [|fuel IH]; intros c w Hc; cbv zeta.
  - cbn [payroll_loop out_of_fuel snd]. repeat split. exists [].
    rewrite app_nil_r. split; [reflexivity | constructor].
  - rewrite payroll_loop_step.
    destruct (c <=? END_DATE) eqn:Hend.
    + apply Z.leb_le in Hend. unfold bind.
      pose proof (for_each_payroll_made c
                    (filter (on_payroll c) (employees w)) w) as Hf.
      cbv zeta in Hf.
      destruct Hf as [F1 [F2 [F3 [new1 [F4 F5]]]]].
      assert (Hhead : Forall (fun r => exists d e,
                START_DATE <= d <= END_DATE /\ In e (employees w) /\
                on_payroll d e = true /\ P d e r) new1).
      { eapply Forall_impl; [|exact F5]. cbv beta.
        intros r [e [H3 H4]]. apply filter_In in H3.
        exists c, e. split; [lia|]. tauto. }
      destruct (for_each _ _ w) as [[[]| |] w1]; cbn [snd] in *.
      * specialize (IH (c + 14) w1 ltac:(lia)). cbv zeta in IH.
        destruct IH as [I1 [I2 [I3 [new2 [I4 I5]]]]].
        split; [congruence|]. split; [congruence|]. split; [congruence|].
        exists (new1 ++ new2). split.
        -- rewrite I4, F4, <- app_assoc. reflexivity.
        -- apply Forall_app. split; [exact Hhead|].
           rewrite F1 in I5. exact I5.
      * repeat (split; [assumption|]). exists new1. split; assumption.
      * repeat (split; [assumption|]). exists new1. split; assumption.
    + cbn [snd]. repeat split. exists [].
      rewrite app_nil_r. split; [reflexivity | constructor].
Qed.

End PayrollMade.

Section PayrollFrame.
Context (R : Rng).

(** X11.  Whatever its outcome, also when it raises, the payroll run
    leaves the roster, the time records and the events as they are and
    only appends to [payroll_records]; every record appended is for a
    period end of the window and an employee of the roster who is on
    the payroll on that day, carries that employee's id, name and
    department, and its period starts 13 days before its end. *)
Theorem payroll_run_appends (w : World R) :
  let w' := snd (generate_payroll_data R w) in
  employees w' = employees w /\
  time_tracking_records w' = time_tracking_records w /\
  hiring_events w' = hiring_events w /\
  exists new,
    payroll_records w' = payroll_records w ++ new /\
    Forall (payroll_entry (employees w)) new.
Proof.
  unfold generate_payroll_data.
  generalize (Z.to_nat ((END_DATE - START_DATE) / 14) + 2)%nat. intros fuel.
  pose proof (payroll_loop_made R
    (fun d e r => pay_period_end r = d /\ pay_period_start r = d - 13 /\
                  pr_employee_id r = employee_id e /\
                  pr_employee_name r = employee_name e /\
                  pr_department r = department e)) as H.
  cbv beta zeta in H.
  destruct (H ltac:(intros e d w0 rec w' E;
                    destruct (made_record_amounts R e d w0 rec w' E)
                      as [_ [A1 [A2 [A3 [A4 [A5 _]]]]]]; tauto)
              fuel START_DATE w ltac:(lia))
    as [H1 [H2 [H3 [new [H4 H5]]]]].
  cbv zeta. repeat (split; [assumption|]).
  exists new. split; [exact H4|].
  eapply Forall_impl; [|exact H5]. cbv beta.
  intros r [d [e [Hd [Hin [Hon [E1 [E2 E3]]]]]]].
  unfold payroll_entry. rewrite E1. split; [exact Hd|].
  split; [exact E2|]. exists e. tauto.
Qed.

End PayrollFrame.

Section PayrollCount.
Context (R : Rng).

Lemma expected_keys_length (ds : list Z) (l : list Employee) :
  (List.length (expected_keys ds l) <= List.length ds * List.length l)%nat /\
  ((forall d e, In d ds -> In e l -> on_payroll d e = true) ->
   List.length (expected_keys ds l) = (List.length ds * List.length l)%nat).
Proof.
  unfold expected_keys. induction ds as [|d ds [IH1 IH2]].
  - split; [apply Nat.le_refl | reflexivity].
  - cbn [flat_map]. rewrite length_app, length_map. cbn [List.length].
    pose proof (filter_length_le (on_payroll d) l) as Hle.
    split; [lia|].
    intros Hall.
    rewrite IH2 by (intros d' e Hd He; apply Hall; [now right | exact He]).
    rewrite (forallb_filter_id (on_payroll d) l); [lia|].
    apply forallb_forall. intros e He. apply Hall; [now left | exact He].
Qed.

Lemma periods_count :
  List.length
    (periods (Z.to_nat ((END_DATE - START_DATE) / 14) + 2) START_DATE)
  = 79%nat.
Proof. vm_compute. reflexivity. Qed.

(** X12.  From an empty record list and a roster of paid employees
    the payroll run emits at most 79 records per employee (79
    bi-weekly period ends fall in the window), and exactly 79 for each
    when all were hired by [START_DATE] and none is terminated. *)
Theorem payroll_record_count (w : World R) :
  payroll_records w = [] ->
  Forall paid (employees w) ->
  exists w',
    generate_payroll_data R w = (Ok tt, w') /\
    (List.length (payroll_records w') <= 79 * List.length (employees w))%nat /\
    ((forall e, In e (employees w) ->
        hire_date e <= START_DATE /\ termination_date e = None) ->
     List.length (payroll_records w')
     = (79 * List.length (employees w))%nat).
Proof.
  intros Hempty Hpaid.
  pose proof (generate_payroll_data_fuel) as Hfuel.
  pose proof periods_count as Hcount.
  unfold generate_payroll_data.
  generalize dependent (Z.to_nat ((END_DATE - START_DATE) / 14) + 2)%nat.
  intros fuel Hfuel Hcount.
  destruct (payroll_loop_paid R fuel START_DATE w Hpaid Hfuel)
    as [w' [new [E [He [Hr Hk]]]]].
  rewrite Hempty in Hr. cbn [app] in Hr. subst new.
  exists w'. split; [exact E|].
  pose proof (f_equal (@List.length _) Hk) as Hlen.
  rewrite length_map in Hlen. rewrite Hlen.
  destruct (expected_keys_length (periods fuel START_DATE) (employees w))
    as [H1 H2].
  rewrite Hcount in H1, H2.
  split; [exact H1|].
  intros Hall. apply H2. intros d e Hd Hin.
  apply periods_lower in Hd.
  destruct (Hall e Hin) as [Hh Ht].
  unfold on_payroll. rewrite Ht, andb_true_r. apply Z.leb_le. lia.
Qed.

End PayrollCount.

(* ------------------------------------------------------------------ *)
(** ** Time records *)

Section TimeRecordFacts.
Context (R : Rng).
Local Open Scope Q_scope.

Lemma allocation_loop_frame (n : nat) (rest : list string) :
  forall (i : nat) (project_hours : list (string * Q)) (remaining : Q)
         (w : World R),
  exists ph w',
    allocation_loop R n i rest project_hours remaining w = (Ok ph, w') /\
    employees w' = employees w /\
    payroll_records w' = payroll_records w /\
    time_tracking_records w' = time_tracking_records w /\
    hiring_events w' = hiring_events w.
Proof.
  induction rest as [|project rest IH]; intros i ph remaining w.
  - exists ph, w. repeat split.
  - cbn [allocation_loop]. destruct (Nat.eqb i (n - 1)).
    + apply IH.
    + rewrite bind_uniform.
      match goal with
      | |- context [allocation_loop R n (S i) rest ?ph1 ?r1 ?w1] =>
          destruct (IH (S i) ph1 r1 w1) as [ph' [w' [E [H1 [H2 [H3 H4]]]]]]
      end.
      exists ph', w'. split; [exact E|]. repeat split; assumption.
Qed.

Lemma _generate_time_record_shape (e : Employee) (d : Z) (w : World R) :
  exists r w',
    _generate_time_record R e d w = (Ok r, w') /\
    employees w' = employees w /\
    payroll_records w' = payroll_records w /\
    time_tracking_records w' = time_tracking_records w /\
    hiring_events w' = hiring_events w /\
    match r with
    | Some rec => draw w <= 0.9 /\ time_entry e d rec
    | None => 0.9 < draw w
    end.
Proof.
  unfold _generate_time_record.
  rewrite bind_py_random.
  destruct (Qle_bool (draw w) 0.9) eqn:Hc.
  - apply Qle_bool_iff in Hc.
    rewrite bind_uniform.
    destruct (draw_range R (advance w)) as [Hu0 Hu1].
    set (total := 6.5 + (9.5 - 6.5) * draw (advance w)) in *.
    assert (Hlo : 6.5 <= total) by (unfold total; lra).
    assert (Hhi : total <= 9.5) by (unfold total; lra).
    destruct (allocation_loop_outcome R (_get_employee_projects (department e))
                total (advance (advance w))
                (projects_distinct _) Hlo Hhi)
      as [ph [w2 [E [_ [_ [Hk _]]]]]].
    destruct (allocation_loop_frame
                (List.length (_get_employee_projects (department e)))
                (_get_employee_projects (department e)) 0 [] total
                (advance (advance w)))
      as [ph' [w2' [E' [F1 [F2 [F3 F4]]]]]].
    rewrite E in E'. inversion E'; subst ph' w2'. clear E'.
    unfold bind at 1. rewrite E. rewrite bind_uniform. unfold ret.
    destruct (draw_range R w2) as [Hb0 Hb1].
    set (b := 0.7 + (0.95 - 0.7) * draw w2) in *.
    do 2 eexists. split; [reflexivity|].
    cbn [employees payroll_records time_tracking_records hiring_events
         advance set_rng].
    do 4 (split; [assumption|]).
    split; [exact Hc|].
    unfold time_entry.
    cbn [tr_employee_id tr_employee_name work_date total_hours
         billable_hours project_allocations].
    split; [reflexivity|]. split; [reflexivity|]. split; [reflexivity|].
    split.
    { pose proof (round2_mono _ _ Hlo) as H.
      change (Num.round2 6.5) with (650 # 100) in H. lra. }
    split.
    { pose proof (round2_mono _ _ Hhi) as H.
      change (Num.round2 9.5) with (950 # 100) in H. lra. }
    split; [apply RoundFacts.round2_nonneg; unfold b; nra|].
    split; [apply round2_mono; unfold b; nra|].
    rewrite map_map. cbn [fst]. exact Hk.
  - unfold ret. do 2 eexists. split; [reflexivity|].
    do 4 (split; [reflexivity|]).
    destruct (Qlt_le_dec 0.9 (draw w)) as [H|H]; [exact H|].
    apply Qle_bool_iff in H. congruence.
Qed.


End TimeRecordFacts.

Section TimeTrackingRun.
Context (R : Rng).

Lemma time_body_entry (d : Z) (e : Employee) (w : World R) :
  exists w' new,
    time_body d e w = (Ok tt, w') /\
    employees w' = employees w /\
    payroll_records w' = payroll_records w /\
    hiring_events w' = hiring_events w /\
    time_tracking_records w' = time_tracking_records w ++ new /\
    (new = [] \/ exists rec, new = [rec] /\ time_entry e d rec).
Proof.
  destruct (_generate_time_record_shape R e d w)
    as [r [w1 [E [F1 [F2 [F3 [F4 H]]]]]]].
  unfold time_body, bind. rewrite E.
  destruct r as [rec|].
  - unfold modify. eexists. exists [rec]. split; [reflexivity|].
    cbn [employees payroll_records hiring_events time_tracking_records
         set_time_tracking_records].
    rewrite F3. do 4 (split; [assumption || reflexivity|]).
    right. exists rec. split; [reflexivity | apply H].
  - unfold ret. exists w1, []. split; [reflexivity|].
    rewrite app_nil_r. do 4 (split; [assumption|]). now left.
Qed.

Lemma for_each_time_entries (d : Z) (l : list Employee) :
  forall w : World R,
  exists w' new,
    for_each l (time_body d) w = (Ok tt, w') /\
    employees w' = employees w /\
    payroll_records w' = payroll_records w /\
    hiring_events w' = hiring_events w /\
    time_tracking_records w' = time_tracking_records w ++ new /\
    Forall (fun r => work_date r = d /\ exists e, In e l /\ time_entry e d r)
           new /\
    forall p : string * Z -> bool,
      (List.length (filter p (map tkey new))
       <= List.length (filter p (map (fun e => (employee_id e, d)) l)))%nat.
Proof.
  induction l as [|e l IH]; intros w.
  - exists w, []. split; [reflexivity|]. rewrite app_nil_r.
    do 4 (split; [reflexivity|]). split; [constructor|].
    intros p. apply Nat.le_refl.
  - destruct (time_body_entry d e w) as [w1 [new1 [E1 [A1 [A2 [A3 [A4 A5]]]]]]].
    destruct (IH w1) as [w2 [new2 [E2 [B1 [B2 [B3 [B4 [B5 B6]]]]]]]].
    exists w2, (new1 ++ new2).
    cbn [for_each]. unfold bind. rewrite E1, E2.
    split; [reflexivity|]. split; [congruence|]. split; [congruence|].
    split; [congruence|].
    split; [rewrite B4, A4, <- app_assoc; reflexivity|].
    assert (Htail : Forall (fun r => work_date r = d /\
                              exists e0, In e0 (e :: l) /\ time_entry e0 d r)
                           new2).
    { eapply Forall_impl; [|exact B5]. cbv beta.
      intros r [H1 [e0 [H2 H3]]]. split; [exact H1|].
      exists e0. split; [now right | exact H3]. }
    destruct A5 as [->|[rec [-> Hrec]]].
    + cbn [app]. split; [exact Htail|].
      intros p. specialize (B6 p). cbn [map filter].
      destruct (p (employee_id e, d)); cbn [List.length]; lia.
    + cbn [app]. split.
      { constructor; [|exact Htail]. split; [apply Hrec|].
        exists e. split; [now left | exact Hrec]. }
      intros p. specialize (B6 p). cbn [map filter].
      assert (Hk : tkey rec = (employee_id e, d)).
      { unfold tkey. destruct Hrec as [H1 [_ [H3 _]]]. rewrite H1, H3.
        reflexivity. }
      rewrite Hk.
      destruct (p (employee_id e, d)); cbn [List.length]; lia.
Qed.

Lemma weekday_range (d : Z) : 0 <= Calendar.weekday d < 7.
Proof. unfold Calendar.weekday. apply Z.mod_pos_bound. lia. Qed.

Lemma time_tracking_loop_entries (fuel : nat) :
  forall (c : Z) (w : World R),
  START_DATE <= c ->
  enough_days fuel c ->
  exists w' new,
    time_tracking_loop R fuel c w = (Ok tt, w') /\
    employees w' = employees w /\
    payroll_records w' = payroll_records w /\
    hiring_events w' = hiring_events w /\
    time_tracking_records w' = time_tracking_records w ++ new /\
    Forall (time_tracking_entry (employees w)) new /\
    forall p : string * Z -> bool,
      (List.length (filter p (map tkey new))
       <= List.length
            (filter p (expected_keys (workdays fuel c) (employees w))))%nat.
Proof.
  induction fuel as [|fuel IH]; intros c w Hstart [Hpos Hfuel]; [lia|].
  cbn [time_tracking_loop workdays].
  destruct (c <=? END_DATE) eqn:Hc.
  - apply Z.leb_le in Hc.
    assert (Hen : enough_days fuel (c + 1)) by (unfold enough_days; lia).
    destruct (Calendar.weekday c <? 5) eqn:Hwd.
    + apply Z.ltb_lt in Hwd.
      rewrite bind_bind, bind_get.
      destruct (for_each_time_entries c
                  (filter (on_payroll c) (employees w)) w)
        as [w1 [new1 [E1 [A1 [A2 [A3 [A4 [A5 A6]]]]]]]].
      unfold bind at 1. fold (@time_body R c). rewrite E1.
      destruct (IH (c + 1) w1 ltac:(lia) Hen)
        as [w2 [new2 [E2 [B1 [B2 [B3 [B4 [B5 B6]]]]]]]].
      exists w2, (new1 ++ new2). split; [exact E2|].
      split; [congruence|]. split; [congruence|]. split; [congruence|].
      split; [rewrite B4, A4, <- app_assoc; reflexivity|].
      split.
      * apply Forall_app. split.
        -- eapply Forall_impl; [|exact A5]. cbv beta.
           intros r [H1 [e [H2 H3]]]. apply filter_In in H2.
           unfold time_tracking_entry. rewrite H1.
           pose proof (weekday_range c).
           split; [lia|]. split; [lia|]. exists e. tauto.
        -- rewrite A1 in B5. exact B5.
      * intros p. specialize (A6 p). specialize (B6 p).
        rewrite A1 in B6.
        unfold expected_keys in *. cbn [app flat_map].
        rewrite map_app, !filter_app, !length_app. lia.
    + rewrite bind_ret. cbn [app].
      destruct (IH (c + 1) w ltac:(lia) Hen)
        as [w2 [new2 [E2 B]]].
      exists w2, new2. split; [exact E2 | exact B].
  - exists w, []. split; [reflexivity|]. rewrite app_nil_r.
    do 4 (split; [reflexivity|]). split; [constructor|].
    intros p. apply Nat.le_refl.
Qed.

Lemma workdays_In (fuel : nat) (c d : Z) :
  In d (workdays fuel c) ->
  c <= d <= END_DATE /\ Calendar.weekday d < 5.
Proof.
  revert c. induction fuel as [|fuel IH]; intros c; cbn [workdays]; [intros []|].
  destruct (c <=? END_DATE) eqn:Hc; [|intros []].
  apply Z.leb_le in Hc. intros H. apply in_app_or in H.
  destruct H as [H|H].
  - destruct (Calendar.weekday c <? 5) eqn:Hw; [|destruct H].
    destruct H as [<-|[]]. apply Z.ltb_lt in Hw. lia.
  - apply IH in H. lia.
Qed.

Lemma workdays_NoDup (fuel : nat) (c : Z) : NoDup (workdays fuel c).
Proof.
  revert c. induction fuel as [|fuel IH]; intros c; cbn [workdays];
    [constructor|].
  destruct (c <=? END_DATE); [|constructor].
  destruct (Calendar.weekday c <? 5); cbn [app]; [|apply IH].
  constructor; [|apply IH].
  intros H. apply workdays_In in H. lia.
Qed.

(** X14.  The time-tracking run returns normally from any world (no
    roster makes it raise), changes nothing but
    [time_tracking_records], to which it only appends, and every record
    appended is dated on a Monday-to-Friday day of the window, for an
    employee of the roster who is on the payroll on that day. *)
Theorem time_tracking_run (w : World R) :
  exists w' new,
    generate_time_tracking_data R w = (Ok tt, w') /\
    employees w' = employees w /\
    payroll_records w' = payroll_records w /\
    hiring_events w' = hiring_events w /\
    time_tracking_records w' = time_tracking_records w ++ new /\
    Forall (time_tracking_entry (employees w)) new.
Proof.
  pose proof generate_time_tracking_data_fuel as Hfuel.
  unfold generate_time_tracking_data.
  generalize dependent (Z.to_nat (END_DATE - START_DATE) + 2)%nat.
  intros fuel Hfuel.
  destruct (time_tracking_loop_entries fuel START_DATE w ltac:(lia) Hfuel)
    as [w' [new [E [H1 [H2 [H3 [H4 [H5 _]]]]]]]].
  exists w', new. repeat (split; [assumption|]). exact H5.
Qed.

Lemma counted_once_a_day (ds : list Z) (roster : list Employee)
    (new : list TimeTrackingRecord) :
  NoDup ds ->
  (forall d, In d ds ->
     START_DATE <= d <= END_DATE /\ Calendar.weekday d < 5) ->
  NoDup (map employee_id roster) ->
  (forall p : string * Z -> bool,
     (List.length (filter p (map tkey new))
      <= List.length (filter p (expected_keys ds roster)))%nat) ->
  forall e d,
    In e roster ->
    (List.length (filter (time_record_is (employee_id e) d) new) <= 1)%nat /\
    (d < START_DATE \/ END_DATE < d \/ 5 <= Calendar.weekday d \/
     on_payroll d e = false ->
     filter (time_record_is (employee_id e) d) new = []).
Proof.
  intros Hds Hin_ds Hnd H6 e d Hin.
  specialize (H6 (key_is (employee_id e) d)).
  rewrite <- (ListFacts.filter_map_length tkey) in H6.
  change (fun x : TimeTrackingRecord => key_is (employee_id e) d (tkey x))
    with (time_record_is (employee_id e) d) in H6.
  rewrite (expected_keys_count (employee_id e) d _ _ Hds) in H6.
  rewrite ListFacts.filter_swap in H6.
  rewrite (ListFacts.filter_same_id e _ Hnd Hin) in H6.
  split.
  - destruct (in_dec Z.eq_dec d ds); [|cbn [List.length] in H6; lia].
    rewrite length_map in H6.
    cbn [filter] in H6. destruct (on_payroll d e); cbn [List.length] in H6; lia.
  - intros Hout.
    apply length_zero_iff_nil.
    destruct (in_dec Z.eq_dec d ds) as [Hd|Hd].
    + apply Hin_ds in Hd.
      destruct Hout as [H|[H|[H|H]]]; try lia.
      rewrite length_map in H6. cbn [filter] in H6. rewrite H in H6.
      cbn [List.length] in H6. lia.
    + cbn [List.length] in H6. lia.
Qed.

(** X15.  With distinct employee ids the time-tracking run emits at
    most one record per employee and day, and none for a day outside
    the window, for a Saturday or Sunday, or for a day on which the
    employee is not on the payroll. *)
Theorem time_tracking_once_a_day (w : World R) :
  NoDup (map employee_id (employees w)) ->
  exists w' new,
    generate_time_tracking_data R w = (Ok tt, w') /\
    time_tracking_records w' = time_tracking_records w ++ new /\
    forall e d,
      In e (employees w) ->
      (List.length (filter (time_record_is (employee_id e) d) new) <= 1)%nat /\
      (d < START_DATE \/ END_DATE < d \/ 5 <= Calendar.weekday d \/
       on_payroll d e = false ->
       filter (time_record_is (employee_id e) d) new = []).
Proof.
  intros Hnd.
  pose proof generate_time_tracking_data_fuel as Hfuel.
  unfold generate_time_tracking_data.
  generalize dependent (Z.to_nat (END_DATE - START_DATE) + 2)%nat.
  intros fuel Hfuel.
  destruct (time_tracking_loop_entries fuel START_DATE w ltac:(lia) Hfuel)
    as [w' [new [E [_ [_ [_ [H4 [_ H6]]]]]]]].
  exists w', new. split; [exact E|]. split; [exact H4|].
  apply (counted_once_a_day (workdays fuel START_DATE));
    [apply workdays_NoDup | apply workdays_In | exact Hnd | exact H6].
Qed.

End TimeTrackingRun.

(* ------------------------------------------------------------------ *)
(** ** The summary report *)

Section SummaryReport.
Context (R : Rng).
Local Open Scope Q_scope.

Lemma filter_partition_length {A} (p : A -> bool) (l : list A) :
  (List.length (filter p l) + List.length (filter (fun x => negb (p x)) l)
   = List.length l)%nat.
Proof.
  induction l as [|x l IH]; cbn [filter List.length]; [reflexivity|].
  destruct (p x); cbn [negb List.length]; lia.
Qed.

Lemma firstn_In {A} (n : nat) (l : list A) (x : A) :
  In x (firstn n l) -> In x l.
Proof.
  revert l. induction n as [|n IH]; intros [|y l] H; cbn [firstn] in H;
    try (destruct H; fail).
  destruct H as [<-|H]; [now left|]. right. apply IH. exact H.
Qed.

Lemma mean_between (lo hi : Q) (l : list Q) :
  l <> [] ->
  Forall (fun q => lo <= q /\ q <= hi) l ->
  lo <= mean l /\ mean l <= hi.
Proof.
  intros Hne Hall. unfold mean, len.
  assert (Hn : 0 < inject_Z (Z.of_nat (List.length l))).
  { change 0 with (inject_Z 0). rewrite <- Zlt_Qlt.
    destruct l; [congruence | cbn [List.length]; lia]. }
  assert (Hs : lo * inject_Z (Z.of_nat (List.length l)) <= Num.sumQ l /\
               Num.sumQ l <= hi * inject_Z (Z.of_nat (List.length l))).
  { clear Hne Hn. induction Hall as [|q l [Hq1 Hq2] Hl [IH1 IH2]].
    - unfold Num.sumQ. cbn [fold_left List.length].
      change (inject_Z (Z.of_nat 0)) with 0. lra.
    - rewrite SumFacts.sumQ_cons. cbn [List.length].
      rewrite Nat2Z.inj_succ. unfold Z.succ. rewrite inject_Z_plus.
      change (inject_Z 1) with 1. lra. }
  split; [apply Qle_shift_div_l | apply Qle_shift_div_r]; tauto.
Qed.

Lemma sample_mean_between (lo hi : Q) (records : list PayrollRecord) :
  sample_records records <> [] ->
  Forall (fun r => lo <= burden_rate r /\ burden_rate r <= hi) records ->
  lo <= mean (map burden_rate (sample_records records)) /\
  mean (map burden_rate (sample_records records)) <= hi.
Proof.
  intros Hne Hall.
  apply mean_between.
  - destruct (sample_records records); [congruence | discriminate].
  - rewrite Forall_map. rewrite Forall_forall in *.
    intros r Hr. apply Hall. unfold sample_records in Hr.
    apply firstn_In in Hr. apply filter_In in Hr. apply Hr.
Qed.

Lemma generate_summary_report_eq (w : World R) :
  generate_summary_report w
  = (Ok {| total_employees := len (employees w);
           active_employees := len (filter active (employees w));
           terminated_employees :=
             len (filter (fun e => negb (active e)) (employees w));
           total_annual_payroll :=
             Num.round2
               (Num.sumQ (map annual_salary (filter active (employees w))));
           monthly_payroll :=
             Num.round2
               (Num.sumQ (map annual_salary (filter active (employees w)))
                / 12);
           average_burden_rate :=
             Num.round2
               match sample_records (payroll_records w) with
               | [] => 0
               | _ :: _ =>
                   mean (map burden_rate (sample_records (payroll_records w)))
               end;
           sm_payroll_records := len (payroll_records w);
           sm_time_tracking_records := len (time_tracking_records w);
           sm_hiring_events := len (hiring_events w);
           date_range :=
             (strftime_Y_m_d START_DATE ++ " to "
              ++ strftime_Y_m_d END_DATE)%string;
           baseline_target_monthly := BASELINE_MONTHLY_COST;
           baseline_target_employees := BASELINE_EMPLOYEES;
           baseline_target_burden := BASELINE_BURDEN_RATE * 100 |}, w).
Proof. reflexivity. Qed.

(** X16.  The summary report.  [generate_summary_report] returns
    without changing the generator; [total_employees] is
    [active_employees] plus [terminated_employees]; with no payroll
    record of 2024 the average burden rate is reported as 0 (no mean of
    an empty sample is taken); otherwise it lies between the rounded
    bounds of the burden rates of the payroll records. *)
Theorem summary_report (w : World R) :
  exists s,
    generate_summary_report w = (Ok s, w) /\
    (total_employees s = active_employees s + terminated_employees s)%Z /\
    (0 <= active_employees s)%Z /\ (0 <= terminated_employees s)%Z /\
    (sample_records (payroll_records w) = [] -> average_burden_rate s == 0) /\
    (forall lo hi,
        sample_records (payroll_records w) <> [] ->
        Forall (fun r => lo <= burden_rate r /\ burden_rate r <= hi)
               (payroll_records w) ->
        Num.round2 lo <= average_burden_rate s /\
        average_burden_rate s <= Num.round2 hi).
Proof.
  rewrite generate_summary_report_eq.
  eexists. split; [reflexivity|].
  cbn [total_employees active_employees terminated_employees
       average_burden_rate].
  unfold len.
  pose proof (filter_partition_length active (employees w)) as Hp.
  split; [lia|]. split; [lia|]. split; [lia|].
  split.
  - intros ->. reflexivity.
  - intros lo hi Hne Hall.
    destruct (sample_mean_between lo hi _ Hne Hall) as [H1 H2].
    destruct (sample_records (payroll_records w)) as [|r rs];
      [congruence|].
    split; apply round2_mono; assumption.
Qed.

(** X17.  Right after construction the summary reports 24 employees,
    all active, an annual payroll of 7,152,000 and a monthly payroll of
    596,000, which is the baseline target, a zero average burden rate
    and no record or event. *)
Theorem summary_after_constructor (w : World R) :
  exists w' s,
    bind (__init__ R) (fun _ => generate_summary_report) w = (Ok s, w') /\
    total_employees s = 24%Z /\
    active_employees s = 24%Z /\
    terminated_employees s = 0%Z /\
    total_annual_payroll s == 7152000 /\
    monthly_payroll s == baseline_target_monthly s /\
    monthly_payroll s == 596000 /\
    average_burden_rate s == 0 /\
    sm_payroll_records s = 0%Z /\
    sm_time_tracking_records s = 0%Z /\
    sm_hiring_events s = 0%Z.
Proof.
  destruct (__init___roster R w)
    as [w' [E [Hids [Hnames [Hall [Hsum [F1 [F2 F3]]]]]]]].
  unfold bind at 1. rewrite E.
  rewrite generate_summary_report_eq.
  exists w'. eexists. split; [reflexivity|].
  cbn [total_employees active_employees terminated_employees
       total_annual_payroll monthly_payroll average_burden_rate
       sm_payroll_records sm_time_tracking_records sm_hiring_events
       baseline_target_monthly].
  rewrite F1, F2, F3.
  assert (Hlen : List.length (employees w') = 24%nat).
  { rewrite <- (length_map employee_id), Hids. reflexivity. }
  assert (Hact : filter active (employees w') = employees w').
  { apply forallb_filter_id. apply forallb_forall.
    rewrite Forall_forall in Hall. intros e He. apply (Hall e He). }
  pose proof (filter_partition_length active (employees w')) as Hp.
  rewrite Hact in *. unfold len. rewrite Hlen in *.
  split; [reflexivity|]. split; [reflexivity|]. split; [lia|].
  unfold total_annual in Hsum.
  assert (H1 : Num.sumQ (map annual_salary (employees w')) == 7152000).
  { rewrite Hsum. unfold BASELINE_MONTHLY_COST. lra. }
  assert (H2 : Num.sumQ (map annual_salary (employees w')) / 12 == 596000).
  { rewrite H1. field. }
  rewrite (round2_comp _ _ H1), (round2_comp _ _ H2).
  split; [vm_compute; reflexivity|].
  split; [vm_compute; reflexivity|].
  split; [vm_compute; reflexivity|].
  split; [vm_compute; reflexivity|].
  repeat split.
Qed.

End SummaryReport.

(* ------------------------------------------------------------------ *)
(** ** A whole run *)

Section Run.
Context (R : Rng).

Lemma roster_entry_consistent (e : Employee) :
  roster_entry e -> pay_consistent e.
Proof. unfold roster_entry, pay_consistent. tauto. Qed.

Lemma new_hire_consistent (e : Employee) : new_hire e -> pay_consistent e.
Proof.
  unfold new_hire, pay_consistent, well_paid.
  intros [_ [_ [Hh [_ [_ [H1 [H2 [H3 H4]]]]]]]].
  split; [split; lra|]. rewrite Hh. discriminate.
Qed.

Lemma roster_step_consistent (events : list Event) (l l' : list Employee) :
  Forall2 (roster_step events) l l' ->
  Forall pay_consistent l -> Forall pay_consistent l'.
Proof.
  induction 1 as [|e e' l l' He H IH]; intros Hall; [constructor|].
  inversion Hall as [|? ? Hc Hl]; subst.
  constructor; [|apply IH; exact Hl].
  destruct He as [->|[_ [d [reason [-> _]]]]]; exact Hc.
Qed.

Lemma roster_step_state (l l' : list Employee) (events : list Event) :
  (forall id name d reason,
      In (Termination id name d reason) events ->
      START_DATE + 90 <= d <= START_DATE + 1000) ->
  Forall2 (roster_step events) l l' ->
  Forall roster_entry l ->
  Forall (fun e => employment_state e /\
                   START_DATE <= hire_date e <= START_DATE + 730) l'.
Proof.
  intros Hev H.
  induction H as [|e e' l l' He H IH]; intros Hall; [constructor|].
  inversion Hall as [|? ? Hc Hl]; subst.
  constructor; [|apply IH; exact Hl].
  destruct Hc as [C1 [C2 [C3 _]]].
  destruct He as [->|[_ [d [reason [-> Hin]]]]].
  - split; [left; auto | exact C3].
  - split; [|exact C3]. right. split; [reflexivity|].
    exists d. split; [reflexivity|]. exact (Hev _ _ _ _ Hin).
Qed.

Lemma run_ids_distinct (k : nat) :
  (k <= 10)%nat -> NoDup (roster_ids 0 24 ++ hire_ids 10 k).
Proof.
  intros Hk. apply nodupb_sound.
  do 11 (destruct k as [|k]; [vm_compute; reflexivity|]). lia.
Qed.

Lemma staffed (w : World R) :
  exists w1 schedule w2 terms hs kept news,
    __init__ R w = (Ok tt, w1) /\
    generate_hiring_termination_events R w1 = (Ok schedule, w2) /\
    employees w2 = kept ++ news /\
    Forall2 (roster_step terms) (employees w1) kept /\
    Forall roster_entry (employees w1) /\
    map employee_id kept = roster_ids 0 24 /\
    map employee_id news = hire_ids 10 (List.length news) /\
    (List.length news <= 10)%nat /\
    Forall new_hire news /\
    count_active kept = 14%nat /\
    Forall (fun e => employment_state e /\
                     START_DATE <= hire_date e <= START_DATE + 730) kept /\
    Forall pay_consistent (employees w2) /\
    payroll_records w2 = [] /\
    time_tracking_records w2 = [] /\
    hiring_events w2 = sorted_by_date (terms ++ hs) /\
    List.length terms = 10%nat /\
    Forall (fun ev => is_termination ev = true) terms /\
    Forall (fun ev => is_hiring ev = true) hs /\
    List.length hs = List.length news /\
    Forall (termination_entry kept) terms /\
    Forall2 (hire_pair terms) hs news.
Proof.
  destruct (__init___roster R w)
    as [w1 [E1 [Hids1 [Hnames [Hall [Hsum [P1 [P2 P3]]]]]]]].
  assert (Hlen1 : List.length (employees w1) = 24%nat).
  { rewrite <- (length_map employee_id), Hids1. reflexivity. }
  assert (Hact1 : count_active (employees w1) = 24%nat).
  { rewrite count_active_all; [exact Hlen1|].
    eapply Forall_impl; [|exact Hall]. cbv beta. unfold roster_entry. tauto. }
  destruct (lifecycle_entries R w1 ltac:(rewrite Hact1; vm_compute; lia))
    as [terms [hs [sch [w2 [kept [news [E2 [Hev [Hlen [F1 [F2 [He [Hstep
          [Hterms [Hcount [Hids [Hn Hpairs]]]]]]]]]]]]]]]]].
  destruct (hire_pair_is _ _ _ Hpairs) as [Hhs [Hhl Hnew]].
  pose proof (termination_entry_is _ _ Hterms) as Hist.
  exists w1, sch, w2, terms, hs, kept, news.
  split; [exact E1|]. split; [exact E2|]. split; [exact He|].
  split; [exact Hstep|]. split; [exact Hall|].
  split; [rewrite (roster_step_ids _ _ _ Hstep); exact Hids1|].
  split; [exact Hids|]. split; [exact Hn|]. split; [exact Hnew|].
  split; [lia|].
  split.
  { apply (roster_step_state (employees w1) kept terms); [|exact Hstep | exact Hall].
    intros id name d reason Hin.
    rewrite Forall_forall in Hterms. specialize (Hterms _ Hin).
    cbn [termination_entry] in Hterms. tauto. }
  split.
  { rewrite He. apply Forall_app. split.
    - apply (roster_step_consistent _ _ _ Hstep).
      eapply Forall_impl; [|exact Hall]. apply roster_entry_consistent.
    - eapply Forall_impl; [|exact Hnew]. apply new_hire_consistent. }
  split; [rewrite F1; exact P1|]. split; [rewrite F2; exact P2|].
  split; [exact Hev|]. split; [exact Hlen|].
  split; [exact Hist|]. split; [exact Hhs|]. split; [exact Hhl|].
  split; [exact Hterms | exact Hpairs].
Qed.

Lemma main_from_staffed (w w1 w2 : World R) (schedule : list (string * Z)) :
  __init__ R w = (Ok tt, w1) ->
  generate_hiring_termination_events R w1 = (Ok schedule, w2) ->
  main R w
  = bind (generate_payroll_data R)
         (fun _ => generate_time_tracking_data R) w2.
Proof.
  intros E1 E2. unfold main.
  unfold bind at 1. rewrite E1.
  unfold bind at 1. rewrite E2. reflexivity.
Qed.

Lemma made_record_facts (e : Employee) (d : Z) (w : World R)
    (rec : PayrollRecord) (w' : World R) :
  _generate_payroll_record R e d w = (Ok rec, w') ->
  pay_period_end rec = d /\
  pay_period_start rec = d - 13 /\
  pr_employee_id rec = employee_id e /\
  pr_employee_name rec = employee_name e /\
  pr_department rec = department e /\
  (pay_consistent e -> record_bounds rec).
Proof.
  intros E.
  destruct (made_record_amounts R e d w rec w' E)
    as [_ [A1 [A2 [A3 [A4 [A5 _]]]]]].
  do 5 (split; [assumption|]).
  intros Hc. split.
  - destruct Hc as [[Ha Hr] _].
    apply (made_record_ordered R e d w rec w'); [|lra | exact E].
    apply well_paid_paid. split; assumption.
  - destruct (made_burden_rate R e d w rec w' Hc E) as [H1 [H2 _]].
    split; assumption.
Qed.

(** The payroll and time-tracking runs from a world whose employees are
    paid consistently and that holds no payroll record yet. *)
Lemma run_from_staffed (w2 : World R) :
  Forall pay_consistent (employees w2) ->
  payroll_records w2 = [] ->
  exists w3 w4 fuel tnew,
    generate_payroll_data R w2 = (Ok tt, w3) /\
    generate_time_tracking_data R w3 = (Ok tt, w4) /\
    employees w4 = employees w2 /\
    hiring_events w4 = hiring_events w2 /\
    payroll_records w4 = payroll_records w3 /\
    time_tracking_records w4 = time_tracking_records w2 ++ tnew /\
    enough fuel START_DATE /\
    List.length (periods fuel START_DATE) = 79%nat /\
    map key (payroll_records w3)
    = expected_keys (periods fuel START_DATE) (employees w2) /\
    Forall (fun r => payroll_entry (employees w2) r /\ record_bounds r)
           (payroll_records w3) /\
    Forall (time_tracking_entry (employees w2)) tnew /\
    (NoDup (map employee_id (employees w2)) ->
     forall e d,
       In e (employees w2) ->
       (List.length (filter (time_record_is (employee_id e) d) tnew) <= 1)%nat
       /\
       (d < START_DATE \/ END_DATE < d \/ 5 <= Calendar.weekday d \/
        on_payroll d e = false ->
        filter (time_record_is (employee_id e) d) tnew = [])).
Proof.
  intros Hcons Hempty.
  assert (Hpaid : Forall paid (employees w2)).
  { eapply Forall_impl; [|exact Hcons]. intros e [Hw _].
    apply well_paid_paid. exact Hw. }
  pose proof (generate_payroll_data_fuel) as Hfuel.
  pose proof (periods_count) as Hcount.
  unfold generate_payroll_data.
  generalize dependent (Z.to_nat ((END_DATE - START_DATE) / 14) + 2)%nat.
  intros fuel Hfuel Hcount.
  destruct (payroll_loop_paid R fuel START_DATE w2 Hpaid Hfuel)
    as [w3 [new [E3 [He3 [Hr3 Hk3]]]]].
  rewrite Hempty in Hr3. cbn [app] in Hr3.
  pose proof (payroll_loop_made R
    (fun d e r => pay_period_end r = d /\ pay_period_start r = d - 13 /\
                  pr_employee_id r = employee_id e /\
                  pr_employee_name r = employee_name e /\
                  pr_department r = department e /\
                  (pay_consistent e -> record_bounds r))
    made_record_facts fuel START_DATE w2 ltac:(lia)) as Hmade.
  cbv zeta in Hmade. rewrite E3 in Hmade. cbn [snd] in Hmade.
  destruct Hmade as [_ [M2 [M3 [new' [M4 M5]]]]].
  rewrite Hempty in M4. cbn [app] in M4.
  assert (Hsame : new' = new) by congruence. subst new'.
  pose proof generate_time_tracking_data_fuel as Hdays.
  unfold generate_time_tracking_data.
  generalize dependent (Z.to_nat (END_DATE - START_DATE) + 2)%nat.
  intros days Hdays.
  destruct (time_tracking_loop_entries R days START_DATE w3 ltac:(lia) Hdays)
    as [w4 [tnew [E4 [T1 [T2 [T3 [T4 [T5 T6]]]]]]]].
  exists w3, w4, fuel, tnew.
  split; [exact E3|]. split; [exact E4|].
  split; [congruence|]. split; [congruence|]. split; [exact T2|].
  split; [congruence|]. split; [exact Hfuel|]. split; [exact Hcount|].
  split; [rewrite Hr3; exact Hk3|].
  split.
  { eapply Forall_impl; [|exact M5]. cbv beta.
    intros r [d [e [Hd [Hin [Hon [E1 [E2 [E5 [E6 [E7 Hb]]]]]]]]]].
    split.
    - unfold payroll_entry. rewrite E1. split; [exact Hd|].
      split; [exact E2|]. exists e. tauto.
    - apply Hb. rewrite Forall_forall in Hcons. apply Hcons. exact Hin. }
  split; [rewrite He3 in T5; exact T5|].
  intros Hnd. rewrite He3 in T6.
  apply (counted_once_a_day (workdays days START_DATE));
    [apply workdays_NoDup | apply workdays_In | exact Hnd | exact T6].
Qed.

Lemma new_hire_dates (terms hs : list Event) (kept news : list Employee) :
  Forall (termination_entry kept) terms ->
  Forall2 (hire_pair terms) hs news ->
  Forall (fun e => START_DATE + 120 <= hire_date e < END_DATE) news.
Proof.
  intros Hterms Hpairs. rewrite Forall_forall. intros e Hin.
  destruct (Forall2_In_r _ _ _ _ Hpairs Hin) as [h [_ Hp]].
  destruct Hp as [d [rep [_ [Hd [Hlt [_ [tname [td [reason [Ht Hb]]]]]]]]]].
  rewrite Forall_forall in Hterms. specialize (Hterms _ Ht).
  cbn [termination_entry] in Hterms. destruct Hterms as [Htd _].
  rewrite Hd. lia.
Qed.

Lemma active_member (l : list Employee) :
  (0 < count_active l)%nat -> exists e, In e l /\ active e = true.
Proof.
  unfold count_active. intros H.
  destruct (filter active l) as [|e rest] eqn:E; [cbn in H; lia|].
  assert (Hin : In e (filter active l)) by (rewrite E; now left).
  apply filter_In in Hin. exists e. exact Hin.
Qed.

(** X18.  The roster of a whole run ([main] up to the export), for
    every generator and prior state.  The ids are distinct: EMP001 to
    EMP024 followed by NEW011, NEW012, ..., one per hiring event, of
    which there are at most ten; exactly ten employees are inactive and
    the events hold exactly ten terminations; every employee is either
    active with no termination date or inactive with a termination date
    90 to 1000 days after [START_DATE], has positive pay and was hired
    in the window. *)
Theorem run_roster (w : World R) :
  exists w',
    main R w = (Ok tt, w') /\
    NoDup (map employee_id (employees w')) /\
    (exists k,
        (k <= 10)%nat /\
        List.length (filter is_hiring (hiring_events w')) = k /\
        map employee_id (employees w')
        = ["EMP001"; "EMP002"; "EMP003"; "EMP004"; "EMP005"; "EMP006";
           "EMP007"; "EMP008"; "EMP009"; "EMP010"; "EMP011"; "EMP012";
           "EMP013"; "EMP014"; "EMP015"; "EMP016"; "EMP017"; "EMP018";
           "EMP019"; "EMP020"; "EMP021"; "EMP022"; "EMP023"; "EMP024"]%string
          ++ firstn k
               ["NEW011"; "NEW012"; "NEW013"; "NEW014"; "NEW015"; "NEW016";
                "NEW017"; "NEW018"; "NEW019"; "NEW020"]%string) /\
    List.length (filter (fun e => negb (active e)) (employees w')) = 10%nat /\
    List.length (filter is_termination (hiring_events w')) = 10%nat /\
    Forall (fun e => employment_state e /\ well_paid e /\
                     START_DATE <= hire_date e < END_DATE) (employees w').
Proof.
  destruct (staffed w)
    as [w1 [sch [w2 [terms [hs [kept [news [E1 [E2 [He [Hstep [Hall
          [Hidk [Hidn [Hn [Hnew [Hact [Hstate [Hcons [P1 [P2 [Hev
          [Hlen [Hist [Hhs [Hhl [Hterms Hpairs]]]]]]]]]]]]]]]]]]]]]]]]]]].
  destruct (run_from_staffed w2 Hcons P1)
    as [w3 [w4 [fuel [tnew [E3 [E4 [He4 [Hev4 _]]]]]]]].
  exists w4. split.
  { rewrite (main_from_staffed w w1 w2 sch E1 E2).
    unfold bind. rewrite E3. exact E4. }
  rewrite He4, Hev4, He, Hev.
  assert (Hids : map employee_id (kept ++ news)
                 = roster_ids 0 24 ++ hire_ids 10 (List.length news)).
  { rewrite map_app, Hidk, Hidn. reflexivity. }
  split; [rewrite Hids; apply run_ids_distinct; exact Hn|].
  split.
  { exists (List.length news). split; [exact Hn|].
    split; [rewrite (hirings_sorted_length _ _ Hist Hhs); exact Hhl|].
    rewrite Hids, (hire_ids_ten _ Hn). reflexivity. }
  split.
  { pose proof (filter_partition_length active (kept ++ news)) as Hp.
    fold (count_active (kept ++ news)) in Hp.
    rewrite count_active_app, (new_hires_active _ Hnew), Hact in Hp.
    rewrite length_app in Hp.
    assert (Hk : List.length kept = 24%nat).
    { rewrite <- (length_map employee_id), Hidk. reflexivity. }
    lia. }
  split.
  { rewrite (Permutation_length
               (filter_perm is_termination _ _ (sorted_by_date_perm _))).
    rewrite (filter_terminations_app _ _ Hist Hhs). exact Hlen. }
  rewrite Forall_forall. intros e Hin.
  rewrite Forall_forall in Hcons. rewrite He in Hcons.
  destruct (Hcons e Hin) as [Hwp _].
  apply in_app_or in Hin. destruct Hin as [Hin|Hin].
  - rewrite Forall_forall in Hstate. destruct (Hstate e Hin) as [Hs Hd].
    split; [exact Hs|]. split; [exact Hwp|]. rewrite window_length. lia.
  - pose proof (new_hire_dates _ _ _ _ Hterms Hpairs) as Hdates.
    rewrite Forall_forall in Hdates, Hnew.
    specialize (Hdates e Hin). specialize (Hnew e Hin).
    split; [left; unfold new_hire in Hnew; tauto|].
    split; [exact Hwp | lia].
Qed.

(** X19.  The payroll records of a whole run.  Each is for a period
    end of the window and an employee on the payroll on that day, has
    ordered amounts and a burden rate between 20.39 and 25.93 percent;
    for every employee of the final roster and every bi-weekly period
    end there is exactly one record if the employee is on the payroll
    on that day and none otherwise; there are at most 79 records per
    employee. *)
Theorem run_payroll (w : World R) :
  exists w',
    main R w = (Ok tt, w') /\
    Forall (fun r => payroll_entry (employees w') r /\
                     ordered_amounts r /\
                     (20.39 <= burden_rate r)%Q /\
                     (burden_rate r <= 25.93)%Q)
           (payroll_records w') /\
    (forall e k,
        In e (employees w') -> 0 <= k -> START_DATE + 14 * k <= END_DATE ->
        List.length (records_for (employee_id e) (START_DATE + 14 * k)
                                 (payroll_records w'))
        = if on_payroll (START_DATE + 14 * k) e then 1%nat else 0%nat) /\
    (List.length (payroll_records w')
     <= 79 * List.length (employees w'))%nat.
Proof.
  destruct (staffed w)
    as [w1 [sch [w2 [terms [hs [kept [news [E1 [E2 [He [Hstep [Hall
          [Hidk [Hidn [Hn [Hnew [Hact [Hstate [Hcons [P1 [P2 [Hev
          [Hlen [Hist [Hhs [Hhl [Hterms Hpairs]]]]]]]]]]]]]]]]]]]]]]]]]]].
  destruct (run_from_staffed w2 Hcons P1)
    as [w3 [w4 [fuel [tnew [E3 [E4 [He4 [Hev4 [Hp4 [Ht4 [Hfuel [Hcount
          [Hkeys [Hrecs _]]]]]]]]]]]]]].
  exists w4. split.
  { rewrite (main_from_staffed w w1 w2 sch E1 E2).
    unfold bind. rewrite E3. exact E4. }
  rewrite He4, Hp4.
  assert (Hnd : NoDup (map employee_id (employees w2))).
  { rewrite He, map_app, Hidk, Hidn. apply run_ids_distinct. exact Hn. }
  split.
  { eapply Forall_impl; [|exact Hrecs]. cbv beta.
    unfold record_bounds. tauto. }
  split.
  - intros e k Hin Hk Hend.
    apply (records_for_count e _ (periods fuel START_DATE) (employees w2));
      [apply periods_NoDup | exact Hnd | exact Hin | | exact Hkeys].
    apply periods_In; [exact Hfuel|]. exists k. auto.
  - rewrite <- (length_map key), Hkeys.
    destruct (expected_keys_length (periods fuel START_DATE) (employees w2))
      as [Hle _].
    rewrite Hcount in Hle. exact Hle.
Qed.

(** X20.  The time records of a whole run.  Each is dated on a
    Monday-to-Friday day of the window for an employee on the payroll
    on that day; there is at most one record per employee and day, and
    none for a day outside the window, a Saturday or Sunday, or a day
    on which the employee is not on the payroll. *)
Theorem run_time_tracking (w : World R) :
  exists w',
    main R w = (Ok tt, w') /\
    Forall (time_tracking_entry (employees w')) (time_tracking_records w') /\
    forall e d,
      In e (employees w') ->
      (List.length (filter (time_record_is (employee_id e) d)
                           (time_tracking_records w')) <= 1)%nat /\
      (d < START_DATE \/ END_DATE < d \/ 5 <= Calendar.weekday d \/
       on_payroll d e = false ->
       filter (time_record_is (employee_id e) d) (time_tracking_records w')
       = []).
Proof.
  destruct (staffed w)
    as [w1 [sch [w2 [terms [hs [kept [news [E1 [E2 [He [Hstep [Hall
          [Hidk [Hidn [Hn [Hnew [Hact [Hstate [Hcons [P1 [P2 [Hev
          [Hlen [Hist [Hhs [Hhl [Hterms Hpairs]]]]]]]]]]]]]]]]]]]]]]]]]]].
  destruct (run_from_staffed w2 Hcons P1)
    as [w3 [w4 [fuel [tnew [E3 [E4 [He4 [Hev4 [Hp4 [Ht4 [Hfuel [Hcount
          [Hkeys [Hrecs [Htime Honce]]]]]]]]]]]]]]].
  exists w4. split.
  { rewrite (main_from_staffed w w1 w2 sch E1 E2).
    unfold bind. rewrite E3. exact E4. }
  rewrite He4, Ht4, P2. cbn [app].
  assert (Hnd : NoDup (map employee_id (employees w2))).
  { rewrite He, map_app, Hidk, Hidn. apply run_ids_distinct. exact Hn. }
  split; [exact Htime | exact (Honce Hnd)].
Qed.

Lemma last_period_year : Calendar.year_of (START_DATE + 14 * 78) = 2024.
Proof. vm_compute. reflexivity. Qed.

Lemma sample_nonempty (fuel : nat) (roster : list Employee)
    (records : list PayrollRecord) (e : Employee) :
  enough fuel START_DATE ->
  map key records = expected_keys (periods fuel START_DATE) roster ->
  In e roster ->
  on_payroll (START_DATE + 14 * 78) e = true ->
  sample_records records <> [].
Proof.
  intros Hfuel Hkeys Hin Hon.
  pose proof last_period_year as Hyear.
  assert (Hd : In (START_DATE + 14 * 78) (periods fuel START_DATE)).
  { apply periods_In; [exact Hfuel|]. exists 78.
    split; [lia|]. split; [reflexivity|]. rewrite window_length. lia. }
  generalize dependent (START_DATE + 14 * 78). intros d Hon Hyear Hd.
  assert (Hk : In (employee_id e, d) (map key records)).
  { rewrite Hkeys. unfold expected_keys. apply in_flat_map.
    exists d. split; [exact Hd|].
    apply in_map_iff. exists e. split; [reflexivity|].
    apply filter_In. split; assumption. }
  apply in_map_iff in Hk. destruct Hk as [r [Hkr Hr]].
  pose proof (f_equal snd Hkr) as Hpe. cbn [snd key] in Hpe.
  unfold sample_records.
  assert (Hf : In r (filter (fun r0 => Calendar.year_of (pay_period_end r0)
                                       =? 2024) records)).
  { apply filter_In. split; [exact Hr|]. rewrite Hpe, Hyear. reflexivity. }
  destruct (filter _ records) as [|x rest]; [destruct Hf|].
  cbn [firstn]. discriminate.
Qed.

(** X21.  The summary of a whole run: ten terminated employees,
    between 24 and 34 employees in all, ten fewer active, the number of
    lifecycle events is the number of employees less 14, there are at
    most 79 payroll records per employee, and the average burden rate
    is between 20.39 and 25.93 percent (the sample of 2024 records is
    never empty). *)
Theorem run_summary (w : World R) :
  exists w' s,
    bind (main R) (fun _ => generate_summary_report) w = (Ok s, w') /\
    terminated_employees s = 10 /\
    24 <= total_employees s <= 34 /\
    active_employees s = total_employees s - 10 /\
    sm_hiring_events s = total_employees s - 14 /\
    sm_payroll_records s <= 79 * total_employees s /\
    (20.39 <= average_burden_rate s)%Q /\
    (average_burden_rate s <= 25.93)%Q.
Proof.
  destruct (staffed w)
    as [w1 [sch [w2 [terms [hs [kept [news [E1 [E2 [He [Hstep [Hall
          [Hidk [Hidn [Hn [Hnew [Hact [Hstate [Hcons [P1 [P2 [Hev
          [Hlen [Hist [Hhs [Hhl [Hterms Hpairs]]]]]]]]]]]]]]]]]]]]]]]]]]].
  destruct (run_from_staffed w2 Hcons P1)
    as [w3 [w4 [fuel [tnew [E3 [E4 [He4 [Hev4 [Hp4 [Ht4 [Hfuel [Hcount
          [Hkeys [Hrecs _]]]]]]]]]]]]]].
  assert (Emain : main R w = (Ok tt, w4)).
  { rewrite (main_from_staffed w w1 w2 sch E1 E2).
    unfold bind. rewrite E3. exact E4. }
  unfold bind at 1. rewrite Emain.
  rewrite generate_summary_report_eq.
  exists w4. eexists. split; [reflexivity|].
  cbn [total_employees active_employees terminated_employees
       sm_hiring_events sm_payroll_records average_burden_rate].
  unfold len. rewrite He4, Hev4, Hp4, He, Hev.
  assert (Hk : List.length kept = 24%nat).
  { rewrite <- (length_map employee_id), Hidk. reflexivity. }
  pose proof (filter_partition_length active (kept ++ news)) as Hp.
  fold (count_active (kept ++ news)) in Hp |- *.
  rewrite count_active_app, (new_hires_active _ Hnew), Hact in Hp |- *.
  rewrite length_app, Hk in Hp |- *.
  rewrite (Permutation_length (sorted_by_date_perm _)), length_app, Hlen, Hhl.
  split; [lia|]. split; [lia|]. split; [lia|]. split; [lia|].
  split.
  { rewrite <- (length_map key), Hkeys.
    destruct (expected_keys_length (periods fuel START_DATE) (employees w2))
      as [Hle _].
    assert (Hl2 : List.length (employees w2)
                  = (24 + List.length news)%nat)
      by (rewrite He, length_app, Hk; reflexivity).
    rewrite Hcount, Hl2 in Hle. lia. }
  assert (Hne : sample_records (payroll_records w3) <> []).
  { destruct (active_member kept ltac:(lia)) as [e [Hin Hae]].
    apply (sample_nonempty fuel (employees w2) _ e Hfuel Hkeys).
    - rewrite He. apply in_or_app. now left.
    - rewrite Forall_forall in Hstate. destruct (Hstate e Hin) as [Hs Hd].
      destruct Hs as [[_ Hnone]|[Hia _]]; [|congruence].
      unfold on_payroll. rewrite Hnone, andb_true_r. apply Z.leb_le. lia. }
  assert (Hb : Forall (fun r => (20.39 <= burden_rate r)%Q /\
                                (burden_rate r <= 25.93)%Q)
                      (payroll_records w3)).
  { eapply Forall_impl; [|exact Hrecs]. cbv beta.
    unfold record_bounds. tauto. }
  destruct (sample_mean_between 20.39 25.93 _ Hne Hb) as [H1 H2].
  destruct (sample_records (payroll_records w3)) as [|r rs]; [congruence|].
  split.
  - pose proof (round2_mono _ _ H1) as H.
    change (Num.round2 20.39) with (2039 # 100)%Q in H. lra.
  - pose proof (round2_mono _ _ H2) as H.
    change (Num.round2 25.93) with (2593 # 100)%Q in H. lra.
Qed.

End Run.

Section ExportTable.
Context (R : Rng).

Lemma assigned_projects_length (t : string) :
  List.length (_get_employee_projects (_assign_department t)) = 4%nat.
Proof.
  unfold _assign_department.
  repeat match goal with
         | |- context [any_word_in ?ws ?s] => destruct (any_word_in ws s)
         end; reflexivity.
Qed.

Lemma roster_step_department (events : list Event) (l l' : list Employee) :
  Forall2 (roster_step events) l l' ->
  Forall roster_entry l ->
  Forall (fun e => List.length (_get_employee_projects (department e))
                   = 4%nat) l'.
Proof.
  induction 1 as [|e e' l l' He H IH]; intros Hall; [constructor|].
  inversion Hall as [|? ? Hc Hl]; subst.
  constructor; [|apply IH; exact Hl].
  destruct Hc as [_ [_ [_ [_ [Hd _]]]]].
  destruct He as [->|[_ [d [reason [-> _]]]]];
    cbn [terminate department]; rewrite Hd; apply assigned_projects_length.
Qed.

Lemma time_rows_projects (e : Employee) (d : Z) (r : TimeTrackingRecord) :
  time_entry e d r ->
  List.length (_get_employee_projects (department e)) = 4%nat ->
  map project_name (time_rows r)
  = map Some (_get_employee_projects (department e)) /\
  List.length (time_rows r) = 4%nat.
Proof.
  intros [_ [_ [_ [_ [_ [_ [_ Hk]]]]]]] Hlen.
  unfold time_rows.
  destruct (project_allocations r) as [|kv rest] eqn:E.
  - cbn [map] in Hk. rewrite <- Hk in Hlen. discriminate Hlen.
  - rewrite <- Hk. split.
    + rewrite !map_map. apply map_ext. intros x. reflexivity.
    + rewrite length_map, <- (length_map fst), Hk. exact Hlen.
Qed.

(** X22.  The time-tracking table of the export after a whole run.
    The table is written exactly when there is a time record; every
    record contributes one row per project of its employee's
    department, in order, so four rows each and never a bare row. *)
Theorem run_export_rows (w : World R) :
  exists w',
    main R w = (Ok tt, w') /\
    (time_tracking_export w' = None <-> time_tracking_records w' = []) /\
    List.length (flat_map time_rows (time_tracking_records w'))
    = (4 * List.length (time_tracking_records w'))%nat /\
    Forall (fun r =>
      exists e, In e (employees w') /\
        tr_employee_id r = employee_id e /\
        map project_name (time_rows r)
        = map Some (_get_employee_projects (department e)))
      (time_tracking_records w').
Proof.
  destruct (staffed R w)
    as [w1 [sch [w2 [terms [hs [kept [news [E1 [E2 [He [Hstep [Hall
          [Hidk [Hidn [Hn [Hnew [Hact [Hstate [Hcons [P1 [P2 [Hev
          [Hlen [Hist [Hhs [Hhl [Hterms Hpairs]]]]]]]]]]]]]]]]]]]]]]]]]]].
  destruct (run_from_staffed R w2 Hcons P1)
    as [w3 [w4 [fuel [tnew [E3 [E4 [He4 [Hev4 [Hp4 [Ht4 [Hfuel [Hcount
          [Hkeys [Hrecs [Htime Honce]]]]]]]]]]]]]]].
  exists w4. split.
  { rewrite (main_from_staffed R w w1 w2 sch E1 E2).
    unfold bind. rewrite E3. exact E4. }
  split.
  { unfold time_tracking_export.
    destruct (time_tracking_records w4); split; intros H;
      try reflexivity; discriminate H. }
  rewrite He4, Ht4, P2. cbn [app].
  assert (Hdept : Forall (fun e => List.length
                            (_get_employee_projects (department e)) = 4%nat)
                         (employees w2)).
  { rewrite He. apply Forall_app. split.
    - exact (roster_step_department _ _ _ Hstep Hall).
    - eapply Forall_impl; [|exact Hnew]. cbv beta.
      intros e [_ [Hd _]]. rewrite Hd. reflexivity. }
  rewrite Forall_forall in Hdept.
  assert (Hrows : Forall (fun r =>
            List.length (time_rows r) = 4%nat /\
            exists e, In e (employees w2) /\
              tr_employee_id r = employee_id e /\
              map project_name (time_rows r)
              = map Some (_get_employee_projects (department e))) tnew).
  { eapply Forall_impl; [|exact Htime]. cbv beta.
    intros r [_ [_ [e [Hin [_ Hentry]]]]].
    destruct (time_rows_projects e _ r Hentry (Hdept e Hin)) as [H1 H2].
    split; [exact H2|]. exists e. split; [exact Hin|].
    split; [apply Hentry | exact H1]. }
  split.
  - clear -Hrows. induction Hrows as [|r l [Hr _] Hl IH]; [reflexivity|].
    cbn [flat_map]. rewrite length_app, Hr, IH. cbn [List.length]. lia.
  - eapply Forall_impl; [|exact Hrows]. cbv beta. tauto.
Qed.

End ExportTable.

(* ------------------------------------------------------------------ *)
(** ** The further theorems at concrete inputs *)

Local Open Scope string_scope.
Local Open Scope Z_scope.


Lemma too_few_active_raises_witness :
  (count_active (employees Example.pair_world) < 10)%nat /\
  exists w',
    generate_hiring_termination_events Example.zeros Example.pair_world
    = (Raise IndexError, w') /\
    count_active (employees w') = 0%nat.
Proof.
  assert (H : (count_active (employees Example.pair_world) < 10)%nat)
    by (vm_compute; lia).
  split; [exact H|].
  destruct (too_few_active_raises Example.zeros Example.pair_world H)
    as [w' [E [_ [_ [_ [_ Hc]]]]]].
  exists w'. split; [exact E | exact Hc].
Defined.

Lemma terminations_recorded_witness :
  (10 <= count_active (employees Example.ten_world))%nat /\
  exists schedule w',
    generate_hiring_termination_events Example.zeros Example.ten_world
    = (Ok schedule, w') /\
    (count_active (employees w') + 10
     = count_active (employees Example.ten_world)
       + List.length (filter is_hiring (hiring_events w')))%nat.
Proof.
  assert (H : (10 <= count_active (employees Example.ten_world))%nat)
    by (vm_compute; lia).
  split; [exact H|].
  destruct (terminations_recorded Example.zeros Example.ten_world H)
    as [schedule [w' [E [_ Hc]]]].
  exists schedule, w'. split; [exact E | exact Hc].
Defined.

Lemma hires_recorded_witness :
  (10 <= count_active (employees Example.ten_world))%nat /\
  exists schedule w',
    generate_hiring_termination_events Example.zeros Example.ten_world
    = (Ok schedule, w') /\
    (List.length (filter is_hiring (hiring_events w')) <= 10)%nat.
Proof.
  assert (H : (10 <= count_active (employees Example.ten_world))%nat)
    by (vm_compute; lia).
  split; [exact H|].
  destruct (hires_recorded Example.zeros Example.ten_world H)
    as [schedule [w' [E [Hc _]]]].
  exists schedule, w'. split; [exact E | exact Hc].
Defined.

Lemma roster_after_lifecycle_witness :
  (10 <= count_active (employees Example.ten_world))%nat /\
  exists schedule w' kept news,
    generate_hiring_termination_events Example.zeros Example.ten_world
    = (Ok schedule, w') /\
    employees w' = (kept ++ news)%list /\
    map employee_id kept = map employee_id (employees Example.ten_world).
Proof.
  assert (H : (10 <= count_active (employees Example.ten_world))%nat)
    by (vm_compute; lia).
  split; [exact H|].
  destruct (roster_after_lifecycle Example.zeros Example.ten_world H)
    as [schedule [w' [kept [news [E [He [_ [Hids _]]]]]]]].
  exists schedule, w', kept, news.
  split; [exact E|]. split; [exact He | exact Hids].
Defined.

Lemma events_chronological_witness :
  (10 <= count_active (employees Example.ten_world))%nat /\
  exists schedule w',
    generate_hiring_termination_events Example.zeros Example.ten_world
    = (Ok schedule, w') /\
    ForallOrdPairs (fun a b => ev_date a <= ev_date b) (hiring_events w').
Proof.
  assert (H : (10 <= count_active (employees Example.ten_world))%nat)
    by (vm_compute; lia).
  split; [exact H|].
  destruct (events_chronological Example.zeros Example.ten_world H)
    as [schedule [w' [E [Ho _]]]].
  exists schedule, w'. split; [exact E | exact Ho].
Defined.


Lemma burden_rate_bounds_witness :
  (0 < annual_salary (Example.contractor "CON001" 100 START_DATE))%Q /\
  (0 < hourly_rate (Example.contractor "CON001" 100 START_DATE))%Q /\
  (is_hourly (Example.contractor "CON001" 100 START_DATE) = true ->
   (2079 * hourly_rate (Example.contractor "CON001" 100 START_DATE)
    <= annual_salary (Example.contractor "CON001" 100 START_DATE))%Q /\
   (annual_salary (Example.contractor "CON001" 100 START_DATE)
    <= 2081 * hourly_rate (Example.contractor "CON001" 100 START_DATE))%Q) /\
  exists rec w',
    _generate_payroll_record Example.zeros
      (Example.contractor "CON001" 100 START_DATE) START_DATE
      Example.pair_world = (Ok rec, w') /\
    (20.39 <= burden_rate rec)%Q /\ (burden_rate rec <= 25.93)%Q.
Proof.
  assert (H1 : (0 < annual_salary
                     (Example.contractor "CON001" 100 START_DATE))%Q)
    by (vm_compute; reflexivity).
  assert (H2 : (0 < hourly_rate
                     (Example.contractor "CON001" 100 START_DATE))%Q)
    by (vm_compute; reflexivity).
  assert (H3 : is_hourly (Example.contractor "CON001" 100 START_DATE) = true ->
    (2079 * hourly_rate (Example.contractor "CON001" 100 START_DATE)
     <= annual_salary (Example.contractor "CON001" 100 START_DATE))%Q /\
    (annual_salary (Example.contractor "CON001" 100 START_DATE)
     <= 2081 * hourly_rate (Example.contractor "CON001" 100 START_DATE))%Q)
    by (intros _; split; vm_compute; discriminate).
  split; [exact H1|]. split; [exact H2|]. split; [exact H3|].
  destruct (burden_rate_bounds Example.zeros _ START_DATE
              Example.pair_world H1 H2 H3)
    as [rec [w' [E [Hlo [Hhi _]]]]].
  exists rec, w'. split; [exact E|]. split; [exact Hlo | exact Hhi].
Defined.

Lemma payroll_record_count_witness :
  payroll_records Example.pair_world = [] /\
  Forall paid (employees Example.pair_world) /\
  exists w',
    generate_payroll_data Example.zeros Example.pair_world = (Ok tt, w') /\
    (List.length (payroll_records w')
     <= 79 * List.length (employees Example.pair_world))%nat.
Proof.
  assert (H1 : payroll_records Example.pair_world = []) by reflexivity.
  assert (H2 : Forall paid (employees Example.pair_world)).
  { simpl. constructor; [vm_compute; reflexivity|].
    constructor; [vm_compute; reflexivity | constructor]. }
  split; [exact H1|]. split; [exact H2|].
  destruct (payroll_record_count Example.zeros Example.pair_world H1 H2)
    as [w' [E [Hle _]]].
  exists w'. split; [exact E | exact Hle].
Defined.

Lemma time_tracking_once_a_day_witness :
  NoDup (map employee_id (employees Example.pair_world)) /\
  exists w' new,
    generate_time_tracking_data Example.zeros Example.pair_world
    = (Ok tt, w') /\
    time_tracking_records w'
    = (time_tracking_records Example.pair_world ++ new)%list.
Proof.
  assert (H : NoDup (map employee_id (employees Example.pair_world)))
    by (apply nodupb_sound; vm_compute; reflexivity).
  split; [exact H|].
  destruct (time_tracking_once_a_day Example.zeros Example.pair_world H)
    as [w' [new [E [Hr _]]]].
  exists w', new. split; [exact E | exact Hr].
Defined.
